(** * Fisheries data cleaning: the commercial cleaner and the orchestrator

    A shallow embedding of [clean_commercial.py] and [pipeline.py], with
    the constants of [config.py].

    - A method is a computation over the mutable objects ([self], the
      files on disk) that returns or raises and emits log records: what it
      changed and logged before it raised stays.
    - A pandas [DataFrame] is a header and a list of rows of dynamically
      typed cells.  A [float64] value is modelled by the rational number it
      denotes (rounding and infinities are outside the model) and NaN is the
      missing value [NA], as pandas itself treats it.
    - The text-to-number conversion of [pd.to_numeric] is a parameter
      ([parse_numeric]): every result holds for whatever pandas parses.
    - A path is the text [pathlib] prints for it on POSIX, its normal form.
    - [clean_noncommercial.py] is not among the sources: the orchestrator is
      modelled over an arbitrary non-commercial cleaner. *)

From Stdlib Require Import String Ascii Bool ZArith QArith Lia List Permutation.
Import ListNotations.

Local Open Scope string_scope.
Local Open Scope Z_scope.

(** ** Python: exceptions *)

Module Py.

Inductive exn : Type :=
| KeyError (key : string)
| TypeError (what : string)
| AttributeError (what : string)
| OSError (what : string).

Inductive result (A : Type) : Type :=
| Ok (a : A)
| Raise (e : exn).
Arguments Ok {A} a.
Arguments Raise {A} e.

Definition is_raise {A} (r : result A) : bool :=
  match r with Raise _ => true | Ok _ => false end.

End Py.
Export Py.

(** ** pathlib: POSIX paths *)

Module Pathlib.

(** A path is kept as the text [str] gives of it, which is its normal
    form: the root, then the components joined by single slashes. *)

(** The pieces of a text between its slashes. *)
Fixpoint split_slashes (piece s : string) : list string :=
  match s with
  | EmptyString => [piece]
  | String c s' =>
      if Ascii.eqb c "/"%char then piece :: split_slashes "" s'
      else split_slashes (piece ++ String c "") s'
  end.

Fixpoint leading_slashes (s : string) : nat :=
  match s with
  | String c s' => if Ascii.eqb c "/"%char then S (leading_slashes s') else O
  | EmptyString => O
  end.

(** The root: two leading slashes are kept, any other number is one. *)
Definition root (s : string) : string :=
  match leading_slashes s with
  | O => ""
  | 2%nat => "//"
  | _ => "/"
  end.

(** The components: empty pieces and [.] are dropped, [..] is kept. *)
Definition parts (s : string) : list string :=
  filter (fun x => negb (String.eqb x "") && negb (String.eqb x "."))
         (split_slashes "" s).

(** [str(Path(s))] *)
Definition Path (s : string) : string :=
  match root s, parts s with
  | EmptyString, [] => "."
  | r, ps => r ++ String.concat "/" ps
  end.

Fixpoint ends_with_slash (s : string) : bool :=
  match s with
  | EmptyString => false
  | String c EmptyString => Ascii.eqb c "/"%char
  | String _ s' => ends_with_slash s'
  end.

(** [posixpath.join(a, b)] *)
Definition join (a b : string) : string :=
  if String.prefix "/" b then b
  else if String.eqb a "" || ends_with_slash a then a ++ b
  else a ++ "/" ++ b.

(** [p / name] *)
Definition joinpath (p name : string) : string := Path (join p name).

(** [p.absolute()], in the working directory [cwd]. *)
Definition absolute (cwd p : string) : string :=
  if String.prefix "/" p then p else joinpath cwd p.

End Pathlib.
Export Pathlib.

(** ** pandas: cells, series and data frames *)

Module Pandas.

(** A cell of a table as [read_csv] yields it. *)
Inductive cell : Type :=
| NA                 (* missing: NaN, None, pd.NA *)
| Int (z : Z)        (* an integer *)
| Num (q : Q)        (* a float *)
| Str (s : string).  (* text *)

Definition Series : Type := list cell.

Record DataFrame : Type := mkDataFrame {
  columns : list string;
  rows : list (list cell)
}.

(** [len(df)] *)
Definition len (df : DataFrame) : Z := Z.of_nat (length (rows df)).

Fixpoint index_of (name : string) (cols : list string) : option nat :=
  match cols with
  | [] => None
  | c :: cols' =>
      if String.eqb c name then Some O
      else option_map S (index_of name cols')
  end.

(** [name in df.columns] *)
Definition has_column (df : DataFrame) (name : string) : bool :=
  existsb (String.eqb name) (columns df).

(** The cell of a row under a header; a row shorter than the header is
    padded with missing values, as [read_csv] pads it. *)
Definition cell_at (cols : list string) (name : string) (r : list cell) : cell :=
  match index_of name cols with
  | Some i => nth i r NA
  | None => NA
  end.

(** [df[name]] *)
Definition getitem (df : DataFrame) (name : string) : result Series :=
  match index_of name (columns df) with
  | Some i => Ok (map (fun r => nth i r NA) (rows df))
  | None => Raise (KeyError name)
  end.

Fixpoint set_nth (i : nat) (v : cell) (r : list cell) : list cell :=
  match i, r with
  | O, _ :: r' => v :: r'
  | O, [] => [v]
  | S i', x :: r' => x :: set_nth i' v r'
  | S i', [] => NA :: set_nth i' v []
  end.

Fixpoint zip_with {A B C} (f : A -> B -> C) (xs : list A) (ys : list B) : list C :=
  match xs, ys with
  | x :: xs', y :: ys' => f x y :: zip_with f xs' ys'
  | _, _ => []
  end.

(** [df[name] = s], for a series [s] computed from a column of [df]
    (so of the same length): an existing column is overwritten in place,
    a new one is appended. *)
Definition setitem (df : DataFrame) (name : string) (s : Series) : DataFrame :=
  match index_of name (columns df) with
  | Some i =>
      {| columns := columns df;
         rows := zip_with (fun r v => set_nth i v r) (rows df) s |}
  | None =>
      {| columns := columns df ++ [name];
         rows := zip_with (fun r v => set_nth (length (columns df)) v r) (rows df) s |}
  end.

(** [l[mask]]: boolean indexing. *)
Fixpoint select {A} (mask : list bool) (l : list A) : list A :=
  match mask, l with
  | b :: mask', x :: l' => if b then x :: select mask' l' else select mask' l'
  | _, _ => []
  end.

(** [df[mask]] keeps the rows where the mask is true. *)
Definition boolean_index (df : DataFrame) (mask : list bool) : DataFrame :=
  {| columns := columns df; rows := select mask (rows df) |}.

(** [df.drop(columns=names)], for names that are columns of [df]. *)
Fixpoint drop_cells (cols : list string) (names : list string) (r : list cell)
  : list cell :=
  match cols, r with
  | c :: cols', x :: r' =>
      if existsb (String.eqb c) names then drop_cells cols' names r'
      else x :: drop_cells cols' names r'
  | _, _ => []
  end.

Definition drop_columns (df : DataFrame) (names : list string) : DataFrame :=
  {| columns := filter (fun c => negb (existsb (String.eqb c) names)) (columns df);
     rows := map (drop_cells (columns df) names) (rows df) |}.

(** [s.isnull()] / [s.notna()] on one cell. *)
Definition isnull (c : cell) : bool :=
  match c with NA => true | _ => false end.

Definition notna (c : cell) : bool := negb (isnull c).

(** [s.isin(values)] on one cell, for a list of strings. *)
Definition isin (values : list string) (c : cell) : bool :=
  match c with
  | Str s => existsb (String.eqb s) values
  | _ => false
  end.

(** [mask.sum()] and [mask.any()] *)
Definition count_true (mask : list bool) : Z :=
  Z.of_nat (length (filter (fun b => b) mask)).

Definition any (mask : list bool) : bool := existsb (fun b => b) mask.

(** The number a cell denotes; text and missing values denote none. *)
Definition number (c : cell) : option Q :=
  match c with
  | Int z => Some (inject_Z z)
  | Num q => Some q
  | _ => None
  end.

Definition Qltb (x y : Q) : bool := negb (Qle_bool y x).

(** [s < k] and [s > k] elementwise: false on a missing value ([.any()]
    and [.sum()] skip it), a [TypeError] on text. *)
Definition cell_lt (k : Z) (c : cell) : result bool :=
  match c with
  | NA => Ok false
  | Int z => Ok (z <? k)
  | Num q => Ok (Qltb q (inject_Z k))
  | Str _ => Raise (TypeError "'<' not supported between instances of 'str' and 'int'")
  end.

Definition cell_gt (k : Z) (c : cell) : result bool :=
  match c with
  | NA => Ok false
  | Int z => Ok (k <? z)
  | Num q => Ok (Qltb (inject_Z k) q)
  | Str _ => Raise (TypeError "'>' not supported between instances of 'str' and 'int'")
  end.

Fixpoint map_result {A B} (f : A -> result B) (l : list A) : result (list B) :=
  match l with
  | [] => Ok []
  | x :: l' =>
      match f x with
      | Raise e => Raise e
      | Ok y =>
          match map_result f l' with
          | Raise e => Raise e
          | Ok ys => Ok (y :: ys)
          end
      end
  end.

Definition series_lt (s : Series) (k : Z) : result (list bool) :=
  map_result (cell_lt k) s.

Definition series_gt (s : Series) (k : Z) : result (list bool) :=
  map_result (cell_gt k) s.

(** Equality of cells, as [unique] sees it. *)
Definition cell_eqb (a b : cell) : bool :=
  match a, b with
  | NA, NA => true
  | Str s, Str t => String.eqb s t
  | Str _, _ | _, Str _ | NA, _ | _, NA => false
  | _, _ =>
      match number a, number b with
      | Some x, Some y => Qeq_bool x y
      | _, _ => false
      end
  end.

(** [s.unique()]: the distinct values in order of first appearance. *)
Fixpoint unique_acc (seen : list cell) (s : Series) : list cell :=
  match s with
  | [] => []
  | c :: s' =>
      if existsb (cell_eqb c) seen then unique_acc seen s'
      else c :: unique_acc (c :: seen) s'
  end.

Definition unique (s : Series) : list cell := unique_acc [] s.

(** [pd.to_numeric(s, errors='coerce')] on one cell: numbers stay, a
    missing value stays missing, text becomes the number it parses to and
    a missing value when it parses to none. *)
Definition to_numeric (parse_numeric : string -> option Q) (c : cell) : cell :=
  match c with
  | Str s =>
      match parse_numeric s with
      | Some q => Num q
      | None => NA
      end
  | _ => c
  end.

(** The integers of a signed 64-bit word. *)
Definition in_int64 (z : Z) : bool := (- 2 ^ 63 <=? z) && (z <? 2 ^ 63).

(** [.astype('Int64')] on one cell of a numeric series: the cast is
    refused unless it gives back the same number, so a float that is not
    a whole number cannot be cast, and neither can a number outside
    int64.  In the message [{}] stands for the dtype pandas names, which
    it takes from the series as a whole. *)
Definition cannot_cast : exn :=
  TypeError "cannot safely cast non-equivalent {} to int64".

Definition astype_Int64_cell (c : cell) : result cell :=
  match c with
  | NA => Ok NA
  | Int z => if in_int64 z then Ok (Int z) else Raise cannot_cast
  | Num q =>
      if (Qden (Qred q) =? 1)%positive && in_int64 (Qnum (Qred q))
      then Ok (Int (Qnum (Qred q)))
      else Raise cannot_cast
  | Str _ => Raise cannot_cast
  end.

Definition astype_Int64 (s : Series) : result Series :=
  map_result astype_Int64_cell s.

(** The integers of a series of dtype [Int64], its missing values
    skipped. *)
Fixpoint Int64_values (s : Series) : list Z :=
  match s with
  | [] => []
  | Int z :: s' => z :: Int64_values s'
  | _ :: s' => Int64_values s'
  end.

(** [s.min()] and [s.max()] of an [Int64] series: [pd.NA] when nothing
    is left after the missing values are skipped. *)
Definition series_min (s : Series) : cell :=
  match Int64_values s with
  | [] => NA
  | z :: zs => Int (fold_left Z.min zs z)
  end.

Definition series_max (s : Series) : cell :=
  match Int64_values s with
  | [] => NA
  | z :: zs => Int (fold_left Z.max zs z)
  end.

(** [int(x)] of a scalar taken from an [Int64] series. *)
Definition py_int (c : cell) : result Z :=
  match c with
  | Int z => Ok z
  | Num q => Ok (Z.quot (Qnum q) (Zpos (Qden q)))
  | NA => Raise (TypeError "int() argument must be a string, a bytes-like object or a real number, not 'NAType'")
  | Str _ => Raise (TypeError "int() of text")
  end.

(** [s.sum()] of a numeric series, missing values skipped. *)
Definition series_sum (s : Series) : Q :=
  fold_left (fun acc c => match number c with Some q => Qred (acc + q) | None => acc end)
            s 0%Q.

(** [sorted(xs)]: text is ordered by code point and numbers by value;
    comparing text with a number (or with NaN) is a [TypeError].  Every
    comparison with NaN is false. *)
Definition is_str (c : cell) : bool :=
  match c with Str _ => true | _ => false end.

Definition cell_ltb (a b : cell) : bool :=
  match a, b with
  | Str s, Str t => String.ltb s t
  | _, _ =>
      match number a, number b with
      | Some x, Some y => Qltb x y
      | _, _ => false
      end
  end.

Fixpoint insert_by {A} (lt : A -> A -> bool) (x : A) (l : list A) : list A :=
  match l with
  | [] => [x]
  | y :: l' => if lt x y then x :: y :: l' else y :: insert_by lt x l'
  end.

Definition sort_by {A} (lt : A -> A -> bool) (l : list A) : list A :=
  fold_left (fun acc x => insert_by lt x acc) l [].

Definition py_sorted (xs : list cell) : result (list cell) :=
  if existsb is_str xs && existsb (fun c => negb (is_str c)) xs
  then Raise (TypeError "'<' not supported between instances of 'float' and 'str'")
  else Ok (sort_by cell_ltb xs).

Definition sorted_ints (zs : list Z) : list Z := sort_by Z.ltb zs.

Fixpoint dedup (seen : list Z) (zs : list Z) : list Z :=
  match zs with
  | [] => []
  | z :: zs' =>
      if existsb (Z.eqb z) seen then dedup seen zs'
      else z :: dedup (z :: seen) zs'
  end.

(** The groups of [df.groupby(key)]: the sorted distinct keys that are
    not missing, each with its rows. *)
Definition is_key (cols : list string) (key : string) (k : Z) (r : list cell) : bool :=
  match cell_at cols key r with
  | Int z => z =? k
  | _ => false
  end.

Definition groupby (df : DataFrame) (key : string) : result (list (Z * list (list cell))) :=
  match getitem df key with
  | Raise e => Raise e
  | Ok s =>
      Ok (map (fun k => (k, filter (is_key (columns df) key k) (rows df)))
              (sorted_ints (dedup [] (Int64_values s))))
  end.

End Pandas.
Export Pandas.

(** ** The records the cleaners and the orchestrator exchange *)

(** The dictionary [generate_summary_statistics] returns. *)
Module Summary.

Record DateRange : Type := mkDateRange {
  min_year : Z;
  max_year : Z
}.

Record t : Type := mkSummary {
  data_type : string;
  processing_timestamp : string;
  raw_row_count : Z;
  cleaned_row_count : Z;
  rows_removed : Z;
  date_range : DateRange;
  total_exchange_value : Q;
  unique_counties : list cell;
  unique_species_groups : list cell;
  unique_ecosystem_types : list cell;
  unique_area_ids : list Z;
  records_by_year : list (Z * Z);
  total_value_by_year : list (Z * Q)
}.

End Summary.

(** Modelled from the spec: the summary of the non-commercial cleaner, whose
    module [clean_noncommercial.py] is not among the sources.  The spec
    gives it the shape of the commercial summary; the record holds the keys
    [pipeline.py] reads from it. *)
Module NonCommercialSummary.

Record t : Type := mkSummary {
  raw_row_count : Z;
  cleaned_row_count : Z;
  rows_removed : Z;
  date_range : Summary.DateRange;
  total_exchange_value : Q;
  unique_islands : list cell
}.

End NonCommercialSummary.

(** The dictionary [generate_combined_summary] returns; a key that may be
    missing (['overall']) or hold [None] is an [option]. *)
Module CombinedSummary.

Record Overall : Type := mkOverall {
  total_records : Z;
  total_exchange_value : Q;
  combined_date_range : Summary.DateRange
}.

Record t : Type := mkCombined {
  pipeline_timestamp : string;
  commercial : option Summary.t;
  non_commercial : option NonCommercialSummary.t;
  overall : option Overall
}.

End CombinedSummary.

(** ** The world outside the program: files, the clock and the log sink *)

Module World.

(** A file of an input directory, named by the path of the directory;
    [file_table] is what [pd.read_csv] makes of it, [None] when reading
    it raises. *)
Record input_file : Type := mkFile {
  file_dir : string;
  file_name : string;
  file_table : option DataFrame
}.

Inductive level : Type := INFO | WARNING | ERROR.

(** A log record: the text of the message with [{}] for each
    interpolated value, and the values. *)
Record log_record : Type := mkLog {
  levelname : level;
  message : string;
  values : list cell
}.

Record t : Type := mkWorld {
  input_files : list input_file;             (* in the order [glob] lists them *)
  csv_written : list (string * DataFrame);   (* latest first *)
  json_written : list (string * option CombinedSummary.t);
                                             (* [None]: cut short, no JSON *)
  cwd : string;                              (* os.getcwd() *)
  today : string;                            (* strftime('%Y%m%d') *)
  time_of_day : string;                      (* strftime('%H%M%S') *)
  now : string                               (* isoformat() *)
}.

Definition write_csv (path : string) (df : DataFrame) (w : t) : t :=
  {| input_files := input_files w; csv_written := (path, df) :: csv_written w;
     json_written := json_written w; cwd := cwd w;
     today := today w; time_of_day := time_of_day w; now := now w |}.

Definition write_json (path : string) (s : option CombinedSummary.t) (w : t) : t :=
  {| input_files := input_files w; csv_written := csv_written w;
     json_written := (path, s) :: json_written w; cwd := cwd w;
     today := today w; time_of_day := time_of_day w; now := now w |}.

(** The file at a path, as last written. *)
Fixpoint read_back {A} (path : string) (files : list (string * A)) : option A :=
  match files with
  | [] => None
  | (p, x) :: files' => if String.eqb p path then Some x else read_back path files'
  end.

(** [fnmatch] for patterns made of literal characters and [*]. *)
Fixpoint glob_match (pattern : list ascii) : list ascii -> bool :=
  match pattern with
  | [] => fun s => match s with [] => true | _ :: _ => false end
  | c :: pattern' =>
      if Ascii.eqb c "*"%char then
        fix star (s : list ascii) : bool :=
          glob_match pattern' s
          || match s with [] => false | _ :: s' => star s' end
      else
        fun s =>
          match s with
          | [] => false
          | x :: s' => Ascii.eqb c x && glob_match pattern' s'
          end
  end.

Definition fnmatch (pattern name : string) : bool :=
  glob_match (list_ascii_of_string pattern) (list_ascii_of_string name).

(** [needle in haystack] *)
Definition contains (needle haystack : string) : bool :=
  fnmatch ("*" ++ needle ++ "*") haystack.

(** [list(Path(dir).glob(pattern))] *)
Definition glob (dir pattern : string) (w : t) : list input_file :=
  filter (fun f => String.eqb (file_dir f) dir && fnmatch pattern (file_name f))
         (input_files w).

(** ['=' * n] *)
Fixpoint banner (n : nat) : string :=
  match n with
  | O => ""
  | S n' => String "="%char (banner n')
  end.

End World.
Import World.

(** ** Methods as computations

    A method reads and changes a state, returns or raises, and emits log
    records; what it changed and logged before it raised stays. *)

Module Run.

Definition M (S A : Type) : Type := S -> result A * S * list log_record.

Definition ret {S A} (a : A) : M S A := fun s => (Ok a, s, []).

Definition bind {S A B} (m : M S A) (k : A -> M S B) : M S B :=
  fun s =>
    match m s with
    | (Ok a, s', l) =>
        match k a s' with
        | (r, s'', l') => (r, s'', (l ++ l')%list)
        end
    | (Raise e, s', l) => (Raise e, s', l)
    end.

Definition raise {S A} (e : exn) : M S A := fun s => (Raise e, s, []).

Definition modify {S} (f : S -> S) : M S unit := fun s => (Ok tt, f s, []).

(** [lift r]: a pure step that may raise. *)
Definition lift {S A} (r : result A) : M S A := fun s => (r, s, []).

(** [try: ... except Exception as e: ...] *)
Definition try_except {S A} (body : M S A) (handler : exn -> M S A) : M S A :=
  fun s =>
    match body s with
    | (Ok a, s', l) => (Ok a, s', l)
    | (Raise e, s', l) =>
        match handler e s' with
        | (r, s'', l') => (r, s'', (l ++ l')%list)
        end
    end.

(** [for x in xs: body x] *)
Fixpoint for_each {S A} (xs : list A) (body : A -> M S unit) : M S unit :=
  match xs with
  | [] => ret tt
  | x :: xs' => bind (body x) (fun _ => for_each xs' body)
  end.

(** What a run leaves behind. *)
Definition returned {S A} (x : result A * S * list log_record) : result A := fst (fst x).
Definition final {S A} (x : result A * S * list log_record) : S := snd (fst x).
Definition logged {S A} (x : result A * S * list log_record) : list log_record := snd x.

End Run.
Export Run.

Declare Scope py_scope.
Delimit Scope py_scope with py.
Notation "x <- m ;; k" := (bind m (fun x => k))
  (at level 61, m at next level, right associativity) : py_scope.
Notation "m ;; k" := (bind m (fun _ => k))
  (at level 61, right associativity) : py_scope.
Notation "' p <- m ;; k" := (bind m (fun p => k))
  (at level 61, p pattern, m at next level, right associativity) : py_scope.

(** The state of a method of an object [Self] running in the world. *)
Definition St (Self : Type) : Type := (World.t * Self)%type.

Section Logging.

Context {Self : Type}.

Definition logging (l : level) (text : string) (vals : list cell) : M (St Self) unit :=
  fun s => (Ok tt, s, [mkLog l text vals]).

Definition logging_info := logging INFO.
Definition logging_warning := logging WARNING.
Definition logging_error := logging ERROR.

Definition get_self : M (St Self) Self := fun s => (Ok (snd s), s, []).

Definition get_world : M (St Self) World.t := fun s => (Ok (fst s), s, []).

Definition set_self (f : Self -> Self) : M (St Self) unit :=
  modify (fun s => (fst s, f (snd s))).

Definition set_world (f : World.t -> World.t) : M (St Self) unit :=
  modify (fun s => (f (fst s), snd s)).

End Logging.

(** ** [config.py]: class [Config] *)

Module Config.

Section Paths.

(** The directory [config.py] lies in ([Path(__file__).parent]). *)
Variable BASE_DIR : string.

Definition DATA_RAW_DIR : string := joinpath (joinpath BASE_DIR "data") "raw".
Definition DATA_CLEANED_DIR : string := joinpath (joinpath BASE_DIR "data") "cleaned".
Definition LOGS_DIR : string := joinpath BASE_DIR "logs".

End Paths.

Definition COMMERCIAL_FILE_PATTERN : string := "*tidied_comm_ev*.csv".
Definition NONCOMMERCIAL_FILE_PATTERN : string := "*tidied_noncomm_ev*.csv".

Definition VALID_COUNTIES : list string :=
  ["Hawaii"; "Maui"; "Honolulu"; "Kauai"; "Kalawao"].

Definition VALID_ISLANDS : list string :=
  ["Hawaii"; "Kauai"; "Lanai"; "Maui"; "Molokai"; "Oahu"].

Definition COMMERCIAL_MIN_YEAR : Z := 1997.
Definition COMMERCIAL_MAX_YEAR : Z := 2021.

Definition NONCOMMERCIAL_MIN_YEAR : Z := 2005.
Definition NONCOMMERCIAL_MAX_YEAR : Z := 2022.

Definition COMMERCIAL_SPECIES_GROUPS : list string :=
  ["Deep 7 Bottomfish"; "Shallow Bottomfish"; "Pelagics"; "Reef-Associated"; "All Species"].

Definition NONCOMMERCIAL_SPECIES_GROUPS : list string := ["Herbivores"].

Definition ECOSYSTEM_TYPES : list string :=
  ["Inshore — Reef"; "Coastal — Open Ocean"; "All Ecosystems"].

Definition AGGREGATE_SPECIES_VALUES : list string := ["All Species"].

Definition AGGREGATE_ECOSYSTEM_VALUES : list string := ["All Ecosystems"].

Definition DISPLAY_ONLY_COLUMNS : list string :=
  ["county_olelo"; "island_olelo"; "exchange_value_formatted"].

Definition LOG_LEVEL : string := "INFO".
Definition LOG_FORMAT : string := "%(asctime)s - %(levelname)s - %(message)s".

Definition EXPORT_TIMESTAMP_FORMAT : string := "%Y%m%d".

Definition REQUIRED_COMMERCIAL_COLUMNS : list string :=
  ["year"; "area_id"; "county"; "species_group"; "ecosystem_type"; "exchange_value"].

Definition REQUIRED_NONCOMMERCIAL_COLUMNS : list string :=
  ["year"; "island"; "county"; "species_group"; "ecosystem_type"; "exchange_value"].

End Config.

(** ** [clean_commercial.py]: class [CommercialDataCleaner] *)

Module CleanCommercial.

Record CommercialDataCleaner : Type := mkCleaner {
  input_dir : string;
  output_dir : string;
  data : option DataFrame;
  raw_row_count : Z;
  cleaned_row_count : Z
}.

(** [__init__]; it also creates the output directory, which the model
    takes to exist. *)
Definition init (input_dir output_dir : string) : CommercialDataCleaner :=
  {| input_dir := Path input_dir; output_dir := Path output_dir; data := None;
     raw_row_count := 0; cleaned_row_count := 0 |}.

Definition state : Type := St CommercialDataCleaner.

Definition set_data (df : DataFrame) : M state unit :=
  set_self (fun self =>
    {| input_dir := input_dir self; output_dir := output_dir self;
       data := Some df;
       raw_row_count := raw_row_count self;
       cleaned_row_count := cleaned_row_count self |}).

Definition set_raw_row_count (n : Z) : M state unit :=
  set_self (fun self =>
    {| input_dir := input_dir self; output_dir := output_dir self;
       data := data self;
       raw_row_count := n;
       cleaned_row_count := cleaned_row_count self |}).

Definition set_cleaned_row_count (n : Z) : M state unit :=
  set_self (fun self =>
    {| input_dir := input_dir self; output_dir := output_dir self;
       data := data self;
       raw_row_count := raw_row_count self;
       cleaned_row_count := n |}).

(** What Python raises when [self.data] is still [None]. *)
Definition not_subscriptable : exn :=
  TypeError "'NoneType' object is not subscriptable".

Definition no_item_assignment : exn :=
  TypeError "'NoneType' object does not support item assignment".

Definition no_len : exn :=
  TypeError "object of type 'NoneType' has no len()".

Definition no_attribute (name : string) : exn :=
  AttributeError ("'NoneType' object has no attribute '" ++ name ++ "'").

(** [self.data], used as a table; [otherwise] is raised when nothing has
    been loaded. *)
Definition self_data (otherwise : exn) : M state DataFrame :=
  fun s =>
    match data (snd s) with
    | Some df => (Ok df, s, [])
    | None => (Raise otherwise, s, [])
    end.

(** [self.data[name]] *)
Definition column (name : string) : M state Series :=
  (df <- self_data not_subscriptable ;; lift (getitem df name))%py.

(** [pd.read_csv(f)] *)
Definition read_csv (f : input_file) : M state DataFrame :=
  match file_table f with
  | Some df => ret df
  | None => raise (OSError (file_name f))
  end.

Definition is_empty {A} (l : list A) : bool :=
  match l with [] => true | _ :: _ => false end.

Definition exn_text (e : exn) : cell :=
  match e with
  | KeyError k => Str k
  | TypeError t => Str t
  | AttributeError t => Str t
  | OSError t => Str t
  end.

Definition load_data : M state bool :=
  (logging_info "Loading commercial fisheries data..." [] ;;
   try_except
     (self <- get_self ;;
      w <- get_world ;;
      let comm_files := glob (input_dir self) "*tidied_comm_ev*.csv" w in
      let comm_files :=
        if is_empty comm_files
        then filter (fun f => negb (contains "noncomm" (file_name f)))
                    (glob (input_dir self) "*comm_ev*.csv" w)
        else comm_files in
      match comm_files with
      | [] =>
          logging_error "No commercial data file found in {}" [Str (input_dir self)] ;;
          ret false
      | f :: _ =>
          df <- read_csv f ;;
          set_data df ;;
          set_raw_row_count (len df) ;;
          logging_info "Loaded {} rows from {}" [Int (len df); Str (file_name f)] ;;
          ret true
      end)
     (fun e =>
        logging_error "Error loading commercial data: {}" [exn_text e] ;;
        ret false))%py.

Definition required_columns : list string :=
  ["year"; "area_id"; "county"; "species_group"; "ecosystem_type"; "exchange_value"].

Definition optional_columns : list string :=
  ["county_olelo"; "exchange_value_formatted"].

Definition validate_schema : M state bool :=
  (logging_info "Validating data schema..." [] ;;
   df <- self_data (no_attribute "columns") ;;
   let missing_required := filter (fun col => negb (has_column df col)) required_columns in
   if negb (is_empty missing_required) then
     logging_error "Missing required columns: {}" (map Str missing_required) ;;
     ret false
   else
     let present_optional := filter (has_column df) optional_columns in
     (if negb (is_empty present_optional)
      then logging_info "Optional columns present: {}" (map Str present_optional)
      else ret tt) ;;
     logging_info "Schema validation passed" [] ;;
     ret true)%py.

Section Coercion.

(** The number pandas reads in a text, if any. *)
Variable parse_numeric : string -> option Q.

Definition validate_data_types : M state unit :=
  (logging_info "Validating data types..." [] ;;
   year <- column "year" ;;
   year <- lift (astype_Int64 (map (to_numeric parse_numeric) year)) ;;
   df <- self_data no_item_assignment ;;
   set_data (setitem df "year" year) ;;
   area_id <- column "area_id" ;;
   area_id <- lift (astype_Int64 (map (to_numeric parse_numeric) area_id)) ;;
   df <- self_data no_item_assignment ;;
   set_data (setitem df "area_id" area_id) ;;
   exchange_value <- column "exchange_value" ;;
   df <- self_data no_item_assignment ;;
   set_data (setitem df "exchange_value" (map (to_numeric parse_numeric) exchange_value)) ;;
   year <- column "year" ;;
   let null_years := count_true (map isnull year) in
   exchange_value <- column "exchange_value" ;;
   let null_values := count_true (map isnull exchange_value) in
   (if null_years >? 0
    then logging_warning "Found {} null years after conversion" [Int null_years]
    else ret tt) ;;
   (if null_values >? 0
    then logging_warning "Found {} null exchange values after conversion" [Int null_values]
    else ret tt))%py.

End Coercion.

(** An entry of the list [issues]: the text and its values. *)
Definition issue : Type := (string * list cell)%type.

Definition validate_data_ranges : M state bool :=
  (logging_info "Validating data ranges..." [] ;;
   let issues : list issue := [] in
   exchange_value <- column "exchange_value" ;;
   negative <- lift (series_lt exchange_value 0) ;;
   let issues :=
     if any negative
     then (issues ++ [("{} negative exchange values", [Int (count_true negative)])])%list
     else issues in
   year <- column "year" ;;
   too_early <- lift (series_lt year 1997) ;;
   out_of_range <-
     (if any too_early then ret true
      else too_late <- lift (series_gt year 2021) ;; ret (any too_late)) ;;
   issues <-
     (if out_of_range : bool then
        too_late <- lift (series_gt year 2021) ;;
        let invalid_years := unique (select (zip_with orb too_early too_late) year) in
        ret (issues ++ [("Years outside expected range (1997-2021): {}", invalid_years)])%list
      else ret issues) ;;
   (if negb (is_empty issues)
    then for_each issues
           (fun i => logging_warning ("Data quality issue: " ++ fst i) (snd i))
    else logging_info "Data range validation passed" []) ;;
   ret true)%py.

(** The three category checks share their shape: the distinct values of
    a column against the expected ones. *)
Definition validate_categories (start : string) (col : string)
           (expected : list string) (bad good : string) : M state unit :=
  (logging_info start [] ;;
   values <- column col ;;
   let unique_values := unique values in
   let unexpected := filter (fun v => negb (isin expected v)) unique_values in
   if negb (is_empty unexpected) then
     logging_warning bad unexpected
   else
     sorted <- lift (py_sorted unique_values) ;;
     logging_info good sorted)%py.

Definition validate_ecosystem_types : M state unit :=
  validate_categories "Validating ecosystem types..." "ecosystem_type"
    ["Inshore — Reef"; "Coastal — Open Ocean"; "All Ecosystems"]
    "Unexpected ecosystem types: {}" "All ecosystem types valid: {}".

Definition validate_species_groups : M state unit :=
  validate_categories "Validating species groups..." "species_group"
    ["Deep 7 Bottomfish"; "Shallow Bottomfish"; "Pelagics"; "Reef-Associated"; "All Species"]
    "Unexpected species groups: {}" "All species groups valid: {}".

Definition validate_counties : M state unit :=
  validate_categories "Validating county names..." "county"
    ["Hawaii"; "Maui"; "Honolulu"; "Kauai"; "Kalawao"]
    "Unexpected county names: {}" "All counties valid: {}".

Definition remove_null_values : M state unit :=
  (logging_info "Removing null/NA exchange values..." [] ;;
   df <- self_data no_len ;;
   let before_count := len df in
   exchange_value <- column "exchange_value" ;;
   set_data (boolean_index df (map notna exchange_value)) ;;
   df <- self_data no_len ;;
   let after_count := len df in
   let removed := before_count - after_count in
   if removed >? 0
   then logging_info "Removed {} records with null/NA exchange values" [Int removed]
   else logging_info "No null/NA values to remove" [])%py.

Definition remove_aggregate_rows (remove_aggregates : bool) : M state unit :=
  (if negb remove_aggregates then
     logging_info "Skipping aggregate row removal (remove_aggregates=False)" []
   else
     logging_info "Removing aggregate rows..." [] ;;
     df <- self_data no_len ;;
     let before_count := len df in
     species_group <- column "species_group" ;;
     set_data (boolean_index df (map (fun c => negb (isin ["All Species"] c)) species_group)) ;;
     df <- self_data not_subscriptable ;;
     ecosystem_type <- column "ecosystem_type" ;;
     set_data (boolean_index df (map (fun c => negb (isin ["All Ecosystems"] c)) ecosystem_type)) ;;
     df <- self_data no_len ;;
     let after_count := len df in
     let removed := before_count - after_count in
     if removed >? 0
     then logging_info "Removed {} aggregate rows" [Int removed]
     else logging_info "No aggregate rows found to remove" [])%py.

Definition remove_display_columns (remove_display : bool) : M state unit :=
  (if negb remove_display then
     logging_info "Keeping display columns (remove_display=False)" []
   else
     logging_info "Removing display-only columns..." [] ;;
     let display_columns := ["county_olelo"; "exchange_value_formatted"] in
     df <- self_data (no_attribute "columns") ;;
     let columns_to_drop := filter (has_column df) display_columns in
     if negb (is_empty columns_to_drop) then
       set_data (drop_columns df columns_to_drop) ;;
       logging_info "Removed columns: {}" (map Str columns_to_drop)
     else
       logging_info "No display columns to remove" [])%py.

Definition generate_summary_statistics : M state Summary.t :=
  (logging_info "Generating summary statistics..." [] ;;
   w <- get_world ;;
   let processing_timestamp := now w in
   self <- get_self ;;
   df <- self_data no_len ;;
   year <- column "year" ;;
   min_year <- lift (py_int (series_min year)) ;;
   year <- column "year" ;;
   max_year <- lift (py_int (series_max year)) ;;
   exchange_value <- column "exchange_value" ;;
   county <- column "county" ;;
   unique_counties <- lift (py_sorted (unique county)) ;;
   species_group <- column "species_group" ;;
   unique_species_groups <- lift (py_sorted (unique species_group)) ;;
   ecosystem_type <- column "ecosystem_type" ;;
   unique_ecosystem_types <- lift (py_sorted (unique ecosystem_type)) ;;
   area_id <- column "area_id" ;;
   by_year <- lift (groupby df "year") ;;
   _ <- column "exchange_value" ;;
   ret {| Summary.data_type := "commercial";
          Summary.processing_timestamp := processing_timestamp;
          Summary.raw_row_count := raw_row_count self;
          Summary.cleaned_row_count := len df;
          Summary.rows_removed := raw_row_count self - len df;
          Summary.date_range :=
            {| Summary.min_year := min_year; Summary.max_year := max_year |};
          Summary.total_exchange_value := series_sum exchange_value;
          Summary.unique_counties := unique_counties;
          Summary.unique_species_groups := unique_species_groups;
          Summary.unique_ecosystem_types := unique_ecosystem_types;
          Summary.unique_area_ids := sorted_ints (Int64_values (unique area_id));
          Summary.records_by_year :=
            map (fun g => (fst g, Z.of_nat (length (snd g)))) by_year;
          Summary.total_value_by_year :=
            map (fun g => (fst g,
                           series_sum (map (cell_at (columns df) "exchange_value") (snd g))))
                by_year |})%py.

Definition export_cleaned_data : M state string :=
  (logging_info "Exporting cleaned commercial data..." [] ;;
   w <- get_world ;;
   let timestamp := today w in
   self <- get_self ;;
   let output_file :=
     joinpath (output_dir self) ("cleaned_commercial_" ++ timestamp ++ ".csv") in
   df <- self_data (no_attribute "to_csv") ;;
   set_world (write_csv output_file df) ;;
   set_cleaned_row_count (len df) ;;
   logging_info "Exported {} rows to {}" [Int (len df); Str output_file] ;;
   ret output_file)%py.

Section Pipeline.

Variable parse_numeric : string -> option Q.

Definition run_cleaning_pipeline (remove_aggregates remove_display : bool)
  : M state (bool * option string * option Summary.t) :=
  (logging_info (banner 60) [] ;;
   logging_info "COMMERCIAL FISHERIES DATA CLEANING PIPELINE" [] ;;
   logging_info (banner 60) [] ;;
   loaded <- load_data ;;
   if negb loaded then ret (false, None, None) else
   valid <- validate_schema ;;
   if negb valid then ret (false, None, None) else
   validate_data_types parse_numeric ;;
   validate_data_ranges ;;
   validate_ecosystem_types ;;
   validate_species_groups ;;
   validate_counties ;;
   remove_null_values ;;
   remove_aggregate_rows remove_aggregates ;;
   remove_display_columns remove_display ;;
   output_file <- export_cleaned_data ;;
   summary <- generate_summary_statistics ;;
   self <- get_self ;;
   logging_info (banner 60) [] ;;
   logging_info "COMMERCIAL DATA CLEANING COMPLETE" [] ;;
   logging_info "Input:  {} rows" [Int (raw_row_count self)] ;;
   logging_info "Output: {} rows" [Int (cleaned_row_count self)] ;;
   logging_info "Removed: {} rows" [Int (raw_row_count self - cleaned_row_count self)] ;;
   logging_info (banner 60) [] ;;
   ret (true, Some output_file, Some summary))%py.

End Pipeline.

End CleanCommercial.

(** ** [pipeline.py]: class [FisheriesCleaningPipeline] *)

Module Pipeline.

(** An entry of [self.results], once a cleaner has run:
    [{'success': True, 'output_file': ..., 'summary': ...}] or
    [{'success': False, 'error': ...}]. *)
Inductive outcome (S : Type) : Type :=
| Succeeded (output_file : string) (summary : option S)
| Failed (error : string).
Arguments Succeeded {S} output_file summary.
Arguments Failed {S} error.

(** [self.results]; an entry is [None] until its cleaner has run. *)
Record Results : Type := mkResults {
  commercial : option (outcome Summary.t);
  non_commercial : option (outcome NonCommercialSummary.t)
}.

(** The truth value of an entry: [None] is false, a dictionary with keys
    is true. *)
Definition truthy {S} (entry : option (outcome S)) : bool :=
  match entry with
  | None => false
  | Some _ => true
  end.

(** [entry['summary']] *)
Definition subscript_summary {S} (entry : option (outcome S)) : result (option S) :=
  match entry with
  | Some (Succeeded _ summary) => Ok summary
  | Some (Failed _) => Raise (KeyError "summary")
  | None => Raise (TypeError "'NoneType' object is not subscriptable")
  end.

(** [entry['success']] *)
Definition subscript_success {S} (entry : option (outcome S)) : result bool :=
  match entry with
  | Some (Succeeded _ _) => Ok true
  | Some (Failed _) => Ok false
  | None => Raise (TypeError "'NoneType' object is not subscriptable")
  end.

(** [summary[key]] where [summary] may be [None]. *)
Definition subscript {S A} (field : S -> A) (summary : option S) : result A :=
  match summary with
  | Some s => Ok (field s)
  | None => Raise (TypeError "'NoneType' object is not subscriptable")
  end.

(** [str(output_file)] *)
Definition str_path (output_file : option string) : string :=
  match output_file with
  | Some p => p
  | None => "None"
  end.

Section Orchestrator.

Variable parse_numeric : string -> option Q.

(** The non-commercial cleaner, of which [pipeline.py] uses the
    constructor and [run_cleaning_pipeline]. *)
Variable NonCommercialDataCleaner : Type.
Variable noncommercial_init : string -> string -> NonCommercialDataCleaner.
Variable noncommercial_run_cleaning_pipeline :
  bool -> bool ->
  M (St NonCommercialDataCleaner) (bool * option string * option NonCommercialSummary.t).

Record FisheriesCleaningPipeline : Type := mkPipeline {
  input_dir : string;
  output_dir : string;
  commercial_cleaner : CleanCommercial.CommercialDataCleaner;
  noncommercial_cleaner : NonCommercialDataCleaner;
  results : Results
}.

Definition init (input_dir output_dir : string) : FisheriesCleaningPipeline :=
  {| input_dir := Path input_dir;
     output_dir := Path output_dir;
     commercial_cleaner := CleanCommercial.init input_dir output_dir;
     noncommercial_cleaner := noncommercial_init input_dir output_dir;
     results := {| commercial := None; non_commercial := None |} |}.

Definition state : Type := St FisheriesCleaningPipeline.

(** A method call on [self.commercial_cleaner]. *)
Definition on_commercial_cleaner {A} (m : M CleanCommercial.state A) : M state A :=
  fun s =>
    let self := snd s in
    match m (fst s, commercial_cleaner self) with
    | (r, s', l) =>
        (r, (fst s',
             {| input_dir := input_dir self; output_dir := output_dir self;
                commercial_cleaner := snd s';
                noncommercial_cleaner := noncommercial_cleaner self;
                results := results self |}), l)
    end.

(** A method call on [self.noncommercial_cleaner]. *)
Definition on_noncommercial_cleaner {A} (m : M (St NonCommercialDataCleaner) A)
  : M state A :=
  fun s =>
    let self := snd s in
    match m (fst s, noncommercial_cleaner self) with
    | (r, s', l) =>
        (r, (fst s',
             {| input_dir := input_dir self; output_dir := output_dir self;
                commercial_cleaner := commercial_cleaner self;
                noncommercial_cleaner := snd s';
                results := results self |}), l)
    end.

Definition set_results (f : Results -> Results) : M state unit :=
  set_self (fun self =>
    {| input_dir := input_dir self; output_dir := output_dir self;
       commercial_cleaner := commercial_cleaner self;
       noncommercial_cleaner := noncommercial_cleaner self;
       results := f (results self) |}).

Definition setup_logging : M state unit :=
  (w <- get_world ;;
   let timestamp := today w ++ "_" ++ time_of_day w in
   let log_dir := Path "logs" in
   let log_file := joinpath log_dir ("cleaning_pipeline_" ++ timestamp ++ ".log") in
   logging_info "Logging initialized: {}" [Str log_file])%py.

Definition run_commercial_cleaning (remove_aggregates remove_display : bool)
  : M state bool :=
  (logging_info "" [] ;;
   logging_info "STARTING COMMERCIAL DATA CLEANING" [] ;;
   logging_info "" [] ;;
   r <- on_commercial_cleaner
          (CleanCommercial.run_cleaning_pipeline parse_numeric
             remove_aggregates remove_display) ;;
   let '(success, output_file, summary) := r in
   if success : bool then
     set_results (fun rs =>
       {| commercial := Some (Succeeded (str_path output_file) summary);
          non_commercial := non_commercial rs |}) ;;
     ret true
   else
     set_results (fun rs =>
       {| commercial := Some (Failed "Commercial data cleaning failed");
          non_commercial := non_commercial rs |}) ;;
     ret false)%py.

Definition run_noncommercial_cleaning (remove_aggregates remove_display : bool)
  : M state bool :=
  (logging_info "" [] ;;
   logging_info "STARTING NON-COMMERCIAL DATA CLEANING" [] ;;
   logging_info "" [] ;;
   r <- on_noncommercial_cleaner
          (noncommercial_run_cleaning_pipeline remove_aggregates remove_display) ;;
   let '(success, output_file, summary) := r in
   if success : bool then
     set_results (fun rs =>
       {| commercial := commercial rs;
          non_commercial := Some (Succeeded (str_path output_file) summary) |}) ;;
     ret true
   else
     set_results (fun rs =>
       {| commercial := commercial rs;
          non_commercial := Some (Failed "Non-commercial data cleaning failed") |}) ;;
     ret false)%py.

Definition generate_combined_summary : M state CombinedSummary.t :=
  (logging_info "Generating combined summary statistics..." [] ;;
   w <- get_world ;;
   let pipeline_timestamp := now w in
   self <- get_self ;;
   let results := results self in
   commercial_summary <-
     (if truthy (commercial results)
      then lift (subscript_summary (commercial results))
      else ret None) ;;
   non_commercial_summary <-
     (if truthy (non_commercial results)
      then lift (subscript_summary (non_commercial results))
      else ret None) ;;
   let combined_summary :=
     {| CombinedSummary.pipeline_timestamp := pipeline_timestamp;
        CombinedSummary.commercial := commercial_summary;
        CombinedSummary.non_commercial := non_commercial_summary;
        CombinedSummary.overall := None |} in
   if truthy (commercial results) && truthy (non_commercial results) then
     c <- lift (subscript_summary (commercial results)) ;;
     c_count <- lift (subscript Summary.cleaned_row_count c) ;;
     n <- lift (subscript_summary (non_commercial results)) ;;
     n_count <- lift (subscript NonCommercialSummary.cleaned_row_count n) ;;
     c_value <- lift (subscript Summary.total_exchange_value c) ;;
     n_value <- lift (subscript NonCommercialSummary.total_exchange_value n) ;;
     c_range <- lift (subscript Summary.date_range c) ;;
     n_range <- lift (subscript NonCommercialSummary.date_range n) ;;
     ret {| CombinedSummary.pipeline_timestamp := pipeline_timestamp;
            CombinedSummary.commercial := commercial_summary;
            CombinedSummary.non_commercial := non_commercial_summary;
            CombinedSummary.overall :=
              Some {| CombinedSummary.total_records := c_count + n_count;
                      CombinedSummary.total_exchange_value := Qred (c_value + n_value);
                      CombinedSummary.combined_date_range :=
                        {| Summary.min_year :=
                             Z.min (Summary.min_year c_range) (Summary.min_year n_range);
                           Summary.max_year :=
                             Z.max (Summary.max_year c_range) (Summary.max_year n_range) |}
                   |} |}
   else ret combined_summary)%py.

(** What [json.dump] can write.  The keys of a dictionary must be plain
    Python values; those of [records_by_year] and [total_value_by_year]
    are the year labels [groupby] yields for the [Int64] column, numpy
    integers, which it refuses.  The non-commercial summary is taken to
    hold plain values, as its record does. *)
Definition json_serialisable (summary : CombinedSummary.t) : bool :=
  match CombinedSummary.commercial summary with
  | Some c =>
      CleanCommercial.is_empty (Summary.records_by_year c)
      && CleanCommercial.is_empty (Summary.total_value_by_year c)
  | None => true
  end.

(** [json.dump] writes as it goes: when it raises, the file is there and
    holds the beginning of the summary. *)
Definition export_summary_json (summary : CombinedSummary.t) : M state string :=
  (logging_info "Exporting summary statistics to JSON..." [] ;;
   w <- get_world ;;
   let timestamp := today w in
   self <- get_self ;;
   let output_file :=
     joinpath (output_dir self) ("cleaning_summary_" ++ timestamp ++ ".json") in
   (if json_serialisable summary
    then set_world (write_json output_file (Some summary))
    else set_world (write_json output_file None) ;;
         raise (TypeError "keys must be str, int, float, bool or None, not int64")) ;;
   logging_info "Summary exported to {}" [Str output_file] ;;
   ret output_file)%py.

Definition count (A : Type) (l : list A) : cell := Int (Z.of_nat (length l)).
Arguments count {A} l.

Definition generate_pipeline_report : M state unit :=
  (logging_info "" [] ;;
   logging_info (banner 70) [] ;;
   logging_info "FISHERIES DATA CLEANING PIPELINE - FINAL REPORT" [] ;;
   logging_info (banner 70) [] ;;
   self <- get_self ;;
   let results := results self in
   comm_ok <- (if truthy (commercial results)
               then lift (subscript_success (commercial results))
               else ret false) ;;
   (if comm_ok : bool then
      comm_summary <- lift (subscript_summary (commercial results)) ;;
      logging_info "" [] ;;
      logging_info "COMMERCIAL FISHERIES:" [] ;;
      logging_info "  Status: SUCCESS" [] ;;
      raw <- lift (subscript Summary.raw_row_count comm_summary) ;;
      logging_info "  Input Rows:  {}" [Int raw] ;;
      cleaned <- lift (subscript Summary.cleaned_row_count comm_summary) ;;
      logging_info "  Output Rows: {}" [Int cleaned] ;;
      removed <- lift (subscript Summary.rows_removed comm_summary) ;;
      logging_info "  Removed:     {}" [Int removed] ;;
      range <- lift (subscript Summary.date_range comm_summary) ;;
      logging_info "  Date Range:  {}-{}"
        [Int (Summary.min_year range); Int (Summary.max_year range)] ;;
      value <- lift (subscript Summary.total_exchange_value comm_summary) ;;
      logging_info "  Total Value: ${}" [Num value] ;;
      counties <- lift (subscript Summary.unique_counties comm_summary) ;;
      logging_info "  Counties:    {}" [count counties] ;;
      species <- lift (subscript Summary.unique_species_groups comm_summary) ;;
      logging_info "  Species:     {}" [count species] ;;
      areas <- lift (subscript Summary.unique_area_ids comm_summary) ;;
      logging_info "  DAR Areas:   {}" [count areas]
    else
      logging_info "" [] ;;
      logging_info "COMMERCIAL FISHERIES: FAILED" []) ;;
   noncomm_ok <- (if truthy (non_commercial results)
                  then lift (subscript_success (non_commercial results))
                  else ret false) ;;
   (if noncomm_ok : bool then
      noncomm_summary <- lift (subscript_summary (non_commercial results)) ;;
      logging_info "" [] ;;
      logging_info "NON-COMMERCIAL FISHERIES:" [] ;;
      logging_info "  Status: SUCCESS" [] ;;
      raw <- lift (subscript NonCommercialSummary.raw_row_count noncomm_summary) ;;
      logging_info "  Input Rows:  {}" [Int raw] ;;
      cleaned <- lift (subscript NonCommercialSummary.cleaned_row_count noncomm_summary) ;;
      logging_info "  Output Rows: {}" [Int cleaned] ;;
      removed <- lift (subscript NonCommercialSummary.rows_removed noncomm_summary) ;;
      logging_info "  Removed:     {}" [Int removed] ;;
      range <- lift (subscript NonCommercialSummary.date_range noncomm_summary) ;;
      logging_info "  Date Range:  {}-{}"
        [Int (Summary.min_year range); Int (Summary.max_year range)] ;;
      value <- lift (subscript NonCommercialSummary.total_exchange_value noncomm_summary) ;;
      logging_info "  Total Value: ${}" [Num value] ;;
      islands <- lift (subscript NonCommercialSummary.unique_islands noncomm_summary) ;;
      logging_info "  Islands:     {}" [count islands]
    else
      logging_info "" [] ;;
      logging_info "NON-COMMERCIAL FISHERIES: FAILED" []) ;;
   logging_info "" [] ;;
   logging_info (banner 70) [])%py.

Definition py_bool (b : bool) : cell := Str (if b then "True" else "False").

Definition run_full_pipeline (remove_aggregates remove_display : bool) : M state bool :=
  (setup_logging ;;
   self <- get_self ;;
   w <- get_world ;;
   logging_info (banner 70) [] ;;
   logging_info "FISHERIES DATA CLEANING PIPELINE - START" [] ;;
   logging_info (banner 70) [] ;;
   logging_info "Input Directory:  {}" [Str (absolute (cwd w) (input_dir self))] ;;
   logging_info "Output Directory: {}" [Str (absolute (cwd w) (output_dir self))] ;;
   logging_info "Remove Aggregates: {}" [py_bool remove_aggregates] ;;
   logging_info "Remove Display Columns: {}" [py_bool remove_display] ;;
   logging_info (banner 70) [] ;;
   comm_success <- run_commercial_cleaning remove_aggregates remove_display ;;
   noncomm_success <- run_noncommercial_cleaning remove_aggregates remove_display ;;
   generate_pipeline_report ;;
   let overall_success := comm_success && noncomm_success in
   (if overall_success
    then logging_info "PIPELINE STATUS: SUCCESS" []
    else logging_info "PIPELINE STATUS: PARTIAL SUCCESS OR FAILURE" []) ;;
   ret overall_success)%py.

(** [main()]: the pipeline on [data/raw] and [data/cleaned], aggregate
    rows kept. *)
Definition main (w : World.t) : result bool * state * list log_record :=
  run_full_pipeline false false (w, init "data/raw" "data/cleaned").

End Orchestrator.

Arguments mkPipeline {NonCommercialDataCleaner}.
Arguments input_dir {NonCommercialDataCleaner}.
Arguments output_dir {NonCommercialDataCleaner}.
Arguments commercial_cleaner {NonCommercialDataCleaner}.
Arguments noncommercial_cleaner {NonCommercialDataCleaner}.
Arguments results {NonCommercialDataCleaner}.
Arguments init {NonCommercialDataCleaner}.
Arguments setup_logging {NonCommercialDataCleaner}.
Arguments run_commercial_cleaning parse_numeric {NonCommercialDataCleaner}.
Arguments run_noncommercial_cleaning {NonCommercialDataCleaner}.
Arguments generate_combined_summary {NonCommercialDataCleaner}.
Arguments export_summary_json {NonCommercialDataCleaner}.
Arguments generate_pipeline_report {NonCommercialDataCleaner}.
Arguments run_full_pipeline parse_numeric {NonCommercialDataCleaner}.
Arguments main parse_numeric {NonCommercialDataCleaner}.

(** A computation that writes no summary file. *)
Definition keeps_json {Self A : Type} (m : M (St Self) A) : Prop :=
  forall s, json_written (fst (final (m s))) = json_written (fst s).

End Pipeline.

(** ** What a run of the cleaner shows, and the table it should produce *)

Module Observations.

Import CleanCommercial.

(** Every stage announces itself with one of these messages when it is
    entered. *)
Definition stage_messages : list string :=
  [ "Loading commercial fisheries data...";
    "Validating data schema...";
    "Validating data types...";
    "Validating data ranges...";
    "Validating ecosystem types...";
    "Validating species groups...";
    "Validating county names...";
    "Removing null/NA exchange values...";
    "Removing aggregate rows...";
    "Skipping aggregate row removal (remove_aggregates=False)";
    "Removing display-only columns...";
    "Keeping display columns (remove_display=False)";
    "Exporting cleaned commercial data...";
    "Generating summary statistics..." ].

Definition is_stage_message (r : log_record) : bool :=
  existsb (String.eqb (message r)) stage_messages.

(** The stages a run entered, in order, read off its log. *)
Definition stages_entered (l : list log_record) : list string :=
  map message (filter is_stage_message l).

(** The stages of a complete run. *)
Definition all_stages (remove_aggregates remove_display : bool) : list string :=
  [ "Loading commercial fisheries data...";
    "Validating data schema...";
    "Validating data types...";
    "Validating data ranges...";
    "Validating ecosystem types...";
    "Validating species groups...";
    "Validating county names...";
    "Removing null/NA exchange values...";
    if remove_aggregates then "Removing aggregate rows..."
    else "Skipping aggregate row removal (remove_aggregates=False)";
    if remove_display then "Removing display-only columns..."
    else "Keeping display columns (remove_display=False)";
    "Exporting cleaned commercial data...";
    "Generating summary statistics..." ].

(** The count a stage reported in a message of the given text. *)
Definition reported (text : string) (l : list log_record) : Z :=
  fold_right
    (fun r acc =>
       if String.eqb (message r) text
       then match values r with
            | [Int n] => n + acc
            | _ => acc
            end
       else acc)
    0 l.

(** The rows [remove_null_values] says it removed ([removed] there). *)
Definition nulls_removed : list log_record -> Z :=
  reported "Removed {} records with null/NA exchange values".

(** The rows [remove_aggregate_rows] says it removed. *)
Definition aggregates_removed : list log_record -> Z :=
  reported "Removed {} aggregate rows".

(** What a log shows: the stages entered and the two reported counts. *)
Definition shows (l : list log_record) (stages : list string) (nulls aggregates : Z)
  : Prop :=
  stages_entered l = stages
  /\ nulls_removed l = nulls
  /\ aggregates_removed l = aggregates.

(** Both gates of [run_cleaning_pipeline] let the run through:
    [load_data] and then [validate_schema] return [True]. *)
Definition passes_gates (s : state) : bool :=
  match load_data s with
  | (Ok true, s1, _) =>
      match validate_schema s1 with
      | (Ok true, _, _) => true
      | _ => false
      end
  | _ => false
  end.

(** The run gets past [validate_data_types] as well: after the gates,
    that stage returns rather than raises. *)
Definition types_validated (parse_numeric : string -> option Q) (s : state) : bool :=
  match load_data s with
  | (Ok true, s1, _) =>
      match validate_schema s1 with
      | (Ok true, s2, _) =>
          negb (is_raise (returned (validate_data_types parse_numeric s2)))
      | _ => false
      end
  | _ => false
  end.

(** The table [load_data] leaves in [self.data]. *)
Definition loaded (s : state) : option DataFrame :=
  data (snd (final (load_data s))).

(** *** The cleaned table, row by row *)

Definition set_at (cols : list string) (name : string) (v : cell) (r : list cell)
  : list cell :=
  match index_of name cols with
  | Some i => set_nth i v r
  | None => r
  end.

Definition value_of (r : result cell) : cell :=
  match r with Ok c => c | Raise _ => NA end.

(** A row after [validate_data_types]. *)
Definition coerce_row (parse_numeric : string -> option Q) (cols : list string)
           (r : list cell) : list cell :=
  let r := set_at cols "year"
             (value_of (astype_Int64_cell (to_numeric parse_numeric (cell_at cols "year" r)))) r in
  let r := set_at cols "area_id"
             (value_of (astype_Int64_cell (to_numeric parse_numeric (cell_at cols "area_id" r)))) r in
  set_at cols "exchange_value"
    (to_numeric parse_numeric (cell_at cols "exchange_value" r)) r.

Definition has_value (cols : list string) (r : list cell) : bool :=
  notna (cell_at cols "exchange_value" r).

Definition is_aggregate (cols : list string) (r : list cell) : bool :=
  isin ["All Species"] (cell_at cols "species_group" r)
  || isin ["All Ecosystems"] (cell_at cols "ecosystem_type" r).

Definition kept (remove_aggregates : bool) (cols : list string) (r : list cell) : bool :=
  has_value cols r && negb (remove_aggregates && is_aggregate cols r).

(** *** The cleaned table, stage by stage *)

(** After [validate_data_types], when every cast succeeds. *)
Definition coerced (parse_numeric : string -> option Q) (df : DataFrame) : DataFrame :=
  {| columns := columns df;
     rows := map (coerce_row parse_numeric (columns df)) (rows df) |}.

(** After [remove_null_values]. *)
Definition without_nulls (df : DataFrame) : DataFrame :=
  {| columns := columns df; rows := filter (has_value (columns df)) (rows df) |}.

(** After [remove_aggregate_rows]. *)
Definition without_aggregates (remove_aggregates : bool) (df : DataFrame) : DataFrame :=
  if remove_aggregates
  then {| columns := columns df;
          rows := filter (fun r => negb (is_aggregate (columns df) r)) (rows df) |}
  else df.

(** The display columns [remove_display_columns] drops. *)
Definition display_columns_of (remove_display : bool) (df : DataFrame) : list string :=
  if remove_display
  then filter (has_column df) ["county_olelo"; "exchange_value_formatted"]
  else [].

(** After [remove_display_columns]. *)
Definition without_display (remove_display : bool) (df : DataFrame) : DataFrame :=
  match display_columns_of remove_display df with
  | [] => df
  | names => drop_columns df names
  end.

(** A row as exported: without the display columns that were dropped. *)
Definition strip (cols names : list string) (r : list cell) : list cell :=
  match names with
  | [] => r
  | _ :: _ => drop_cells cols names r
  end.

(** The table the cleaner exports for the table it loaded. *)
Definition cleaned (parse_numeric : string -> option Q)
           (remove_aggregates remove_display : bool) (df : DataFrame) : DataFrame :=
  without_display remove_display
    (without_aggregates remove_aggregates
       (without_nulls (coerced parse_numeric df))).

(** [output_dir / f'cleaned_commercial_{timestamp}.csv'] *)
Definition output_path (w : World.t) (c : CommercialDataCleaner) : string :=
  joinpath (output_dir c) ("cleaned_commercial_" ++ today w ++ ".csv").

(** *** What the stages look at, cell by cell *)

(** A value [.astype('Int64')] accepts: missing, or a whole number (an
    integer, or a float that is one) within int64. *)
Definition fits_Int64 (c : cell) : bool :=
  match c with
  | NA => true
  | Int z => in_int64 z
  | Num q => (Qden (Qred q) =? 1)%positive && in_int64 (Qnum (Qred q))
  | Str _ => false
  end.

(** A cell of a column of dtype [Int64]. *)
Definition is_Int64 (c : cell) : bool :=
  match c with
  | NA | Int _ => true
  | Num _ | Str _ => false
  end.

(** A year before [COMMERCIAL_MIN_YEAR] or after [COMMERCIAL_MAX_YEAR]. *)
Definition out_of_range (c : cell) : bool :=
  match c with
  | Int z => (z <? Config.COMMERCIAL_MIN_YEAR) || (Config.COMMERCIAL_MAX_YEAR <? z)
  | Num q =>
      Qltb q (inject_Z Config.COMMERCIAL_MIN_YEAR)
      || Qltb (inject_Z Config.COMMERCIAL_MAX_YEAR) q
  | NA | Str _ => false
  end.

(** A value below zero. *)
Definition negative (c : cell) : bool :=
  match c with
  | Int z => z <? 0
  | Num q => Qltb q 0
  | NA | Str _ => false
  end.

(** *** What a log holds *)

Definition is_warning (r : log_record) : bool :=
  match levelname r with WARNING => true | _ => false end.

Definition is_error (r : log_record) : bool :=
  match levelname r with ERROR => true | _ => false end.

(** The log holds a record with this message. *)
Definition logs (text : string) (l : list log_record) : bool :=
  existsb (fun r => String.eqb (message r) text) l.

(** A computation that logs no error, whatever the state. *)
Definition logs_no_error {S A : Type} (m : M S A) : Prop :=
  forall s, existsb is_error (logged (m s)) = false.

(** *** The entries of [self.results] *)

(** The entry of a cleaner that ran and succeeded. *)
Definition succeeded {S} (entry : option (Pipeline.outcome S)) : bool :=
  match entry with
  | Some (Pipeline.Succeeded _ _) => true
  | Some (Pipeline.Failed _) | None => false
  end.

(** The entry of a success whose ['summary'] is [None]. *)
Definition lacks_summary {S} (entry : option (Pipeline.outcome S)) : bool :=
  match entry with
  | Some (Pipeline.Succeeded _ None) => true
  | Some (Pipeline.Succeeded _ (Some _)) | Some (Pipeline.Failed _) | None => false
  end.

(** *** Sums *)

(** The sum of a list of counts. *)
Definition total (zs : list Z) : Z := fold_right Z.add 0 zs.

End Observations.

(** ** Sample inputs *)

Module Samples.

Import CleanCommercial.

Definition header : list string :=
  ["year"; "area_id"; "county"; "species_group"; "ecosystem_type"; "exchange_value"].

Definition clock (files : list input_file) : World.t :=
  {| input_files := files; csv_written := []; json_written := [];
     cwd := "/srv/fisheries";
     today := "20240101"; time_of_day := "120000"; now := "2024-01-01T12:00:00" |}.

Definition world_of (df : DataFrame) : World.t :=
  clock [ {| file_dir := "data/raw"; file_name := "tidied_comm_ev.csv";
             file_table := Some df |} ].

Definition cleaner : CommercialDataCleaner := init "data/raw" "data/cleaned".

(** A parser that reads no text as a number. *)
Definition no_parse (s : string) : option Q := None.

(** One row of 1996, before the commercial range 1997-2021. *)
Definition row_1996 : list cell :=
  [Int 1996; Int 100; Str "Hawaii"; Str "Pelagics"; Str "Coastal — Open Ocean"; Int 500].

Definition table_1996 : DataFrame := {| columns := header; rows := [row_1996] |}.

(** Four rows: one plain, two aggregates, one without a value. *)
Definition table_mixed : DataFrame :=
  {| columns := header;
     rows :=
       [ row_1996;
         [Int 2000; Int 101; Str "Maui"; Str "All Species"; Str "Inshore — Reef"; Num (5 # 2)];
         [Int 2001; Int 101; Str "Maui"; Str "Pelagics"; Str "All Ecosystems"; Num (7 # 2)];
         [Int 2001; Int 102; Str "Kauai"; Str "Pelagics"; Str "Inshore — Reef"; NA] ] |}.

(** Where the cleaner exports to under [clock], and the summary of
    [table_mixed] cleaned with the aggregates removed. *)
Definition exported_file : string := "data/cleaned/cleaned_commercial_20240101.csv".

Definition summary_mixed : Summary.t :=
  {| Summary.data_type := "commercial";
     Summary.processing_timestamp := "2024-01-01T12:00:00";
     Summary.raw_row_count := 4;
     Summary.cleaned_row_count := 1;
     Summary.rows_removed := 3;
     Summary.date_range := {| Summary.min_year := 1996; Summary.max_year := 1996 |};
     Summary.total_exchange_value := 500;
     Summary.unique_counties := [Str "Hawaii"];
     Summary.unique_species_groups := [Str "Pelagics"];
     Summary.unique_ecosystem_types := [Str "Coastal — Open Ocean"];
     Summary.unique_area_ids := [100];
     Summary.records_by_year := [(1996, 1)];
     Summary.total_value_by_year := [(1996, 500%Q)] |}.

(** The summary of [table_1996], from which nothing is removed. *)
Definition summary_1996 : Summary.t :=
  {| Summary.data_type := "commercial";
     Summary.processing_timestamp := "2024-01-01T12:00:00";
     Summary.raw_row_count := 1;
     Summary.cleaned_row_count := 1;
     Summary.rows_removed := 0;
     Summary.date_range := {| Summary.min_year := 1996; Summary.max_year := 1996 |};
     Summary.total_exchange_value := 500;
     Summary.unique_counties := [Str "Hawaii"];
     Summary.unique_species_groups := [Str "Pelagics"];
     Summary.unique_ecosystem_types := [Str "Coastal — Open Ocean"];
     Summary.unique_area_ids := [100];
     Summary.records_by_year := [(1996, 1)];
     Summary.total_value_by_year := [(1996, 500%Q)] |}.

(** Every exchange value is missing. *)
Definition table_all_null : DataFrame :=
  {| columns := header;
     rows :=
       [ [Int 2001; Int 102; Str "Kauai"; Str "Pelagics"; Str "Inshore — Reef"; NA];
         [Int 2002; Int 102; Str "Kauai"; Str "Pelagics"; Str "Inshore — Reef"; NA] ] |}.

(** The column [exchange_value] is missing. *)
Definition table_no_value_column : DataFrame :=
  {| columns := ["year"; "area_id"; "county"; "species_group"; "ecosystem_type"];
     rows := [[Int 2001; Int 102; Str "Kauai"; Str "Pelagics"; Str "Inshore — Reef"]] |}.

(** A year that is not a whole number. *)
Definition table_half_year : DataFrame :=
  {| columns := header;
     rows := [[Num (3995 # 2); Int 100; Str "Hawaii"; Str "Pelagics"; Str "Inshore — Reef"; Int 5]] |}.

(** A year that is a whole number and does not fit int64: [2 ^ 63]. *)
Definition table_huge_year : DataFrame :=
  {| columns := header;
     rows := [[Int 9223372036854775808; Int 100; Str "Hawaii"; Str "Pelagics";
               Str "Inshore — Reef"; Int 5]] |}.

(** Non-commercial cleaners for the orchestrator: one that succeeds
    with a fixed summary and one that fails; neither touches a file. *)
Definition noncommercial_summary : NonCommercialSummary.t :=
  {| NonCommercialSummary.raw_row_count := 3;
     NonCommercialSummary.cleaned_row_count := 2;
     NonCommercialSummary.rows_removed := 1;
     NonCommercialSummary.date_range := {| Summary.min_year := 2005; Summary.max_year := 2022 |};
     NonCommercialSummary.total_exchange_value := 50;
     NonCommercialSummary.unique_islands := [Str "Oahu"] |}.

Definition noncommercial_succeeds (remove_aggregates remove_display : bool)
  : M (St unit) (bool * option string * option NonCommercialSummary.t) :=
  ret (true, Some "data/cleaned/cleaned_noncommercial_20240101.csv",
       Some noncommercial_summary).

Definition noncommercial_fails (remove_aggregates remove_display : bool)
  : M (St unit) (bool * option string * option NonCommercialSummary.t) :=
  ret (false, None, None).

Definition noncommercial_new (input_dir output_dir : string) : unit := tt.

(** The orchestrator as [main] builds it. *)
Definition pipeline : Pipeline.FisheriesCleaningPipeline unit :=
  Pipeline.init noncommercial_new "data/raw" "data/cleaned".

(** The entries of [self.results] after a failure and after a success. *)
Definition commercial_failed : Pipeline.outcome Summary.t :=
  Pipeline.Failed "Commercial data cleaning failed".

Definition noncommercial_failed : Pipeline.outcome NonCommercialSummary.t :=
  Pipeline.Failed "Non-commercial data cleaning failed".

Definition noncommercial_succeeded : Pipeline.outcome NonCommercialSummary.t :=
  Pipeline.Succeeded "data/cleaned/cleaned_noncommercial_20240101.csv"
                     (Some noncommercial_summary).

(** The summary of [table_mixed] cleaned with the aggregates kept. *)
Definition summary_kept : Summary.t :=
  {| Summary.data_type := "commercial";
     Summary.processing_timestamp := "2024-01-01T12:00:00";
     Summary.raw_row_count := 4;
     Summary.cleaned_row_count := 3;
     Summary.rows_removed := 1;
     Summary.date_range := {| Summary.min_year := 1996; Summary.max_year := 2001 |};
     Summary.total_exchange_value := 506;
     Summary.unique_counties := [Str "Hawaii"; Str "Maui"];
     Summary.unique_species_groups := [Str "All Species"; Str "Pelagics"];
     Summary.unique_ecosystem_types :=
       [Str "All Ecosystems"; Str "Coastal — Open Ocean"; Str "Inshore — Reef"];
     Summary.unique_area_ids := [100; 101];
     Summary.records_by_year := [(1996, 1); (2000, 1); (2001, 1)];
     Summary.total_value_by_year := [(1996, 500%Q); (2000, 5 # 2); (2001, 7 # 2)] |}.

(** A cleaner that holds a table, as [load_data] leaves it. *)
Definition holding (df : DataFrame) : CommercialDataCleaner :=
  mkCleaner "data/raw" "data/cleaned" (Some df) (len df) 0.

(** Two tidied files, the first of which cannot be read. *)
Definition unreadable : input_file :=
  {| file_dir := "data/raw"; file_name := "a_tidied_comm_ev.csv"; file_table := None |}.

Definition readable : input_file :=
  {| file_dir := "data/raw"; file_name := "b_tidied_comm_ev.csv";
     file_table := Some table_1996 |}.

Definition two_files : World.t := clock [unreadable; readable].

(** The row of 1996 with the two display columns. *)
Definition table_display : DataFrame :=
  {| columns :=
       ["year"; "area_id"; "county"; "county_olelo"; "species_group"; "ecosystem_type";
        "exchange_value"; "exchange_value_formatted"];
     rows :=
       [[Int 1996; Int 100; Str "Hawaii"; Str "Hawaii"; Str "Pelagics";
         Str "Coastal — Open Ocean"; Int 500; Str "$500"]] |}.

(** Text where numbers are expected. *)
Definition table_text : DataFrame :=
  {| columns := header;
     rows :=
       [[Str "n/a"; Int 100; Str "Hawaii"; Str "Pelagics"; Str "Inshore — Reef";
         Str "unknown"]] |}.

(** An unknown species group and a missing county. *)
Definition table_odd : DataFrame :=
  {| columns := header;
     rows :=
       [ row_1996;
         [Int 2000; Int 101; NA; Str "Sharks"; Str "Inshore — Reef"; Int 7] ] |}.

(** The row of 1996 as an aggregate over all species, and a plain row of
    2000. *)
Definition row_1996_all_species : list cell :=
  [Int 1996; Int 100; Str "Hawaii"; Str "All Species"; Str "Coastal — Open Ocean"; Int 500].

Definition row_2000 : list cell :=
  [Int 2000; Int 101; Str "Maui"; Str "Pelagics"; Str "Inshore — Reef"; Int 7].

Definition table_aggregate_1996 : DataFrame :=
  {| columns := header; rows := [row_1996_all_species; row_2000] |}.

(** The orchestrator after both cleanings succeeded. *)
Definition pipeline_done : Pipeline.FisheriesCleaningPipeline unit :=
  Pipeline.mkPipeline "data/raw" "data/cleaned" cleaner tt
    (Pipeline.mkResults (Some (Pipeline.Succeeded exported_file (Some summary_mixed)))
                        (Some noncommercial_succeeded)).

End Samples.

(** * Properties *)

(** ** Lists, series and data frames *)

Section ListFacts.

Context {A B C : Type}.

Lemma select_map (p : A -> bool) (l : list A) :
  select (map p l) l = filter p l.
Proof.
  induction l as [|x l IH]; simpl; [reflexivity|].
  rewrite IH. destruct (p x); reflexivity.
Qed.

Lemma zip_with_map (f : A -> B -> C) (g : A -> B) (l : list A) :
  zip_with f l (map g l) = map (fun x => f x (g x)) l.
Proof.
  induction l as [|x l IH]; simpl; [reflexivity|].
  now rewrite IH.
Qed.

Lemma map_result_Ok (f : A -> result B) (d : B) (l : list A) (l' : list B) :
  map_result f l = Ok l' ->
  l' = map (fun x => match f x with Ok y => y | Raise _ => d end) l.
Proof.
  revert l'. induction l as [|x l IH]; simpl; intros l' H.
  - now inversion H.
  - destruct (f x) as [y|e]; [|discriminate].
    destruct (map_result f l) as [ys|e]; [|discriminate].
    inversion H; subst. now rewrite (IH ys eq_refl).
Qed.

Lemma map_result_total (f : A -> result B) (l : list A) :
  Forall (fun x => is_raise (f x) = false) l ->
  exists l', map_result f l = Ok l'.
Proof.
  induction 1 as [|x l Hx _ [l' IH]]; simpl.
  - now exists [].
  - destruct (f x) as [y|e]; [|discriminate].
    rewrite IH. now eexists.
Qed.

Lemma filter_length_le (p : A -> bool) (l : list A) :
  (length (filter p l) <= length l)%nat.
Proof.
  induction l as [|x l IH]; simpl; [lia|].
  destruct (p x); simpl; lia.
Qed.

End ListFacts.

Lemma index_of_nth (name : string) (cols : list string) (i : nat) :
  index_of name cols = Some i -> nth_error cols i = Some name.
Proof.
  revert i. induction cols as [|c cols IH]; simpl; intros i H; [discriminate|].
  destruct (String.eqb_spec c name) as [->|_].
  - now inversion H.
  - destruct (index_of name cols) as [j|]; [|discriminate].
    inversion H; subst. simpl. now apply IH.
Qed.

Lemma index_of_inj (a b : string) (cols : list string) (i : nat) :
  index_of a cols = Some i -> index_of b cols = Some i -> a = b.
Proof.
  intros Ha Hb. apply index_of_nth in Ha, Hb. congruence.
Qed.

Lemma has_column_index (df : DataFrame) (name : string) :
  has_column df name = true -> exists i, index_of name (columns df) = Some i.
Proof.
  unfold has_column. induction (columns df) as [|c cols IH]; simpl; [discriminate|].
  rewrite String.eqb_sym.
  destruct (String.eqb c name); [now eexists|].
  simpl. intros H. destruct (IH H) as [i ->]. now eexists.
Qed.

Lemma index_has_column (df : DataFrame) (name : string) (i : nat) :
  index_of name (columns df) = Some i -> has_column df name = true.
Proof.
  unfold has_column. revert i.
  induction (columns df) as [|c cols IH]; simpl; intros i H; [discriminate|].
  rewrite String.eqb_sym.
  destruct (String.eqb c name); [reflexivity|]. simpl.
  destruct (index_of name cols) as [j|]; [|discriminate]. now apply (IH j).
Qed.

Lemma getitem_cell_at (df : DataFrame) (name : string) (i : nat) :
  index_of name (columns df) = Some i ->
  getitem df name = Ok (map (cell_at (columns df) name) (rows df)).
Proof.
  intros H. unfold getitem, cell_at. now rewrite H.
Qed.

Lemma nth_set_nth_eq (i : nat) (v : cell) (r : list cell) :
  nth i (set_nth i v r) NA = v.
Proof.
  revert r. induction i as [|i IH]; intros [|x r]; simpl; auto.
Qed.

Lemma nth_set_nth_ne (i j : nat) (v : cell) (r : list cell) :
  i <> j -> nth j (set_nth i v r) NA = nth j r NA.
Proof.
  revert j r. induction i as [|i IH]; intros [|j] [|x r] H; simpl; try congruence; auto.
  - now destruct j.
  - rewrite IH by congruence. now destruct j.
Qed.

Lemma cell_at_nil_row (cols : list string) (name : string) : cell_at cols name [] = NA.
Proof.
  unfold cell_at. destruct (index_of name cols) as [[|i]|]; reflexivity.
Qed.

Lemma cell_at_cons (c : string) (cols : list string) (name : string) (x : cell) (r : list cell) :
  cell_at (c :: cols) name (x :: r) = if String.eqb c name then x else cell_at cols name r.
Proof.
  unfold cell_at. simpl. destruct (String.eqb c name); [reflexivity|].
  destruct (index_of name cols); reflexivity.
Qed.

Lemma cell_at_drop_cells (cols names : list string) (name : string) (r : list cell) :
  existsb (String.eqb name) names = false ->
  cell_at (filter (fun c => negb (existsb (String.eqb c) names)) cols) name
          (drop_cells cols names r)
  = cell_at cols name r.
Proof.
  intros Hname. revert r. induction cols as [|c cols IH]; intros r.
  - simpl. now rewrite cell_at_nil_row.
  - destruct r as [|x r].
    + simpl. now rewrite !cell_at_nil_row.
    + simpl. rewrite cell_at_cons.
      destruct (existsb (String.eqb c) names) eqn:Hc; simpl.
      * destruct (String.eqb_spec c name) as [->|_]; [congruence|]. apply IH.
      * rewrite cell_at_cons. destruct (String.eqb c name); [reflexivity|]. apply IH.
Qed.

Import CleanCommercial Observations.

Lemma cell_at_set_at_eq (cols : list string) (name : string) (i : nat) (v : cell) (r : list cell) :
  index_of name cols = Some i ->
  cell_at cols name (set_at cols name v r) = v.
Proof.
  intros H. unfold cell_at, set_at. rewrite H. apply nth_set_nth_eq.
Qed.

Lemma cell_at_set_at_ne (cols : list string) (a b : string) (v : cell) (r : list cell) :
  a <> b ->
  cell_at cols b (set_at cols a v r) = cell_at cols b r.
Proof.
  intros Hab. unfold cell_at, set_at.
  destruct (index_of a cols) as [i|] eqn:Ha; [|reflexivity].
  destruct (index_of b cols) as [j|] eqn:Hb; [|reflexivity].
  apply nth_set_nth_ne. intros ->. apply Hab. eapply index_of_inj; eauto.
Qed.

(** Overwriting a column with a function of its cells, row by row. *)
Lemma setitem_map (df : DataFrame) (name : string) (i : nat) (g : cell -> cell) :
  index_of name (columns df) = Some i ->
  setitem df name (map g (map (cell_at (columns df) name) (rows df)))
  = {| columns := columns df;
       rows := map (fun r => set_at (columns df) name (g (cell_at (columns df) name r)) r)
                   (rows df) |}.
Proof.
  intros H. unfold setitem. rewrite H. f_equal.
  rewrite map_map, zip_with_map. apply map_ext. intros r.
  unfold set_at. now rewrite H.
Qed.

(** ** More on lists *)

Section MoreListFacts.

Context {A B : Type}.

Lemma forallb_map (f : A -> B) (p : B -> bool) (l : list A) :
  forallb p (map f l) = forallb (fun x => p (f x)) l.
Proof. induction l as [|x l IH]; simpl; [reflexivity|]. now rewrite IH. Qed.

Lemma forallb_ext (p q : A -> bool) (l : list A) :
  (forall x, p x = q x) -> forallb p l = forallb q l.
Proof. intros H. induction l as [|x l IH]; simpl; [reflexivity|]. now rewrite H, IH. Qed.

Lemma forallb_andb (p q : A -> bool) (l : list A) :
  forallb (fun x => p x && q x) l = forallb p l && forallb q l.
Proof.
  induction l as [|x l IH]; simpl; [reflexivity|].
  rewrite IH. destruct (p x), (q x), (forallb p l); reflexivity.
Qed.

Lemma forallb_filter_negb (p : A -> bool) (l : list A) :
  forallb p l = is_empty (filter (fun x => negb (p x)) l).
Proof.
  induction l as [|x l IH]; simpl; [reflexivity|].
  destruct (p x); simpl; [exact IH|reflexivity].
Qed.

Lemma existsb_map (f : A -> B) (p : B -> bool) (l : list A) :
  existsb p (map f l) = existsb (fun x => p (f x)) l.
Proof. induction l as [|x l IH]; simpl; [reflexivity|]. now rewrite IH. Qed.

Lemma existsb_ext (p q : A -> bool) (l : list A) :
  (forall x, p x = q x) -> existsb p l = existsb q l.
Proof. intros H. induction l as [|x l IH]; simpl; [reflexivity|]. now rewrite H, IH. Qed.

Lemma existsb_orb (p q : A -> bool) (l : list A) :
  existsb (fun x => p x || q x) l = existsb p l || existsb q l.
Proof.
  induction l as [|x l IH]; simpl; [reflexivity|].
  rewrite IH. destruct (p x), (q x), (existsb p l); reflexivity.
Qed.

Lemma existsb_negb_forallb (p : A -> bool) (l : list A) :
  existsb (fun x => negb (p x)) l = negb (forallb p l).
Proof.
  induction l as [|x l IH]; simpl; [reflexivity|].
  rewrite IH. now destruct (p x).
Qed.

Lemma is_empty_filter (p : A -> bool) (l : list A) :
  is_empty (filter p l) = negb (existsb p l).
Proof.
  induction l as [|x l IH]; simpl; [reflexivity|].
  destruct (p x); simpl; [reflexivity|exact IH].
Qed.

Lemma filter_all (l : list A) : filter (fun _ => true) l = l.
Proof. induction l as [|x l IH]; simpl; [reflexivity|]. now rewrite IH. Qed.

Lemma filter_map_length (f : A -> B) (p : B -> bool) (l : list A) :
  length (filter p (map f l)) = length (filter (fun x => p (f x)) l).
Proof.
  induction l as [|x l IH]; simpl; [reflexivity|].
  destruct (p (f x)); simpl; now rewrite IH.
Qed.

Lemma Forall2_map_right (R : A -> B -> Prop) (f : A -> B) (l : list A) :
  Forall (fun x => R x (f x)) l -> Forall2 R l (map f l).
Proof. induction 1; simpl; constructor; auto. Qed.

Lemma is_raise_map_result (f : A -> result B) (l : list A) :
  is_raise (map_result f l) = negb (forallb (fun x => negb (is_raise (f x))) l).
Proof.
  induction l as [|x l IH]; simpl; [reflexivity|].
  destruct (f x) as [y|e]; simpl; [|reflexivity].
  destruct (map_result f l) as [ys|e]; simpl in *; exact IH.
Qed.

End MoreListFacts.

Lemma zip_with_map_map {A B C D} (h : B -> C -> D) (f : A -> B) (g : A -> C) (l : list A) :
  zip_with h (map f l) (map g l) = map (fun x => h (f x) (g x)) l.
Proof. induction l as [|x l IH]; simpl; [reflexivity|]. now rewrite IH. Qed.

Lemma select_map_map {A B} (p : A -> bool) (f : A -> B) (l : list A) :
  select (map p l) (map f l) = map f (filter p l).
Proof.
  induction l as [|x l IH]; simpl; [reflexivity|].
  rewrite IH. destruct (p x); reflexivity.
Qed.

(** In a series of dtype [Int64] the distinct values are all its values. *)
Lemma cell_eqb_Int64 (a b : cell) :
  is_Int64 a = true -> is_Int64 b = true -> cell_eqb a b = true -> a = b.
Proof.
  destruct a as [|x| |], b as [|y| |]; try discriminate; try reflexivity.
  intros _ _ H. cbn in H. apply Qeq_bool_iff in H. unfold Qeq in H. cbn in H.
  f_equal. lia.
Qed.

Lemma In_unique_acc (seen : list cell) (s : Series) (c : cell) :
  Forall (fun x => is_Int64 x = true) s ->
  Forall (fun x => is_Int64 x = true) seen ->
  In c s -> In c seen \/ In c (unique_acc seen s).
Proof.
  intros Hs. revert seen. induction Hs as [|x s Hx Hs IH]; intros seen Hseen Hin; [destruct Hin|].
  cbn [unique_acc]. destruct (existsb (cell_eqb x) seen) eqn:E.
  - destruct Hin as [<-|Hin]; [|now apply IH].
    apply existsb_exists in E. destruct E as (y & Hy & Hxy).
    rewrite Forall_forall in Hseen.
    rewrite (cell_eqb_Int64 x y Hx (Hseen y Hy) Hxy). now left.
  - destruct Hin as [<-|Hin]; [right; now left|].
    destruct (IH (x :: seen) (Forall_cons _ Hx Hseen) Hin) as [[<-|H]|H].
    + right. now left.
    + now left.
    + right. now right.
Qed.

Lemma In_unique (s : Series) (c : cell) :
  Forall (fun x => is_Int64 x = true) s -> In c s -> In c (unique s).
Proof.
  intros Hs Hin. destruct (In_unique_acc [] s c Hs (Forall_nil _) Hin) as [[]|H]. exact H.
Qed.

(** ** What the log of a run shows *)

Lemma reported_app (text : string) (l1 l2 : list log_record) :
  reported text (l1 ++ l2) = reported text l1 + reported text l2.
Proof.
  unfold reported. induction l1 as [|r l1 IH]; simpl; [reflexivity|].
  rewrite IH. destruct (String.eqb (message r) text); [|reflexivity].
  destruct (values r) as [|[| n | |] [|]]; lia.
Qed.

Lemma stages_entered_app (l1 l2 : list log_record) :
  stages_entered (l1 ++ l2) = (stages_entered l1 ++ stages_entered l2)%list.
Proof.
  unfold stages_entered. now rewrite filter_app, map_app.
Qed.

(** ** The stages of the cleaner, one by one *)

Lemma shows_app (l1 l2 : list log_record) (s1 s2 : list string) (n1 n2 a1 a2 : Z) :
  shows l1 s1 n1 a1 -> shows l2 s2 n2 a2 ->
  shows (l1 ++ l2) (s1 ++ s2) (n1 + n2) (a1 + a2).
Proof.
  unfold shows, nulls_removed, aggregates_removed.
  intros (H1 & H2 & H3) (H4 & H5 & H6).
  rewrite stages_entered_app, !reported_app. now subst.
Qed.

Lemma filter_nil_Forall {A} (p : A -> bool) (l : list A) :
  filter p l = [] -> Forall (fun x => p x = false) l.
Proof.
  induction l as [|x l IH]; simpl; [constructor|].
  destruct (p x) eqn:E; [discriminate|]. intros H. constructor; auto.
Qed.

Lemma filter_filter {A} (p q : A -> bool) (l : list A) :
  filter q (filter p l) = filter (fun x => p x && q x) l.
Proof.
  induction l as [|x l IH]; simpl; [reflexivity|].
  destruct (p x); simpl; [|assumption].
  destruct (q x); now rewrite IH.
Qed.

Lemma len_filter_le (cols : list string) (p : list cell -> bool) (rs : list (list cell)) :
  len {| columns := cols; rows := filter p rs |} <= len {| columns := cols; rows := rs |}.
Proof.
  unfold len. simpl. pose proof (filter_length_le p rs). lia.
Qed.

Ltac run_monad :=
  cbv beta iota zeta delta [bind ret lift raise modify try_except for_each column self_data
    set_data set_raw_row_count set_cleaned_row_count set_self set_world get_self get_world
    logging_info logging_warning logging_error logging fst snd app is_empty];
  cbn [data input_dir output_dir raw_row_count cleaned_row_count columns rows negb].

Ltac log_facts :=
  unfold shows, stages_entered, nulls_removed, aggregates_removed, reported, is_stage_message;
  cbn; rewrite ?Z.add_0_r; repeat split; try reflexivity; try lia.

Ltac done_with_log := eexists; (split; [reflexivity|]); log_facts.

Lemma remove_null_values_spec (w : World.t) (i o : string) (df : DataFrame) (n m : Z) (k : nat) :
  index_of "exchange_value" (columns df) = Some k ->
  let df' := without_nulls df in
  exists l,
    remove_null_values (w, mkCleaner i o (Some df) n m)
    = (Ok tt, (w, mkCleaner i o (Some df') n m), l)
    /\ shows l ["Removing null/NA exchange values..."] (len df - len df') 0.
Proof.
  intros Hk df'. unfold remove_null_values. run_monad.
  rewrite (getitem_cell_at _ _ _ Hk); run_monad.
  unfold boolean_index. rewrite map_map, select_map.
  change (filter _ (rows df)) with (rows df').
  change {| columns := columns df; rows := rows df' |} with df'.
  assert (len df' <= len df) by (destruct df; apply len_filter_le).
  destruct (Z.gtb_spec (len df - len df') 0); done_with_log;
    subst df'; cbn in *; lia.
Qed.

(** [remove_null_values] drops exactly the rows without a value: a row is
    left if and only if it was there and its [exchange_value] is not
    null. *)
Lemma remove_null_values_drops_exactly_nulls (w : World.t) (i o : string) (df : DataFrame)
      (n m : Z) (k : nat) (r : list cell) :
  index_of "exchange_value" (columns df) = Some k ->
  exists df',
    data (snd (final (remove_null_values (w, mkCleaner i o (Some df) n m)))) = Some df'
    /\ columns df' = columns df
    /\ (In r (rows df')
        <-> In r (rows df) /\ isnull (cell_at (columns df) "exchange_value" r) = false).
Proof.
  intros Hk. destruct (remove_null_values_spec w i o df n m k Hk) as (l & -> & _).
  exists (without_nulls df). unfold final. cbn [fst snd data]. split; [reflexivity|].
  split; [reflexivity|]. unfold without_nulls. cbn [rows]. rewrite filter_In.
  unfold has_value, notna. now rewrite negb_true_iff.
Qed.

Lemma isin_single_iff (s : string) (c : cell) : isin [s] c = false <-> c <> Str s.
Proof.
  destruct c as [| | |t]; cbn [isin existsb]; try (split; [discriminate|reflexivity]).
  rewrite orb_false_r. rewrite String.eqb_neq. split; congruence.
Qed.

Lemma not_aggregate_split (cols : list string) (r : list cell) :
  negb (isin ["All Species"] (cell_at cols "species_group" r))
  && negb (isin ["All Ecosystems"] (cell_at cols "ecosystem_type" r))
  = negb (is_aggregate cols r).
Proof. unfold is_aggregate. now rewrite negb_orb. Qed.

Lemma remove_aggregate_rows_spec (w : World.t) (i o : string) (df : DataFrame) (n m : Z)
      (ks ke : nat) :
  index_of "species_group" (columns df) = Some ks ->
  index_of "ecosystem_type" (columns df) = Some ke ->
  let df' := without_aggregates true df in
  exists l,
    remove_aggregate_rows true (w, mkCleaner i o (Some df) n m)
    = (Ok tt, (w, mkCleaner i o (Some df') n m), l)
    /\ shows l ["Removing aggregate rows..."] 0 (len df - len df').
Proof.
  intros Hs He df'. unfold remove_aggregate_rows. run_monad.
  rewrite (getitem_cell_at _ _ _ Hs); run_monad.
  unfold boolean_index at 1. cbn [columns rows].
  rewrite (getitem_cell_at {| columns := columns df |} _ _ He); run_monad.
  unfold boolean_index. cbn [columns rows].
  rewrite !map_map, select_map, select_map, filter_filter.
  rewrite (filter_ext _ _ (not_aggregate_split (columns df))).
  change (filter _ (rows df)) with (rows df').
  change {| columns := columns df; rows := rows df' |} with df'.
  assert (len df' <= len df) by (destruct df; apply len_filter_le).
  destruct (Z.gtb_spec (len df - len df') 0); done_with_log;
    subst df'; cbn in *; lia.
Qed.

(** [remove_aggregate_rows] drops exactly the aggregate rows: a row is
    left if and only if it was there and carries neither sentinel. *)
Lemma remove_aggregate_rows_drops_exactly_aggregates (w : World.t) (i o : string)
      (df : DataFrame) (n m : Z) (ks ke : nat) (r : list cell) :
  index_of "species_group" (columns df) = Some ks ->
  index_of "ecosystem_type" (columns df) = Some ke ->
  exists df',
    data (snd (final (remove_aggregate_rows true (w, mkCleaner i o (Some df) n m)))) = Some df'
    /\ columns df' = columns df
    /\ (In r (rows df')
        <-> In r (rows df)
            /\ cell_at (columns df) "species_group" r <> Str "All Species"
            /\ cell_at (columns df) "ecosystem_type" r <> Str "All Ecosystems").
Proof.
  intros Hs He. destruct (remove_aggregate_rows_spec w i o df n m ks ke Hs He) as (l & -> & _).
  exists (without_aggregates true df). unfold final. cbn [fst snd data].
  split; [reflexivity|]. split; [reflexivity|].
  cbn [without_aggregates rows]. rewrite filter_In.
  unfold is_aggregate. rewrite negb_true_iff, orb_false_iff, !isin_single_iff. tauto.
Qed.

Lemma remove_aggregate_rows_skip (w : World.t) (c : CommercialDataCleaner) :
  remove_aggregate_rows false (w, c)
  = (Ok tt, (w, c),
     [mkLog INFO "Skipping aggregate row removal (remove_aggregates=False)" []]).
Proof. reflexivity. Qed.

Lemma load_data_spec (w : World.t) (c : CommercialDataCleaner) :
  exists (b : bool) (c' : CommercialDataCleaner) (l : list log_record),
    load_data (w, c) = (Ok b, (w, c'), l)
    /\ shows l ["Loading commercial fisheries data..."] 0 0
    /\ (if b
        then exists df, c' = mkCleaner (input_dir c) (output_dir c) (Some df) (len df)
                                       (cleaned_row_count c)
        else c' = c).
Proof.
  unfold load_data. run_monad.
  match goal with
  | |- context [match ?x with [] => _ | _ :: _ => _ end] => destruct x as [|f fs]
  end.
  - exists false, c. done_with_log.
  - unfold read_csv. destruct (file_table f) as [df|]; run_monad.
    + exists true. eexists. eexists. split; [reflexivity|]. split; [log_facts|].
      now exists df.
    + exists false, c. done_with_log.
Qed.

Lemma validate_schema_spec (w : World.t) (c : CommercialDataCleaner) (df : DataFrame) :
  data c = Some df ->
  exists (b : bool) (l : list log_record),
    validate_schema (w, c) = (Ok b, (w, c), l)
    /\ shows l ["Validating data schema..."] 0 0
    /\ (b = true -> Forall (fun name => has_column df name = true) required_columns).
Proof.
  intros Hd. unfold validate_schema. run_monad. rewrite Hd. run_monad.
  destruct (filter (fun col => negb (has_column df col)) required_columns) eqn:E.
  - destruct (filter (has_column df) optional_columns);
      exists true; eexists; (split; [reflexivity|]);
      (split; [log_facts|]); intros _;
      apply filter_nil_Forall in E;
      (eapply Forall_impl; [|exact E]); cbv beta; intros a Ha;
      now destruct (has_column df a).
  - exists false. eexists. split; [reflexivity|].
    split; [log_facts|]. discriminate.
Qed.

(** [load_data] fails when no file matches either pattern, and when the
    first file found cannot be read. *)
Lemma load_data_without_file (w : World.t) (c : CommercialDataCleaner) :
  glob (input_dir c) "*tidied_comm_ev*.csv" w = [] ->
  filter (fun f => negb (contains "noncomm" (file_name f)))
         (glob (input_dir c) "*comm_ev*.csv" w) = [] ->
  load_data (w, c)
  = (Ok false, (w, c),
     [mkLog INFO "Loading commercial fisheries data..." [];
      mkLog ERROR "No commercial data file found in {}" [Str (input_dir c)]]).
Proof.
  intros H1 H2. unfold load_data. run_monad. rewrite H1. run_monad. rewrite H2. reflexivity.
Qed.

Lemma load_data_unreadable_file (w : World.t) (c : CommercialDataCleaner)
      (f : input_file) (fs : list input_file) :
  glob (input_dir c) "*tidied_comm_ev*.csv" w = f :: fs ->
  file_table f = None ->
  load_data (w, c)
  = (Ok false, (w, c),
     [mkLog INFO "Loading commercial fisheries data..." [];
      mkLog ERROR "Error loading commercial data: {}" [Str (file_name f)]]).
Proof.
  intros H1 H2. unfold load_data, read_csv. run_monad. rewrite H1. run_monad.
  rewrite H2. reflexivity.
Qed.

(** [validate_schema] fails when a required column is missing. *)
Lemma validate_schema_missing_column (w : World.t) (c : CommercialDataCleaner)
      (df : DataFrame) (name : string) :
  data c = Some df ->
  In name required_columns ->
  has_column df name = false ->
  returned (validate_schema (w, c)) = Ok false.
Proof.
  intros Hd Hin Hc. destruct c as [i o d n m]. cbn [data] in Hd. subst d.
  unfold validate_schema, returned. run_monad.
  destruct (filter (fun col => negb (has_column df col)) required_columns) eqn:E.
  - apply filter_nil_Forall in E. rewrite Forall_forall in E. specialize (E name Hin).
    cbv beta in E. rewrite Hc in E. discriminate.
  - reflexivity.
Qed.

(** The table [validate_data_types] leaves when every cast succeeds. *)
Lemma validate_data_types_spec (parse : string -> option Q) (w : World.t) (i o : string)
      (df : DataFrame) (n m : Z) (ky ka ke : nat) :
  index_of "year" (columns df) = Some ky ->
  index_of "area_id" (columns df) = Some ka ->
  index_of "exchange_value" (columns df) = Some ke ->
  let df' := coerced parse df in
  (exists l,
      validate_data_types parse (w, mkCleaner i o (Some df) n m)
      = (Ok tt, (w, mkCleaner i o (Some df') n m), l)
      /\ shows l ["Validating data types..."] 0 0)
  \/ (exists e c' l,
         validate_data_types parse (w, mkCleaner i o (Some df) n m)
         = (Raise e, (w, c'), l)
         /\ shows l ["Validating data types..."] 0 0).
Proof.
  intros Hy Ha He df'. unfold validate_data_types. run_monad.
  rewrite (getitem_cell_at _ _ _ Hy); run_monad.
  destruct (astype_Int64 _) as [year|e] eqn:Ey; run_monad;
    [|right; do 2 eexists; done_with_log].
  apply (map_result_Ok _ NA) in Ey. rewrite map_map in Ey. subst year.
  rewrite (setitem_map _ _ _ _ Hy).
  match goal with
  | |- context [mkCleaner i o (Some ?d) n m] => set (df1 := d)
  end.
  assert (H1 : columns df1 = columns df) by reflexivity.
  rewrite <- H1 in Ha, He.
  rewrite (getitem_cell_at _ _ _ Ha); run_monad.
  destruct (astype_Int64 _) as [area|e] eqn:Ea; run_monad;
    [|right; do 2 eexists; done_with_log].
  apply (map_result_Ok _ NA) in Ea. rewrite map_map in Ea. subst area.
  rewrite (setitem_map _ _ _ _ Ha).
  match goal with
  | |- context [mkCleaner i o (Some ?d) n m] => set (df2 := d)
  end.
  assert (H2 : columns df2 = columns df1) by reflexivity.
  rewrite <- H2 in He. rewrite <- H1, <- H2 in Hy.
  rewrite (getitem_cell_at _ _ _ He); run_monad.
  rewrite (setitem_map _ _ _ _ He).
  match goal with
  | |- context [mkCleaner i o (Some ?d) n m] => set (df3 := d)
  end.
  assert (H3 : columns df3 = columns df2) by reflexivity.
  rewrite <- H3 in He, Hy.
  rewrite (getitem_cell_at _ _ _ Hy), (getitem_cell_at _ _ _ He); run_monad.
  assert (E : df3 = df').
  { unfold df3, df', df2, df1, coerced. cbn [columns rows]. f_equal.
    rewrite !map_map. apply map_ext. intros r. reflexivity. }
  rewrite E. left.
  destruct (_ >? 0); destruct (_ >? 0); done_with_log.
Qed.

Lemma cell_lt_numeric (k : Z) (c : cell) : is_str c = false -> is_raise (cell_lt k c) = false.
Proof. now destruct c. Qed.

Lemma cell_gt_numeric (k : Z) (c : cell) : is_str c = false -> is_raise (cell_gt k c) = false.
Proof. now destruct c. Qed.

Lemma series_lt_numeric (cols : list string) (name : string) (rs : list (list cell)) (k : Z) :
  Forall (fun r => is_str (cell_at cols name r) = false) rs ->
  exists mask, series_lt (map (cell_at cols name) rs) k = Ok mask.
Proof.
  intros H. apply map_result_total. apply Forall_map.
  eapply Forall_impl; [|exact H]. intros r. apply cell_lt_numeric.
Qed.

Lemma series_gt_numeric (cols : list string) (name : string) (rs : list (list cell)) (k : Z) :
  Forall (fun r => is_str (cell_at cols name r) = false) rs ->
  exists mask, series_gt (map (cell_at cols name) rs) k = Ok mask.
Proof.
  intros H. apply map_result_total. apply Forall_map.
  eapply Forall_impl; [|exact H]. intros r. apply cell_gt_numeric.
Qed.

Lemma series_lt_values (cols : list string) (name : string) (rs : list (list cell)) (k : Z) :
  Forall (fun r => is_str (cell_at cols name r) = false) rs ->
  series_lt (map (cell_at cols name) rs) k
  = Ok (map (fun r => match cell_lt k (cell_at cols name r) with
                      | Ok b => b
                      | Raise _ => false
                      end) rs).
Proof.
  intros H. destruct (series_lt_numeric cols name rs k H) as [mask E]. rewrite E.
  apply (map_result_Ok _ false) in E. rewrite map_map in E. now subst mask.
Qed.

Lemma series_gt_values (cols : list string) (name : string) (rs : list (list cell)) (k : Z) :
  Forall (fun r => is_str (cell_at cols name r) = false) rs ->
  series_gt (map (cell_at cols name) rs) k
  = Ok (map (fun r => match cell_gt k (cell_at cols name r) with
                      | Ok b => b
                      | Raise _ => false
                      end) rs).
Proof.
  intros H. destruct (series_gt_numeric cols name rs k H) as [mask E]. rewrite E.
  apply (map_result_Ok _ false) in E. rewrite map_map in E. now subst mask.
Qed.

Lemma any_map {A} (f : A -> bool) (l : list A) : any (map f l) = existsb f l.
Proof. unfold any. now rewrite existsb_map. Qed.

Lemma negative_cell_lt (c : cell) :
  negative c = match cell_lt 0 c with Ok b => b | Raise _ => false end.
Proof. now destruct c. Qed.

Lemma out_of_range_cell (c : cell) :
  out_of_range c
  = (match cell_lt 1997 c with Ok b => b | Raise _ => false end)
    || (match cell_gt 2021 c with Ok b => b | Raise _ => false end).
Proof. now destruct c. Qed.

(** On a table whose year and value columns hold no text, the range check
    returns [True], changes nothing and logs no error. *)
Lemma validate_data_ranges_spec (w : World.t) (c : CommercialDataCleaner) (df : DataFrame)
      (ky ke : nat) :
  data c = Some df ->
  index_of "year" (columns df) = Some ky ->
  index_of "exchange_value" (columns df) = Some ke ->
  Forall (fun r => is_str (cell_at (columns df) "year" r) = false) (rows df) ->
  Forall (fun r => is_str (cell_at (columns df) "exchange_value" r) = false) (rows df) ->
  exists l,
    validate_data_ranges (w, c) = (Ok true, (w, c), l)
    /\ shows l ["Validating data ranges..."] 0 0
    /\ Forall (fun r => levelname r <> ERROR) l.
Proof.
  intros Hd Hy He Ty Te. destruct c as [i o d n m]. cbn [data] in Hd. subst d.
  unfold validate_data_ranges. run_monad.
  rewrite (getitem_cell_at _ _ _ He); run_monad.
  destruct (series_lt_numeric _ _ _ 0 Te) as [neg ->]; run_monad.
  rewrite (getitem_cell_at _ _ _ Hy); run_monad.
  destruct (series_lt_numeric _ _ _ 1997 Ty) as [lo ->]; run_monad.
  destruct (series_gt_numeric _ _ _ 2021 Ty) as [hi Hhi].
  destruct (any neg); destruct (any lo); run_monad; rewrite ?Hhi; run_monad;
    try destruct (any hi); run_monad; rewrite ?Hhi; run_monad;
    eexists; (split; [reflexivity|]); (split; [log_facts|]);
    repeat constructor; discriminate.
Qed.

(** Whatever the table, the range check leaves the cleaner and the files
    as they were, and returns nothing but [True]. *)
Lemma validate_data_ranges_frame (s : state) :
  final (validate_data_ranges s) = s
  /\ (returned (validate_data_ranges s) = Ok true
      \/ is_raise (returned (validate_data_ranges s)) = true)
  /\ Forall (fun r => levelname r <> ERROR) (logged (validate_data_ranges s)).
Proof.
  destruct s as [w [i o d n m]]. unfold validate_data_ranges, final, returned, logged.
  run_monad.
  destruct d as [df|]; run_monad;
    [|cbn; repeat split; auto; repeat constructor; discriminate].
  destruct (getitem df "exchange_value") as [ev|]; run_monad;
    [|cbn; repeat split; auto; repeat constructor; discriminate].
  destruct (series_lt ev 0) as [neg|]; run_monad;
    [|cbn; repeat split; auto; repeat constructor; discriminate].
  destruct (getitem df "year") as [year|]; run_monad;
    [|cbn; repeat split; auto; repeat constructor; discriminate].
  destruct (series_lt year 1997) as [lo|]; run_monad;
    [|cbn; repeat split; auto; repeat constructor; discriminate].
  destruct (any neg); destruct (any lo); run_monad;
    destruct (series_gt year 2021) as [hi|]; run_monad;
    try destruct (any hi); run_monad;
    cbn; repeat split; auto; repeat constructor; discriminate.
Qed.

(** The years the range check names in its warning: the distinct years
    out of range, in order of first appearance. *)
Lemma validate_data_ranges_names_the_years
      (w : World.t) (c : CommercialDataCleaner) (df : DataFrame) (ky ke : nat) :
  data c = Some df ->
  index_of "year" (columns df) = Some ky ->
  index_of "exchange_value" (columns df) = Some ke ->
  Forall (fun r => is_str (cell_at (columns df) "year" r) = false) (rows df) ->
  Forall (fun r => is_str (cell_at (columns df) "exchange_value" r) = false) (rows df) ->
  existsb (fun r => out_of_range (cell_at (columns df) "year" r)) (rows df) = true ->
  In (mkLog WARNING "Data quality issue: Years outside expected range (1997-2021): {}"
            (unique (filter out_of_range (map (cell_at (columns df) "year") (rows df)))))
     (logged (validate_data_ranges (w, c))).
Proof.
  intros Hd Hy He Ty Te Ho.
  rewrite filter_map_swap.
  rewrite (filter_ext _ _ (fun r => out_of_range_cell (cell_at (columns df) "year" r))).
  rewrite (existsb_ext _ _ _ (fun r => out_of_range_cell (cell_at (columns df) "year" r))) in Ho.
  rewrite existsb_orb in Ho.
  destruct c as [i o d n m]. cbn [data] in Hd. subst d.
  unfold validate_data_ranges, logged. run_monad.
  rewrite (getitem_cell_at _ _ _ He); run_monad.
  rewrite (series_lt_values _ _ _ 0 Te); run_monad.
  rewrite (getitem_cell_at _ _ _ Hy); run_monad.
  rewrite (series_lt_values _ _ _ 1997 Ty); run_monad.
  rewrite (series_gt_values _ _ _ 2021 Ty); run_monad.
  rewrite !any_map, zip_with_map_map, select_map_map.
  destruct (existsb (fun r => match cell_lt 0 _ with Ok b => b | Raise _ => false end)
                    (rows df));
    destruct (existsb (fun r => match cell_lt 1997 _ with Ok b => b | Raise _ => false end)
                      (rows df));
    destruct (existsb (fun r => match cell_gt 2021 _ with Ok b => b | Raise _ => false end)
                      (rows df));
    try discriminate; run_monad; cbn [In]; auto.
Qed.

Lemma isin_is_str (values : list string) (c : cell) : isin values c = true -> is_str c = true.
Proof. now destruct c. Qed.

(** [sorted] does not raise on values that all belong to a list of
    strings. *)
Lemma py_sorted_expected (expected : list string) (xs : list cell) :
  filter (fun v => negb (isin expected v)) xs = [] ->
  exists sorted, py_sorted xs = Ok sorted.
Proof.
  intros H. apply filter_nil_Forall in H. unfold py_sorted.
  assert (E : existsb (fun c => negb (is_str c)) xs = false).
  { induction H as [|x xs Hx _ IH]; simpl; [reflexivity|].
    rewrite IH, orb_false_r. apply negb_false_iff in Hx.
    now rewrite (isin_is_str _ _ Hx). }
  rewrite E, andb_false_r. now eexists.
Qed.

Lemma validate_categories_spec (w : World.t) (c : CommercialDataCleaner) (df : DataFrame)
      (start col : string) (expected : list string) (bad good : string) (k : nat) :
  data c = Some df ->
  index_of col (columns df) = Some k ->
  shows [mkLog INFO start []] [start] 0 0 ->
  (forall vals, shows [mkLog WARNING bad vals] [] 0 0) ->
  (forall vals, shows [mkLog INFO good vals] [] 0 0) ->
  exists l,
    validate_categories start col expected bad good (w, c) = (Ok tt, (w, c), l)
    /\ shows l [start] 0 0.
Proof.
  intros Hd Hk Hstart Hbad Hgood. destruct c as [i o d n m]. cbn [data] in Hd. subst d.
  unfold validate_categories. run_monad.
  rewrite (getitem_cell_at _ _ _ Hk); run_monad.
  destruct (filter _ (unique _)) as [|u us] eqn:E; run_monad.
  - destruct (py_sorted_expected _ _ E) as [sorted ->]; run_monad.
    eexists. split; [reflexivity|].
    apply (shows_app [_] [_] [start] [] 0 0 0 0); auto.
  - eexists. split; [reflexivity|].
    apply (shows_app [_] [_] [start] [] 0 0 0 0); auto.
Qed.

Lemma validate_ecosystem_types_spec (w : World.t) (c : CommercialDataCleaner) (df : DataFrame)
      (k : nat) :
  data c = Some df ->
  index_of "ecosystem_type" (columns df) = Some k ->
  exists l,
    validate_ecosystem_types (w, c) = (Ok tt, (w, c), l)
    /\ shows l ["Validating ecosystem types..."] 0 0.
Proof.
  intros Hd Hk. eapply validate_categories_spec; eauto; intros; log_facts.
Qed.

Lemma validate_species_groups_spec (w : World.t) (c : CommercialDataCleaner) (df : DataFrame)
      (k : nat) :
  data c = Some df ->
  index_of "species_group" (columns df) = Some k ->
  exists l,
    validate_species_groups (w, c) = (Ok tt, (w, c), l)
    /\ shows l ["Validating species groups..."] 0 0.
Proof.
  intros Hd Hk. eapply validate_categories_spec; eauto; intros; log_facts.
Qed.

Lemma validate_counties_spec (w : World.t) (c : CommercialDataCleaner) (df : DataFrame)
      (k : nat) :
  data c = Some df ->
  index_of "county" (columns df) = Some k ->
  exists l,
    validate_counties (w, c) = (Ok tt, (w, c), l)
    /\ shows l ["Validating county names..."] 0 0.
Proof.
  intros Hd Hk. eapply validate_categories_spec; eauto; intros; log_facts.
Qed.

Lemma remove_display_columns_spec (w : World.t) (i o : string) (df : DataFrame) (n m : Z)
      (remove_display : bool) :
  exists l,
    remove_display_columns remove_display (w, mkCleaner i o (Some df) n m)
    = (Ok tt, (w, mkCleaner i o (Some (without_display remove_display df)) n m), l)
    /\ shows l [if remove_display then "Removing display-only columns..."
                else "Keeping display columns (remove_display=False)"] 0 0.
Proof.
  unfold remove_display_columns, without_display, display_columns_of.
  destruct remove_display; run_monad; [|done_with_log].
  destruct (filter (has_column df) _) as [|x xs]; run_monad; done_with_log.
Qed.

Lemma export_cleaned_data_spec (w : World.t) (i o : string) (df : DataFrame) (n m : Z) :
  let c := mkCleaner i o (Some df) n m in
  exists l,
    export_cleaned_data (w, c)
    = (Ok (output_path w c),
       (write_csv (output_path w c) df w, mkCleaner i o (Some df) n (len df)), l)
    /\ shows l ["Exporting cleaned commercial data..."] 0 0.
Proof.
  intros c. unfold export_cleaned_data. run_monad. done_with_log.
Qed.

Lemma getitem_nil (df : DataFrame) (name : string) (s : Series) :
  getitem df name = Ok s -> rows df = [] -> s = [].
Proof.
  unfold getitem. destruct (index_of name (columns df)); [|discriminate].
  intros H E. inversion H. now rewrite E.
Qed.

Ltac destruct_result :=
  match goal with
  | |- context [match ?x with Ok _ => _ | Raise _ => _ end] => destruct x eqn:?
  end.

(** The summary leaves the cleaner as it is; when it returns, its counts
    are the recorded raw count and the length of the table, which has at
    least one row. *)
Lemma generate_summary_statistics_spec (w : World.t) (i o : string) (df : DataFrame)
      (n m : Z) :
  let s := (w, mkCleaner i o (Some df) n m) in
  exists r l,
    generate_summary_statistics s = (r, s, l)
    /\ shows l ["Generating summary statistics..."] 0 0
    /\ match r with
       | Ok sm =>
           Summary.raw_row_count sm = n
           /\ Summary.cleaned_row_count sm = len df
           /\ Summary.rows_removed sm = n - len df
           /\ rows df <> []
       | Raise _ => True
       end.
Proof.
  intros s. subst s. unfold generate_summary_statistics. run_monad.
  destruct (getitem df "year") as [year|e] eqn:Hy; run_monad;
    [|do 2 eexists; split; [reflexivity|]; split; [log_facts|exact I]].
  destruct (py_int (series_min year)) as [lo|e] eqn:Hmin; run_monad;
    [|do 2 eexists; split; [reflexivity|]; split; [log_facts|exact I]].
  assert (Hrows : rows df <> []).
  { intros E. rewrite (getitem_nil _ _ _ Hy E) in Hmin. discriminate. }
  repeat (destruct_result; run_monad);
    do 2 eexists; (split; [reflexivity|]); (split; [log_facts|]);
    cbn [Summary.raw_row_count Summary.cleaned_row_count Summary.rows_removed];
    auto.
Qed.

(** ** The whole run of the cleaner *)

Lemma bind_Ok {S A B} (m : M S A) (k : A -> M S B) (s s1 s2 : S) (a : A) (r : result B)
      (l1 l2 : list log_record) :
  m s = (Ok a, s1, l1) -> k a s1 = (r, s2, l2) -> bind m k s = (r, s2, (l1 ++ l2)%list).
Proof. intros H1 H2. unfold bind. now rewrite H1, H2. Qed.

Lemma bind_Raise {S A B} (m : M S A) (k : A -> M S B) (s s1 : S) (e : exn)
      (l1 : list log_record) :
  m s = (Raise e, s1, l1) -> bind m k s = (Raise e, s1, l1).
Proof. intros H1. unfold bind. now rewrite H1. Qed.

Lemma shows_eq (l : list log_record) (s s' : list string) (n n' a a' : Z) :
  shows l s n a -> s = s' -> n = n' -> a = a' -> shows l s' n' a'.
Proof. now intros H -> -> ->. Qed.

Lemma shows_quiet (text : string) (vals : list cell) :
  is_stage_message (mkLog INFO text vals) = false ->
  String.eqb text "Removed {} records with null/NA exchange values" = false ->
  String.eqb text "Removed {} aggregate rows" = false ->
  shows [mkLog INFO text vals] [] 0 0.
Proof.
  intros H1 H2 H3. unfold shows, stages_entered, nulls_removed, aggregates_removed, reported.
  cbn [filter map fold_right message]. now rewrite H1, H2, H3.
Qed.

Ltac quiet_log := apply shows_quiet; reflexivity.

(** A run that a gate stops returns the failure triple and writes
    nothing; it entered [load_data], and [validate_schema] if the load
    succeeded. *)
Lemma run_gate_fails (parse : string -> option Q) (ra rd : bool) (w : World.t)
      (c : CommercialDataCleaner) :
  passes_gates (w, c) = false ->
  exists c' l,
    run_cleaning_pipeline parse ra rd (w, c) = (Ok (false, None, None), (w, c'), l)
    /\ (stages_entered l = firstn 1 (all_stages ra rd)
        \/ stages_entered l = firstn 2 (all_stages ra rd)).
Proof.
  intros Hg. unfold passes_gates in Hg.
  destruct (load_data_spec w c) as (b & c1 & l0 & Hload & Hs0 & Hb).
  rewrite Hload in Hg. unfold run_cleaning_pipeline.
  destruct b.
  - destruct Hb as [df0 ->].
    match type of Hload with
    | _ = (_, (_, ?c1), _) =>
        destruct (validate_schema_spec w c1 df0 eq_refl) as (b' & l1 & Hschema & Hs1 & _)
    end.
    rewrite Hschema in Hg. destruct b'; [discriminate|].
    do 2 eexists. split.
    + do 3 (eapply bind_Ok; [reflexivity|]).
      eapply bind_Ok; [exact Hload|]. cbn [negb].
      eapply bind_Ok; [exact Hschema|]. cbn [negb]. reflexivity.
    + right. destruct Hs0 as [Hs0 _], Hs1 as [Hs1 _].
      rewrite !stages_entered_app, Hs0, Hs1. reflexivity.
  - subst c1. do 2 eexists. split.
    + do 3 (eapply bind_Ok; [reflexivity|]).
      eapply bind_Ok; [exact Hload|]. cbn [negb]. reflexivity.
    + left. destruct Hs0 as [Hs0 _].
      rewrite !stages_entered_app, Hs0. reflexivity.
Qed.

Lemma to_numeric_not_str (parse : string -> option Q) (c : cell) :
  is_str (to_numeric parse c) = false.
Proof.
  destruct c as [| | |s]; try reflexivity.
  unfold to_numeric. destruct (parse s); reflexivity.
Qed.

Lemma astype_not_str (c : cell) : is_str (value_of (astype_Int64_cell c)) = false.
Proof.
  destruct c as [|z|q|]; try reflexivity; unfold astype_Int64_cell.
  - destruct (in_int64 z); reflexivity.
  - destruct (_ && _); reflexivity.
Qed.

Lemma is_Int64_value_of (c : cell) : is_Int64 (value_of (astype_Int64_cell c)) = true.
Proof.
  destruct c as [|z|q|]; try reflexivity; unfold astype_Int64_cell.
  - destruct (in_int64 z); reflexivity.
  - destruct (_ && _); reflexivity.
Qed.

Lemma coerce_row_year (parse : string -> option Q) (cols : list string) (r : list cell) (k : nat) :
  index_of "year" cols = Some k ->
  cell_at cols "year" (coerce_row parse cols r)
  = value_of (astype_Int64_cell (to_numeric parse (cell_at cols "year" r))).
Proof.
  intros H. unfold coerce_row.
  rewrite !cell_at_set_at_ne by discriminate.
  now rewrite (cell_at_set_at_eq _ _ _ _ _ H).
Qed.

Lemma coerce_row_value (parse : string -> option Q) (cols : list string) (r : list cell) (k : nat) :
  index_of "exchange_value" cols = Some k ->
  cell_at cols "exchange_value" (coerce_row parse cols r)
  = to_numeric parse (cell_at cols "exchange_value" r).
Proof.
  intros H. unfold coerce_row.
  rewrite (cell_at_set_at_eq _ _ _ _ _ H).
  now rewrite !cell_at_set_at_ne by discriminate.
Qed.

Lemma coerce_row_other (parse : string -> option Q) (cols : list string) (r : list cell)
      (name : string) :
  name <> "year" -> name <> "area_id" -> name <> "exchange_value" ->
  cell_at cols name (coerce_row parse cols r) = cell_at cols name r.
Proof.
  intros H1 H2 H3. unfold coerce_row.
  now rewrite !cell_at_set_at_ne by congruence.
Qed.

Lemma coerced_numeric_year (parse : string -> option Q) (df : DataFrame) (k : nat) :
  index_of "year" (columns df) = Some k ->
  Forall (fun r => is_str (cell_at (columns df) "year" r) = false) (rows (coerced parse df)).
Proof.
  intros H. unfold coerced. cbn [rows]. apply Forall_map, Forall_forall. intros r _.
  rewrite (coerce_row_year _ _ _ _ H). apply astype_not_str.
Qed.

Lemma coerced_numeric_value (parse : string -> option Q) (df : DataFrame) (k : nat) :
  index_of "exchange_value" (columns df) = Some k ->
  Forall (fun r => is_str (cell_at (columns df) "exchange_value" r) = false)
         (rows (coerced parse df)).
Proof.
  intros H. unfold coerced. cbn [rows]. apply Forall_map, Forall_forall. intros r _.
  rewrite (coerce_row_value _ _ _ _ H). apply to_numeric_not_str.
Qed.

Lemma len_coerced (parse : string -> option Q) (df : DataFrame) :
  len (coerced parse df) = len df.
Proof. unfold len, coerced. cbn [rows]. now rewrite length_map. Qed.

Lemma len_without_display (rd : bool) (df : DataFrame) :
  len (without_display rd df) = len df.
Proof.
  unfold without_display. destruct (display_columns_of rd df); [reflexivity|].
  unfold len, drop_columns. cbn [rows]. now rewrite length_map.
Qed.

Lemma required_columns_indices (df : DataFrame) :
  Forall (fun name => has_column df name = true) required_columns ->
  exists ky ka kc ks kt ke,
    index_of "year" (columns df) = Some ky
    /\ index_of "area_id" (columns df) = Some ka
    /\ index_of "county" (columns df) = Some kc
    /\ index_of "species_group" (columns df) = Some ks
    /\ index_of "ecosystem_type" (columns df) = Some kt
    /\ index_of "exchange_value" (columns df) = Some ke.
Proof.
  unfold required_columns. intros H.
  repeat match goal with
         | H : Forall _ (_ :: _) |- _ => inversion H; clear H; subst
         end.
  repeat match goal with
         | H : has_column _ _ = true |- _ => apply has_column_index in H; destruct H
         end.
  do 6 eexists. repeat split; eassumption.
Qed.

Lemma remove_aggregate_rows_any (w : World.t) (i o : string) (df : DataFrame) (n m : Z)
      (ra : bool) (ks ke : nat) :
  index_of "species_group" (columns df) = Some ks ->
  index_of "ecosystem_type" (columns df) = Some ke ->
  exists l,
    remove_aggregate_rows ra (w, mkCleaner i o (Some df) n m)
    = (Ok tt, (w, mkCleaner i o (Some (without_aggregates ra df)) n m), l)
    /\ shows l [if ra then "Removing aggregate rows..."
                else "Skipping aggregate row removal (remove_aggregates=False)"]
             0 (len df - len (without_aggregates ra df)).
Proof.
  intros Hs He. destruct ra.
  - apply (remove_aggregate_rows_spec w i o df n m ks ke Hs He).
  - rewrite remove_aggregate_rows_skip. eexists. split; [reflexivity|].
    unfold without_aggregates. rewrite Z.sub_diag. log_facts.
Qed.

Lemma shows_nil : shows [] [] 0 0.
Proof. repeat split. Qed.

Ltac log_part := first [eassumption | quiet_log | apply shows_nil].

Ltac log_run :=
  eapply shows_eq; [repeat (eapply shows_app; [log_part|]); log_part|..].

(** Past the gates the run either stops in [validate_data_types] (a year
    or an area id that is no whole number within int64) or goes through
    every stage:
    it exports the cleaned table and returns what the summary returns. *)
Lemma run_past_gates (parse : string -> option Q) (ra rd : bool) (w : World.t)
      (c : CommercialDataCleaner) :
  passes_gates (w, c) = true ->
  exists df0,
    loaded (w, c) = Some df0
    /\ ((types_validated parse (w, c) = false
         /\ exists e c' l,
            run_cleaning_pipeline parse ra rd (w, c) = (Raise e, (w, c'), l)
            /\ stages_entered l = firstn 3 (all_stages ra rd))
        \/ (let df1 := without_nulls (coerced parse df0) in
            let df2 := without_aggregates ra df1 in
            let df := cleaned parse ra rd df0 in
            let c' := mkCleaner (input_dir c) (output_dir c) (Some df) (len df0) (len df) in
            types_validated parse (w, c) = true
            /\ exists r l,
              run_cleaning_pipeline parse ra rd (w, c)
              = (r, (write_csv (output_path w c) df w, c'), l)
              /\ shows l (all_stages ra rd) (len df0 - len df1) (len df1 - len df2)
              /\ match r with
                 | Ok v =>
                     exists sm,
                       v = (true, Some (output_path w c), Some sm)
                       /\ Summary.raw_row_count sm = len df0
                       /\ Summary.cleaned_row_count sm = len df
                       /\ Summary.rows_removed sm = len df0 - len df
                       /\ rows df <> []
                 | Raise _ => True
                 end
              /\ r = match returned (generate_summary_statistics
                                       (write_csv (output_path w c) df w, c')) with
                     | Ok sm => Ok (true, Some (output_path w c), Some sm)
                     | Raise e => Raise e
                     end)).
Proof.
  intros Hg. unfold passes_gates in Hg.
  destruct (load_data_spec w c) as (b & c1 & l0 & Hload & Hs0 & Hb).
  rewrite Hload in Hg. destruct b; [|discriminate].
  destruct Hb as [df0 ->].
  match type of Hload with
  | _ = (_, (_, ?c1), _) =>
      destruct (validate_schema_spec w c1 df0 eq_refl) as (b' & l1 & Hschema & Hs1 & Hcols)
  end.
  rewrite Hschema in Hg. destruct b'; [|discriminate]. specialize (Hcols eq_refl).
  exists df0. split; [unfold loaded, final; now rewrite Hload|].
  destruct (required_columns_indices _ Hcols) as (ky & ka & kc & ks & kt & ke & Hy & Ha & Hc & Hs & Ht & He).
  destruct c as [i o d n m]. cbn [input_dir output_dir cleaned_row_count] in *.
  destruct (validate_data_types_spec parse w i o df0 (len df0) m ky ka ke Hy Ha He)
    as [(l2 & Htypes & Hs2) | (e & c' & l2 & Htypes & Hs2)].
  - right. split; [unfold types_validated, returned; now rewrite Hload, Hschema, Htypes|].
    set (df1' := coerced parse df0) in *.
    set (df1 := without_nulls df1') in *.
    set (df2 := without_aggregates ra df1) in *.
    set (df := cleaned parse ra rd df0) in *.
    set (c2 := mkCleaner i o (Some df1') (len df0) m) in *.
    destruct (validate_data_ranges_spec w c2 df1' ky ke eq_refl Hy He
                (coerced_numeric_year parse df0 ky Hy)
                (coerced_numeric_value parse df0 ke He)) as (l3 & Hranges & Hs3 & _).
    destruct (validate_ecosystem_types_spec w c2 df1' kt eq_refl Ht) as (l4 & Heco & Hs4).
    destruct (validate_species_groups_spec w c2 df1' ks eq_refl Hs) as (l5 & Hspecies & Hs5).
    destruct (validate_counties_spec w c2 df1' kc eq_refl Hc) as (l6 & Hcounty & Hs6).
    destruct (remove_null_values_spec w i o df1' (len df0) m ke He) as (l7 & Hnull & Hs7).
    cbv zeta in Hnull, Hs7. fold df1 in Hnull, Hs7.
    destruct (remove_aggregate_rows_any w i o df1 (len df0) m ra ks kt Hs Ht)
      as (l8 & Hagg & Hs8).
    fold df2 in Hagg, Hs8.
    destruct (remove_display_columns_spec w i o df2 (len df0) m rd) as (l9 & Hdisp & Hs9).
    change (without_display rd df2) with df in Hdisp.
    destruct (export_cleaned_data_spec w i o df (len df0) m) as (l10 & Hexp & Hs10).
    cbv zeta in Hexp.
    change (output_path w (mkCleaner i o (Some df) (len df0) m))
      with (output_path w (mkCleaner i o d n m)) in Hexp.
    set (path := output_path w (mkCleaner i o d n m)) in *.
    destruct (generate_summary_statistics_spec (write_csv path df w) i o df (len df0) (len df))
      as (r & l11 & Hsum & Hs11 & Hr).
    cbv zeta in Hsum.
    assert (Hlen : len df1' = len df0) by apply len_coerced.
    destruct r as [sm|e].
    + exists (Ok (true, Some path, Some sm)). eexists.
      split; [|split; [|split; [|unfold returned; now rewrite Hsum]]].
      * unfold run_cleaning_pipeline.
        do 3 (eapply bind_Ok; [reflexivity|]).
        eapply bind_Ok; [exact Hload|]. cbn [negb].
        eapply bind_Ok; [exact Hschema|]. cbn [negb].
        eapply bind_Ok; [exact Htypes|].
        eapply bind_Ok; [exact Hranges|].
        eapply bind_Ok; [exact Heco|].
        eapply bind_Ok; [exact Hspecies|].
        eapply bind_Ok; [exact Hcounty|].
        eapply bind_Ok; [exact Hnull|].
        eapply bind_Ok; [exact Hagg|].
        eapply bind_Ok; [exact Hdisp|].
        eapply bind_Ok; [exact Hexp|].
        eapply bind_Ok; [exact Hsum|].
        do 7 (eapply bind_Ok; [reflexivity|]).
        reflexivity.
      * log_run; [destruct ra, rd; reflexivity|lia|lia].
      * exists sm. repeat split; tauto.
    + exists (Raise e). eexists.
      split; [|split; [|split; [exact I|unfold returned; now rewrite Hsum]]].
      * unfold run_cleaning_pipeline.
        do 3 (eapply bind_Ok; [reflexivity|]).
        eapply bind_Ok; [exact Hload|]. cbn [negb].
        eapply bind_Ok; [exact Hschema|]. cbn [negb].
        eapply bind_Ok; [exact Htypes|].
        eapply bind_Ok; [exact Hranges|].
        eapply bind_Ok; [exact Heco|].
        eapply bind_Ok; [exact Hspecies|].
        eapply bind_Ok; [exact Hcounty|].
        eapply bind_Ok; [exact Hnull|].
        eapply bind_Ok; [exact Hagg|].
        eapply bind_Ok; [exact Hdisp|].
        eapply bind_Ok; [exact Hexp|].
        eapply bind_Raise. exact Hsum.
      * log_run; [destruct ra, rd; reflexivity|lia|lia].
  - left. split; [unfold types_validated, returned; now rewrite Hload, Hschema, Htypes|].
    exists e, c'. eexists. split.
    + unfold run_cleaning_pipeline.
      do 3 (eapply bind_Ok; [reflexivity|]).
      eapply bind_Ok; [exact Hload|]. cbn [negb].
      eapply bind_Ok; [exact Hschema|]. cbn [negb].
      eapply bind_Raise. exact Htypes.
    + destruct Hs0 as [Hs0 _], Hs1 as [Hs1 _], Hs2 as [Hs2 _].
      rewrite !stages_entered_app, Hs0, Hs1, Hs2. reflexivity.
Qed.

(** ** The cleaned table *)

Lemma columns_without_aggregates (ra : bool) (df : DataFrame) :
  columns (without_aggregates ra df) = columns df.
Proof. now destruct ra. Qed.

Lemma has_column_columns (df df' : DataFrame) (name : string) :
  columns df' = columns df -> has_column df' name = has_column df name.
Proof. unfold has_column. now intros ->. Qed.

Lemma display_columns_of_columns (rd : bool) (df df' : DataFrame) :
  columns df' = columns df -> display_columns_of rd df' = display_columns_of rd df.
Proof.
  intros H. unfold display_columns_of. destruct rd; [|reflexivity].
  apply filter_ext. intros name. now apply has_column_columns.
Qed.

Lemma rows_without_display (rd : bool) (df : DataFrame) :
  rows (without_display rd df)
  = map (strip (columns df) (display_columns_of rd df)) (rows df).
Proof.
  unfold without_display, strip. destruct (display_columns_of rd df).
  - now rewrite map_id.
  - reflexivity.
Qed.

Lemma not_a_display_column (rd : bool) (df : DataFrame) (name : string) :
  name <> "county_olelo" -> name <> "exchange_value_formatted" ->
  existsb (String.eqb name) (display_columns_of rd df) = false.
Proof.
  intros H1 H2. unfold display_columns_of. destruct rd; [|reflexivity].
  apply String.eqb_neq in H1, H2. simpl.
  destruct (has_column df "county_olelo"), (has_column df "exchange_value_formatted");
    simpl; now rewrite ?H1, ?H2.
Qed.

(** A cell that is not of a display column is the same in the exported
    row. *)
Lemma cell_at_without_display (rd : bool) (df : DataFrame) (name : string) (r : list cell) :
  name <> "county_olelo" -> name <> "exchange_value_formatted" ->
  cell_at (columns (without_display rd df)) name
          (strip (columns df) (display_columns_of rd df) r)
  = cell_at (columns df) name r.
Proof.
  intros H1 H2. pose proof (not_a_display_column rd df name H1 H2) as E.
  unfold without_display, strip. destruct (display_columns_of rd df) as [|x xs].
  - reflexivity.
  - apply cell_at_drop_cells, E.
Qed.

(** The rows of the cleaned table: the rows loaded, coerced, those kept,
    without the display columns dropped. *)
Lemma rows_cleaned (parse : string -> option Q) (ra rd : bool) (df : DataFrame) :
  rows (cleaned parse ra rd df)
  = map (strip (columns df) (display_columns_of rd df))
        (filter (kept ra (columns df)) (map (coerce_row parse (columns df)) (rows df))).
Proof.
  unfold cleaned. rewrite rows_without_display.
  rewrite columns_without_aggregates.
  rewrite (display_columns_of_columns rd df) by now rewrite columns_without_aggregates.
  cbn [without_nulls coerced columns]. f_equal.
  unfold kept. destruct ra; cbn [without_aggregates without_nulls coerced rows columns andb].
  - rewrite filter_filter. reflexivity.
  - apply filter_ext. intros r. now rewrite andb_true_r.
Qed.

Lemma cell_at_cleaned (parse : string -> option Q) (ra rd : bool) (df : DataFrame)
      (name : string) (r : list cell) :
  name <> "county_olelo" -> name <> "exchange_value_formatted" ->
  cell_at (columns (cleaned parse ra rd df)) name
          (strip (columns df) (display_columns_of rd df) r)
  = cell_at (columns df) name r.
Proof.
  intros H1 H2. unfold cleaned.
  set (d := without_aggregates ra (without_nulls (coerced parse df))).
  assert (E : columns d = columns df) by (unfold d; now rewrite columns_without_aggregates).
  rewrite <- E at 2. rewrite <- (display_columns_of_columns rd df d E).
  rewrite <- E. now apply cell_at_without_display.
Qed.

Lemma len_cleaned (parse : string -> option Q) (ra rd : bool) (df : DataFrame) :
  len (cleaned parse ra rd df)
  = len (without_aggregates ra (without_nulls (coerced parse df))).
Proof. apply len_without_display. Qed.

Lemma isin_single (s : string) (c : cell) : isin [s] c = false -> c <> Str s.
Proof.
  intros H ->. simpl in H. now rewrite String.eqb_refl in H.
Qed.

(** Every row of the cleaned table has a value; with the aggregates
    removed, none is an aggregate. *)
Lemma cleaned_rows_kept (parse : string -> option Q) (ra rd : bool) (df : DataFrame) :
  let out := cleaned parse ra rd df in
  Forall (fun r =>
            isnull (cell_at (columns out) "exchange_value" r) = false
            /\ (ra = true ->
                cell_at (columns out) "species_group" r <> Str "All Species"
                /\ cell_at (columns out) "ecosystem_type" r <> Str "All Ecosystems"))
         (rows out).
Proof.
  intros out. unfold out. rewrite rows_cleaned. apply Forall_map, Forall_forall.
  intros r Hr. apply filter_In in Hr. destruct Hr as [_ Hk].
  rewrite !cell_at_cleaned by discriminate.
  unfold kept, has_value, notna in Hk. apply andb_true_iff in Hk. destruct Hk as [Hv Ha].
  split; [now apply negb_true_iff in Hv|].
  intros ->. cbn [andb] in Ha. apply negb_true_iff in Ha.
  unfold is_aggregate in Ha. apply orb_false_iff in Ha. destruct Ha as [Hs He].
  split; now apply isin_single.
Qed.

(** ** A successful run, taken apart *)

Lemma read_back_written {A} (path : string) (x : A) (files : list (string * A)) :
  read_back path ((path, x) :: files) = Some x.
Proof. simpl. now rewrite String.eqb_refl. Qed.

Lemma run_success (parse : string -> option Q) (ra rd : bool) (w : World.t)
      (c : CommercialDataCleaner) (path : option string) (sm : option Summary.t)
      (s' : state) (l : list log_record) :
  run_cleaning_pipeline parse ra rd (w, c) = (Ok (true, path, sm), s', l) ->
  exists df0 summary,
    loaded (w, c) = Some df0
    /\ passes_gates (w, c) = true
    /\ path = Some (output_path w c)
    /\ sm = Some summary
    /\ (let df := cleaned parse ra rd df0 in
        s' = (write_csv (output_path w c) df w,
              mkCleaner (input_dir c) (output_dir c) (Some df) (len df0) (len df))
        /\ Summary.raw_row_count summary = len df0
        /\ Summary.cleaned_row_count summary = len df
        /\ Summary.rows_removed summary = len df0 - len df
        /\ rows df <> []
        /\ shows l (all_stages ra rd)
                 (len df0 - len (without_nulls (coerced parse df0)))
                 (len (without_nulls (coerced parse df0))
                  - len (without_aggregates ra (without_nulls (coerced parse df0))))).
Proof.
  intros Hrun. destruct (passes_gates (w, c)) eqn:Hg.
  - destruct (run_past_gates parse ra rd w c Hg) as (df0 & Hl & [H | H]).
    + destruct H as (_ & e & c' & l' & H & _). rewrite H in Hrun. discriminate.
    + cbv zeta in H. destruct H as (_ & r & l' & H & Hs & Hr & _).
      rewrite H in Hrun. inversion Hrun; subst. destruct Hr as (summary & Hv & Hr).
      inversion Hv; subst. exists df0, summary.
      cbv zeta. repeat split; try reflexivity; try tauto; apply Hs.
  - destruct (run_gate_fails parse ra rd w c Hg) as (c' & l' & H & _).
    rewrite H in Hrun. discriminate.
Qed.

Lemma types_validated_passes_gates (parse : string -> option Q) (s : state) :
  types_validated parse s = true -> passes_gates s = true.
Proof.
  unfold types_validated, passes_gates.
  destruct (load_data s) as [[[[|]|] s1] l1]; try discriminate.
  destruct (validate_schema s1) as [[[[|]|] s2] l2]; try discriminate.
  reflexivity.
Qed.

(** A run that gets past [validate_data_types] exports the cleaned table
    and returns what the summary returns. *)
Lemma run_exports (parse : string -> option Q) (ra rd : bool) (w : World.t)
      (c : CommercialDataCleaner) :
  types_validated parse (w, c) = true ->
  exists df0 r l,
    loaded (w, c) = Some df0
    /\ (let df := cleaned parse ra rd df0 in
        run_cleaning_pipeline parse ra rd (w, c)
        = (r, (write_csv (output_path w c) df w,
               mkCleaner (input_dir c) (output_dir c) (Some df) (len df0) (len df)), l)
        /\ shows l (all_stages ra rd)
                 (len df0 - len (without_nulls (coerced parse df0)))
                 (len (without_nulls (coerced parse df0))
                  - len (without_aggregates ra (without_nulls (coerced parse df0))))
        /\ match r with
           | Ok v =>
               exists sm,
                 v = (true, Some (output_path w c), Some sm)
                 /\ Summary.raw_row_count sm = len df0
                 /\ Summary.cleaned_row_count sm = len df
                 /\ Summary.rows_removed sm = len df0 - len df
                 /\ rows df <> []
           | Raise _ => True
           end
        /\ r = match returned (generate_summary_statistics
                                 (write_csv (output_path w c) df w,
                                  mkCleaner (input_dir c) (output_dir c) (Some df)
                                            (len df0) (len df))) with
               | Ok sm => Ok (true, Some (output_path w c), Some sm)
               | Raise e => Raise e
               end).
Proof.
  intros Ht.
  destruct (run_past_gates parse ra rd w c (types_validated_passes_gates _ _ Ht))
    as (df0 & Hl & [[Hf _] | H]); [congruence|].
  cbv zeta in H. destruct H as (_ & r & l & H). exists df0, r, l. now split.
Qed.

(** ** The log of a run past the gates *)

Section NoError.

Context {Self : Type}.

Lemma no_error_ret {A} (a : A) : logs_no_error (ret a : M (St Self) A).
Proof. intros s. reflexivity. Qed.

Lemma no_error_lift {A} (r : result A) : logs_no_error (lift r : M (St Self) A).
Proof. intros s. reflexivity. Qed.

Lemma no_error_info (text : string) (vals : list cell) :
  logs_no_error (logging INFO text vals : M (St Self) unit).
Proof. intros s. reflexivity. Qed.

Lemma no_error_warning (text : string) (vals : list cell) :
  logs_no_error (logging WARNING text vals : M (St Self) unit).
Proof. intros s. reflexivity. Qed.

Lemma no_error_get_self : logs_no_error (get_self : M (St Self) Self).
Proof. intros s. reflexivity. Qed.

Lemma no_error_get_world : logs_no_error (get_world : M (St Self) World.t).
Proof. intros s. reflexivity. Qed.

Lemma no_error_modify (f : St Self -> St Self) : logs_no_error (modify f).
Proof. intros s. reflexivity. Qed.

Lemma no_error_bind {A B} (m : M (St Self) A) (k : A -> M (St Self) B) :
  logs_no_error m -> (forall a, logs_no_error (k a)) -> logs_no_error (bind m k).
Proof.
  intros Hm Hk s. unfold bind, logged. specialize (Hm s). unfold logged in Hm.
  destruct (m s) as [[[a|e] s1] l1]; cbn [fst snd] in *; [|exact Hm].
  specialize (Hk a s1). unfold logged in Hk.
  destruct (k a s1) as [[r s2] l2]. cbn [fst snd] in *.
  now rewrite existsb_app, Hm, Hk.
Qed.

Lemma no_error_for_each {A} (xs : list A) (body : A -> M (St Self) unit) :
  (forall x, logs_no_error (body x)) -> logs_no_error (for_each xs body).
Proof.
  intros H. induction xs as [|x xs IH]; simpl.
  - apply no_error_ret.
  - apply no_error_bind; auto.
Qed.

(** A step that returned without an error in its log, followed by steps
    that log none. *)
Lemma no_error_bind_Ok {A B} (m : M (St Self) A) (k : A -> M (St Self) B)
      (s s1 : St Self) (a : A) (l1 : list log_record) :
  m s = (Ok a, s1, l1) -> existsb is_error l1 = false ->
  existsb is_error (logged (k a s1)) = false ->
  existsb is_error (logged (bind m k s)) = false.
Proof.
  intros Hm Hl Hk. unfold bind, logged. rewrite Hm. unfold logged in Hk.
  destruct (k a s1) as [[r s2] l2]. cbn [fst snd] in *. now rewrite existsb_app, Hl, Hk.
Qed.

(** The log of a sequence holds the log of its first step, and that of
    the rest when the first step returns. *)
Lemma In_logged_bind {A B} (m : M (St Self) A) (k : A -> M (St Self) B) (s : St Self)
      (x : log_record) :
  In x (logged (m s)) -> In x (logged (bind m k s)).
Proof.
  unfold bind, logged. destruct (m s) as [[[a|e] s1] l1]; cbn [fst snd]; [|auto].
  destruct (k a s1) as [[r s2] l2]. cbn [snd]. intros H. apply in_or_app. now left.
Qed.

Lemma In_logged_bind_Ok {A B} (m : M (St Self) A) (k : A -> M (St Self) B)
      (s s1 : St Self) (a : A) (l1 : list log_record) (x : log_record) :
  m s = (Ok a, s1, l1) -> In x (logged (k a s1)) -> In x (logged (bind m k s)).
Proof.
  intros Hm. unfold bind, logged. rewrite Hm.
  destruct (k a s1) as [[r s2] l2]. cbn [snd]. intros H. apply in_or_app. now right.
Qed.

End NoError.

Lemma no_error_self_data (e : exn) : logs_no_error (self_data e).
Proof. intros [w c]. unfold self_data, logged. cbn [snd]. now destruct (data c). Qed.

Ltac no_error_step :=
  first
    [ apply no_error_bind; [|intros ?]
    | apply no_error_for_each; intros ?
    | apply no_error_ret
    | apply no_error_lift
    | apply no_error_info
    | apply no_error_warning
    | apply no_error_get_self
    | apply no_error_get_world
    | apply no_error_modify
    | apply no_error_self_data
    | match goal with
      | |- logs_no_error (if ?b then _ else _) => destruct b
      | |- logs_no_error (match ?x with _ => _ end) => destruct x
      end ].

Ltac no_error :=
  unfold logging_info, logging_warning, column, set_data, set_raw_row_count,
    set_cleaned_row_count, set_self, set_world;
  cbv zeta; repeat no_error_step.

(** No stage past the gates logs an error, whatever the table. *)
Lemma no_error_past_the_gates (parse : string -> option Q) (ra rd : bool) :
  logs_no_error
    (bind (validate_data_types parse) (fun _ =>
     bind validate_data_ranges (fun _ =>
     bind validate_ecosystem_types (fun _ =>
     bind validate_species_groups (fun _ =>
     bind validate_counties (fun _ =>
     bind remove_null_values (fun _ =>
     bind (remove_aggregate_rows ra) (fun _ =>
     bind (remove_display_columns rd) (fun _ =>
     bind export_cleaned_data (fun output_file =>
     bind generate_summary_statistics (fun summary =>
     bind get_self (fun self =>
     bind (logging_info (banner 60) []) (fun _ =>
     bind (logging_info "COMMERCIAL DATA CLEANING COMPLETE" []) (fun _ =>
     bind (logging_info "Input:  {} rows" [Int (raw_row_count self)]) (fun _ =>
     bind (logging_info "Output: {} rows" [Int (cleaned_row_count self)]) (fun _ =>
     bind (logging_info "Removed: {} rows"
             [Int (raw_row_count self - cleaned_row_count self)]) (fun _ =>
     bind (logging_info (banner 60) []) (fun _ =>
     ret (true, Some output_file, Some summary))))))))))))))))))).
Proof.
  unfold validate_data_types, validate_data_ranges, validate_ecosystem_types,
    validate_species_groups, validate_counties, validate_categories, remove_null_values,
    remove_aggregate_rows, remove_display_columns, export_cleaned_data,
    generate_summary_statistics.
  no_error.
Qed.

Lemma load_data_true_log (s s1 : state) (l : list log_record) :
  load_data s = (Ok true, s1, l) -> existsb is_error l = false.
Proof.
  destruct s as [w c]. unfold load_data. run_monad.
  match goal with
  | |- context [match ?x with [] => _ | _ :: _ => _ end] => destruct x as [|f fs]
  end.
  - discriminate.
  - unfold read_csv. destruct (file_table f) as [df|]; run_monad; [|discriminate].
    intros H. inversion H. reflexivity.
Qed.

Lemma validate_schema_true_log (s s1 : state) (l : list log_record) :
  validate_schema s = (Ok true, s1, l) -> existsb is_error l = false.
Proof.
  destruct s as [w [i o [df|] n m]]; unfold validate_schema; run_monad; [|discriminate].
  destruct (filter (fun col => negb (has_column df col)) required_columns); run_monad;
    [|discriminate].
  destruct (filter (has_column df) optional_columns); run_monad;
    intros H; inversion H; reflexivity.
Qed.

(** The run up to the range check, when [validate_data_types] returns. *)
Lemma run_up_to_the_range_check (parse : string -> option Q) (w : World.t)
      (c : CommercialDataCleaner) (df0 : DataFrame) :
  types_validated parse (w, c) = true ->
  loaded (w, c) = Some df0 ->
  let c1 := mkCleaner (input_dir c) (output_dir c) (Some df0) (len df0)
                      (cleaned_row_count c) in
  let c2 := mkCleaner (input_dir c) (output_dir c) (Some (coerced parse df0)) (len df0)
                      (cleaned_row_count c) in
  exists l0 l1 l2 ky ke,
    load_data (w, c) = (Ok true, (w, c1), l0)
    /\ validate_schema (w, c1) = (Ok true, (w, c1), l1)
    /\ validate_data_types parse (w, c1) = (Ok tt, (w, c2), l2)
    /\ index_of "year" (columns df0) = Some ky
    /\ index_of "exchange_value" (columns df0) = Some ke.
Proof.
  intros Ht Hl c1 c2. unfold types_validated in Ht. unfold loaded, final in Hl.
  destruct (load_data_spec w c) as (b & c' & l0 & Hload & _ & Hb).
  rewrite Hload in Ht, Hl. cbn [fst snd] in Hl. destruct b; [|discriminate].
  destruct Hb as [df ->]. cbn [data] in Hl. inversion Hl; subst df. fold c1 in Hload, Ht.
  destruct (validate_schema_spec w c1 df0 eq_refl) as (b' & l1 & Hschema & _ & Hcols).
  rewrite Hschema in Ht. destruct b'; [|discriminate]. specialize (Hcols eq_refl).
  destruct (required_columns_indices _ Hcols)
    as (ky & ka & _ & _ & _ & ke & Hy & Ha & _ & _ & _ & He).
  destruct (validate_data_types_spec parse w (input_dir c) (output_dir c) df0 (len df0)
              (cleaned_row_count c) ky ka ke Hy Ha He)
    as [(l2 & Htypes & _) | (e & c'' & l2 & Htypes & _)];
    fold c1 in Htypes; rewrite Htypes in Ht; [|discriminate].
  exists l0, l1, l2, ky, ke. auto.
Qed.

(** A run that gets past [validate_data_types] logs no error. *)
Lemma run_logs_no_error (parse : string -> option Q) (ra rd : bool) (w : World.t)
      (c : CommercialDataCleaner) :
  types_validated parse (w, c) = true ->
  existsb is_error (logged (run_cleaning_pipeline parse ra rd (w, c))) = false.
Proof.
  intros Ht.
  destruct (run_exports parse ra rd w c Ht) as (df0 & _ & _ & Hl & _).
  destruct (run_up_to_the_range_check parse w c df0 Ht Hl)
    as (l0 & l1 & l2 & ky & ke & Hload & Hschema & _).
  unfold run_cleaning_pipeline.
  do 3 (eapply no_error_bind_Ok; [reflexivity|reflexivity|]).
  eapply no_error_bind_Ok; [exact Hload|exact (load_data_true_log _ _ _ Hload)|].
  cbn [negb].
  eapply no_error_bind_Ok; [exact Hschema|exact (validate_schema_true_log _ _ _ Hschema)|].
  cbn [negb]. apply no_error_past_the_gates.
Qed.

(** ** The claims about the cleaner *)

(** C4. After a successful run of the cleaning pipeline, no row of the
    exported table (the file the run returns, which is also the table the
    cleaner holds) has a null [exchange_value]: [remove_null_values] drops
    the rows without a value and no later stage brings one back. *)
Theorem exported_table_has_no_null_exchange_value
        (parse : string -> option Q) (ra rd : bool) (w : World.t) (c : CommercialDataCleaner)
        (path : string) (summary : Summary.t) :
  returned (run_cleaning_pipeline parse ra rd (w, c)) = Ok (true, Some path, Some summary) ->
  exists df,
    read_back path (csv_written (fst (final (run_cleaning_pipeline parse ra rd (w, c))))) = Some df
    /\ data (snd (final (run_cleaning_pipeline parse ra rd (w, c)))) = Some df
    /\ Forall (fun r => isnull (cell_at (columns df) "exchange_value" r) = false) (rows df).
Proof.
  destruct (run_cleaning_pipeline parse ra rd (w, c)) as [[r s'] l] eqn:Hrun.
  unfold returned, final. cbn [fst snd]. intros ->.
  destruct (run_success _ _ _ _ _ _ _ _ _ Hrun) as (df0 & sm & _ & _ & Hp & _ & H).
  cbv zeta in H. destruct H as (-> & _). inversion Hp; subst path.
  exists (cleaned parse ra rd df0). cbn [fst snd csv_written write_csv data].
  split; [apply read_back_written|]. split; [reflexivity|].
  eapply Forall_impl; [|apply cleaned_rows_kept]. intros r Hr. apply Hr.
Qed.

Lemma exported_table_has_no_null_exchange_value_witness :
  returned (run_cleaning_pipeline Samples.no_parse true false
              (Samples.world_of Samples.table_mixed, Samples.cleaner))
  = Ok (true, Some Samples.exported_file, Some Samples.summary_mixed)
  /\ exists df,
      read_back Samples.exported_file
        (csv_written (fst (final (run_cleaning_pipeline Samples.no_parse true false
                                    (Samples.world_of Samples.table_mixed, Samples.cleaner)))))
      = Some df
      /\ data (snd (final (run_cleaning_pipeline Samples.no_parse true false
                             (Samples.world_of Samples.table_mixed, Samples.cleaner))))
         = Some df
      /\ Forall (fun r => isnull (cell_at (columns df) "exchange_value" r) = false) (rows df).
Proof.
  split.
  - vm_compute. reflexivity.
  - eapply exported_table_has_no_null_exchange_value. vm_compute. reflexivity.
Defined.

(** C5. A run with [remove_aggregates=True] that gets to export a table
    exports none of the aggregate rows: no row has [species_group] equal
    to "All Species" and no row has [ecosystem_type] equal to
    "All Ecosystems".  Either sentinel alone is enough for a row to be
    dropped. *)
Theorem aggregate_rows_are_removed
        (parse : string -> option Q) (rd : bool) (w : World.t) (c : CommercialDataCleaner) :
  types_validated parse (w, c) = true ->
  exists df,
    csv_written (fst (final (run_cleaning_pipeline parse true rd (w, c))))
    = (output_path w c, df) :: csv_written w
    /\ data (snd (final (run_cleaning_pipeline parse true rd (w, c)))) = Some df
    /\ Forall (fun r =>
                 cell_at (columns df) "species_group" r <> Str "All Species"
                 /\ cell_at (columns df) "ecosystem_type" r <> Str "All Ecosystems")
              (rows df).
Proof.
  intros Ht. destruct (run_exports parse true rd w c Ht) as (df0 & r & l & _ & H).
  cbv zeta in H. destruct H as (Hrun & _). rewrite Hrun.
  exists (cleaned parse true rd df0). unfold final. cbn [fst snd csv_written write_csv data].
  split; [reflexivity|]. split; [reflexivity|].
  eapply Forall_impl; [|apply cleaned_rows_kept]. intros x Hx. now apply Hx.
Qed.

Lemma aggregate_rows_are_removed_witness :
  types_validated Samples.no_parse (Samples.world_of Samples.table_mixed, Samples.cleaner) = true
  /\ exists df,
      csv_written (fst (final (run_cleaning_pipeline Samples.no_parse true false
                                 (Samples.world_of Samples.table_mixed, Samples.cleaner))))
      = (output_path (Samples.world_of Samples.table_mixed) Samples.cleaner, df)
          :: csv_written (Samples.world_of Samples.table_mixed)
      /\ data (snd (final (run_cleaning_pipeline Samples.no_parse true false
                             (Samples.world_of Samples.table_mixed, Samples.cleaner))))
         = Some df
      /\ Forall (fun r =>
                   cell_at (columns df) "species_group" r <> Str "All Species"
                   /\ cell_at (columns df) "ecosystem_type" r <> Str "All Ecosystems")
                (rows df).
Proof.
  split.
  - vm_compute. reflexivity.
  - apply aggregate_rows_are_removed. vm_compute. reflexivity.
Defined.

(** C6. With [remove_aggregates=False] the aggregate-removal step is a
    no-op: it returns, and the cleaner (its table, so every row and the row
    count) and the files are as before. *)
Theorem remove_aggregate_rows_disabled_is_noop (s : state) :
  returned (remove_aggregate_rows false s) = Ok tt
  /\ final (remove_aggregate_rows false s) = s
  /\ data (snd (final (remove_aggregate_rows false s))) = data (snd s)
  /\ option_map len (data (snd (final (remove_aggregate_rows false s))))
     = option_map len (data (snd s)).
Proof.
  destruct s as [w c]. rewrite remove_aggregate_rows_skip.
  unfold returned, final. cbn [fst snd]. repeat split.
Qed.

(** The gates of a run, and what lies past them.  A run that a gate
    stops ([load_data] or [validate_schema] returns [False]) returns
    [(False, None, None)] without raising, enters no further stage and
    writes no file.  Past the gates no stage is conditional: when
    [validate_data_types] returns, every remaining stage is entered, in
    order, and the table is exported, whatever warnings were logged; when
    it raises, the run raises with it and enters no later stage. *)
Lemma run_cleaning_pipeline_gates
        (parse : string -> option Q) (ra rd : bool) (w : World.t) (c : CommercialDataCleaner) :
  if passes_gates (w, c)
  then
    if types_validated parse (w, c)
    then stages_entered (logged (run_cleaning_pipeline parse ra rd (w, c))) = all_stages ra rd
         /\ returned (run_cleaning_pipeline parse ra rd (w, c)) <> Ok (false, None, None)
         /\ exists df,
             csv_written (fst (final (run_cleaning_pipeline parse ra rd (w, c))))
             = (output_path w c, df) :: csv_written w
    else stages_entered (logged (run_cleaning_pipeline parse ra rd (w, c)))
         = firstn 3 (all_stages ra rd)
         /\ is_raise (returned (run_cleaning_pipeline parse ra rd (w, c))) = true
  else
    returned (run_cleaning_pipeline parse ra rd (w, c)) = Ok (false, None, None)
    /\ fst (final (run_cleaning_pipeline parse ra rd (w, c))) = w
    /\ (stages_entered (logged (run_cleaning_pipeline parse ra rd (w, c)))
        = firstn 1 (all_stages ra rd)
        \/ stages_entered (logged (run_cleaning_pipeline parse ra rd (w, c)))
           = firstn 2 (all_stages ra rd)).
Proof.
  destruct (passes_gates (w, c)) eqn:Hg.
  - destruct (run_past_gates parse ra rd w c Hg) as (df0 & _ & [(Ht & H) | H]).
    + rewrite Ht. destruct H as (e & c' & l & -> & Hs). now split.
    + cbv zeta in H. destruct H as (Ht & r & l & Hrun & (Hs & _) & Hr & _). rewrite Ht, Hrun.
      unfold logged, returned, final. cbn [fst snd csv_written write_csv].
      split; [exact Hs|]. split; [|now eexists].
      destruct r as [v|e]; [|discriminate].
      destruct Hr as (sm & -> & _). discriminate.
  - destruct (run_gate_fails parse ra rd w c Hg) as (c' & l & -> & Hs). now repeat split.
Qed.

(** C7, which the code does not meet.  A table whose one year is 1997.5
    gets the run past both gates ([load_data] and [validate_schema]
    return [True]), and yet the remaining stages are not all executed:
    [validate_data_types] raises a [TypeError] on the cast of the year to
    [Int64], which nothing catches, so the run raises instead of
    returning a tuple, enters no stage after the third and writes no
    file. *)
Theorem half_year_stops_the_run :
  passes_gates (Samples.world_of Samples.table_half_year, Samples.cleaner) = true
  /\ (exists what,
        returned (run_cleaning_pipeline Samples.no_parse true false
                    (Samples.world_of Samples.table_half_year, Samples.cleaner))
        = Raise (TypeError what))
  /\ stages_entered (logged (run_cleaning_pipeline Samples.no_parse true false
                               (Samples.world_of Samples.table_half_year, Samples.cleaner)))
     = [ "Loading commercial fisheries data..."; "Validating data schema...";
         "Validating data types..." ]
  /\ stages_entered (logged (run_cleaning_pipeline Samples.no_parse true false
                               (Samples.world_of Samples.table_half_year, Samples.cleaner)))
     <> all_stages true false
  /\ csv_written (fst (final (run_cleaning_pipeline Samples.no_parse true false
                                (Samples.world_of Samples.table_half_year, Samples.cleaner))))
     = [].
Proof.
  split; [vm_compute; reflexivity|].
  split; [eexists; vm_compute; reflexivity|].
  split; [vm_compute; reflexivity|].
  split; [vm_compute; discriminate|vm_compute; reflexivity].
Qed.

(** The scenario of the specification: without the column
    [exchange_value] the schema check fails, the run halts with the
    failure triple and no file, and the orchestrator still runs the other
    cleaner. *)
Lemma missing_column_halts :
  passes_gates (Samples.world_of Samples.table_no_value_column, Samples.cleaner) = false
  /\ returned (run_cleaning_pipeline Samples.no_parse true false
                 (Samples.world_of Samples.table_no_value_column, Samples.cleaner))
     = Ok (false, None, None)
  /\ stages_entered (logged (run_cleaning_pipeline Samples.no_parse true false
                               (Samples.world_of Samples.table_no_value_column,
                                Samples.cleaner)))
     = ["Loading commercial fisheries data..."; "Validating data schema..."]
  /\ csv_written (fst (final (run_cleaning_pipeline Samples.no_parse true false
                                (Samples.world_of Samples.table_no_value_column,
                                 Samples.cleaner))))
     = []
  /\ Pipeline.results
       (snd (final (Pipeline.run_full_pipeline Samples.no_parse
                      Samples.noncommercial_succeeds true false
                      (Samples.world_of Samples.table_no_value_column, Samples.pipeline))))
     = {| Pipeline.commercial := Some Samples.commercial_failed;
          Pipeline.non_commercial := Some Samples.noncommercial_succeeded |}.
Proof. repeat split; vm_compute; reflexivity. Qed.

(** C8. In a successful run the summary obeys the accounting identity:
    the raw count less the cleaned count is what [remove_null_values]
    reported removed plus what [remove_aggregate_rows] reported removed
    (nothing when it was skipped), and [rows_removed] is that number; no
    other stage changes the number of rows. *)
Theorem accounting_identity
        (parse : string -> option Q) (ra rd : bool) (w : World.t) (c : CommercialDataCleaner)
        (path : string) (summary : Summary.t) :
  returned (run_cleaning_pipeline parse ra rd (w, c)) = Ok (true, Some path, Some summary) ->
  Summary.raw_row_count summary - Summary.cleaned_row_count summary
  = nulls_removed (logged (run_cleaning_pipeline parse ra rd (w, c)))
    + aggregates_removed (logged (run_cleaning_pipeline parse ra rd (w, c)))
  /\ Summary.rows_removed summary
     = Summary.raw_row_count summary - Summary.cleaned_row_count summary.
Proof.
  destruct (run_cleaning_pipeline parse ra rd (w, c)) as [[r s'] l] eqn:Hrun.
  unfold returned, logged. cbn [fst snd]. intros ->.
  destruct (run_success _ _ _ _ _ _ _ _ _ Hrun) as (df0 & sm & _ & _ & _ & Hsm & H).
  inversion Hsm; subst sm. cbv zeta in H.
  destruct H as (_ & -> & -> & -> & _ & _ & -> & ->).
  rewrite len_cleaned. lia.
Qed.

Lemma accounting_identity_witness :
  returned (run_cleaning_pipeline Samples.no_parse true false
              (Samples.world_of Samples.table_mixed, Samples.cleaner))
  = Ok (true, Some Samples.exported_file, Some Samples.summary_mixed)
  /\ Summary.raw_row_count Samples.summary_mixed
     - Summary.cleaned_row_count Samples.summary_mixed
     = nulls_removed (logged (run_cleaning_pipeline Samples.no_parse true false
                                (Samples.world_of Samples.table_mixed, Samples.cleaner)))
       + aggregates_removed (logged (run_cleaning_pipeline Samples.no_parse true false
                                       (Samples.world_of Samples.table_mixed, Samples.cleaner)))
  /\ Summary.rows_removed Samples.summary_mixed
     = Summary.raw_row_count Samples.summary_mixed
       - Summary.cleaned_row_count Samples.summary_mixed.
Proof.
  split.
  - vm_compute. reflexivity.
  - apply (accounting_identity Samples.no_parse true false
             (Samples.world_of Samples.table_mixed) Samples.cleaner
             Samples.exported_file).
    vm_compute. reflexivity.
Defined.

Lemma index_of_filter (name : string) (names cols : list string) (i : nat) :
  index_of name cols = Some i ->
  existsb (String.eqb name) names = false ->
  exists j, index_of name (filter (fun c => negb (existsb (String.eqb c) names)) cols) = Some j.
Proof.
  intros H Hn. revert i H. induction cols as [|c cols IH]; simpl; intros i H; [discriminate|].
  destruct (String.eqb_spec c name) as [->|Hc].
  - rewrite Hn. simpl. rewrite String.eqb_refl. now eexists.
  - destruct (index_of name cols) as [k|]; [|discriminate].
    destruct (IH k eq_refl) as [j Hj].
    destruct (existsb (String.eqb c) names); simpl.
    + eauto.
    + apply String.eqb_neq in Hc. rewrite Hc, Hj. simpl. eauto.
Qed.

Lemma index_of_without_display (rd : bool) (df : DataFrame) (name : string) (i : nat) :
  name <> "county_olelo" -> name <> "exchange_value_formatted" ->
  index_of name (columns df) = Some i ->
  exists j, index_of name (columns (without_display rd df)) = Some j.
Proof.
  intros H1 H2 Hi. pose proof (not_a_display_column rd df name H1 H2) as E.
  unfold without_display. destruct (display_columns_of rd df) as [|x xs].
  - eauto.
  - cbn [drop_columns columns]. eapply index_of_filter; eauto.
Qed.

(** On a table without rows the summary raises: the minimum of the year
    column is [pd.NA], of which [int] cannot be taken. *)
Lemma generate_summary_statistics_empty (w : World.t) (c : CommercialDataCleaner)
      (df : DataFrame) (k : nat) :
  data c = Some df ->
  index_of "year" (columns df) = Some k ->
  rows df = [] ->
  returned (generate_summary_statistics (w, c))
  = Raise (TypeError "int() argument must be a string, a bytes-like object or a real number, not 'NAType'").
Proof.
  intros Hd Hk Hr. destruct c as [i o d n m]. cbn [data] in Hd. subst d.
  unfold generate_summary_statistics, returned. run_monad.
  rewrite (getitem_cell_at _ _ _ Hk), Hr. run_monad. reflexivity.
Qed.

Lemma gates_required_columns (w : World.t) (c : CommercialDataCleaner) (df0 : DataFrame) :
  passes_gates (w, c) = true ->
  loaded (w, c) = Some df0 ->
  Forall (fun name => has_column df0 name = true) required_columns.
Proof.
  intros Hg Hl. unfold passes_gates in Hg. unfold loaded, final in Hl.
  destruct (load_data_spec w c) as (b & c1 & l0 & Hload & _ & Hb).
  rewrite Hload in Hg, Hl. cbn [fst snd] in Hl. destruct b; [|discriminate].
  destruct Hb as [df ->]. cbn [data] in Hl. inversion Hl; subst df.
  match type of Hload with
  | _ = (_, (_, ?c1), _) =>
      destruct (validate_schema_spec w c1 df0 eq_refl) as (b' & l1 & Hschema & _ & Hcols)
  end.
  rewrite Hschema in Hg. destruct b'; [auto|discriminate].
Qed.

(** In a run past [validate_data_types] the range check returns [True]:
    the columns it compares hold no text any more. *)
Lemma range_check_returns_true (parse : string -> option Q) (w : World.t)
      (c : CommercialDataCleaner) :
  types_validated parse (w, c) = true ->
  returned (validate_data_ranges
              (final (validate_data_types parse
                        (final (validate_schema (final (load_data (w, c))))))))
  = Ok true.
Proof.
  intros Ht. unfold types_validated in Ht.
  destruct (load_data_spec w c) as (b & c1 & l0 & Hload & _ & Hb).
  rewrite Hload in Ht |- *. destruct b; [|discriminate]. destruct Hb as [df0 ->].
  unfold final at 3. cbn [fst snd].
  match type of Hload with
  | _ = (_, (_, ?c1), _) =>
      destruct (validate_schema_spec w c1 df0 eq_refl) as (b' & l1 & Hschema & _ & Hcols)
  end.
  rewrite Hschema in Ht |- *. destruct b'; [|discriminate]. specialize (Hcols eq_refl).
  unfold final at 2. cbn [fst snd].
  destruct (required_columns_indices _ Hcols)
    as (ky & ka & _ & _ & _ & ke & Hy & Ha & _ & _ & _ & He).
  destruct c as [i o d n m]. cbn [CleanCommercial.input_dir CleanCommercial.output_dir cleaned_row_count] in *.
  destruct (validate_data_types_spec parse w i o df0 (len df0) m ky ka ke Hy Ha He)
    as [(l2 & Htypes & _) | (e & c' & l2 & Htypes & _)];
    rewrite Htypes in Ht |- *; [|discriminate].
  unfold final. cbn [fst snd].
  destruct (validate_data_ranges_spec w (mkCleaner i o (Some (coerced parse df0)) (len df0) m)
              (coerced parse df0) ky ke eq_refl Hy He
              (coerced_numeric_year parse df0 ky Hy)
              (coerced_numeric_value parse df0 ke He)) as (l3 & Hr & _).
  unfold returned. now rewrite Hr.
Qed.

(** C9, as amended.  The range check is advisory.  [validate_data_ranges]
    leaves the cleaner and the files as they are whatever the table,
    returns nothing but [True] and logs no error; in a run it does return
    [True].  So a run that gets to export keeps every loaded row with a
    year out of range and a value, coerced and without the dropped
    display columns, unless [remove_aggregates] is set and the row is an
    aggregate.  The log of the run holds the warning of the range check,
    which names the year of the row, and no error. *)
Theorem range_validation_is_advisory
        (parse : string -> option Q) (ra rd : bool) (w : World.t) (c : CommercialDataCleaner)
        (df0 : DataFrame) (r : list cell) :
  types_validated parse (w, c) = true ->
  loaded (w, c) = Some df0 ->
  In r (rows df0) ->
  out_of_range (cell_at (columns df0) "year" (coerce_row parse (columns df0) r)) = true ->
  has_value (columns df0) (coerce_row parse (columns df0) r) = true ->
  ra && is_aggregate (columns df0) (coerce_row parse (columns df0) r) = false ->
  (forall s,
      final (validate_data_ranges s) = s
      /\ (returned (validate_data_ranges s) = Ok true
          \/ is_raise (returned (validate_data_ranges s)) = true)
      /\ Forall (fun e => levelname e <> ERROR) (logged (validate_data_ranges s)))
  /\ returned (validate_data_ranges
                 (final (validate_data_types parse
                           (final (validate_schema (final (load_data (w, c))))))))
     = Ok true
  /\ (exists years,
        In (mkLog WARNING
                  "Data quality issue: Years outside expected range (1997-2021): {}" years)
           (logged (run_cleaning_pipeline parse ra rd (w, c)))
        /\ In (cell_at (columns df0) "year" (coerce_row parse (columns df0) r)) years)
  /\ existsb is_error (logged (run_cleaning_pipeline parse ra rd (w, c))) = false
  /\ exists df,
      csv_written (fst (final (run_cleaning_pipeline parse ra rd (w, c))))
      = (output_path w c, df) :: csv_written w
      /\ In (strip (columns df0) (display_columns_of rd df0)
                   (coerce_row parse (columns df0) r))
            (rows df).
Proof.
  intros Ht Hl Hr Ho Hv Ha. split; [apply validate_data_ranges_frame|].
  split; [now apply range_check_returns_true|].
  split; [|split; [now apply run_logs_no_error|]].
  - destruct (run_up_to_the_range_check parse w c df0 Ht Hl)
      as (l0 & l1 & l2 & ky & ke & Hload & Hschema & Htypes & Hy & He).
    set (c2 := mkCleaner (input_dir c) (output_dir c) (Some (coerced parse df0)) (len df0)
                         (cleaned_row_count c)) in *.
    set (years := map (cell_at (columns df0) "year") (rows (coerced parse df0))).
    exists (unique (filter out_of_range years)). split.
    + unfold run_cleaning_pipeline.
      do 3 (eapply In_logged_bind_Ok; [reflexivity|]).
      eapply In_logged_bind_Ok; [exact Hload|]. cbn [negb].
      eapply In_logged_bind_Ok; [exact Hschema|]. cbn [negb].
      eapply In_logged_bind_Ok; [exact Htypes|].
      apply In_logged_bind.
      apply (validate_data_ranges_names_the_years w c2 (coerced parse df0) ky ke eq_refl Hy He
               (coerced_numeric_year parse df0 ky Hy)
               (coerced_numeric_value parse df0 ke He)).
      apply existsb_exists. exists (coerce_row parse (columns df0) r).
      split; [|exact Ho]. cbn [coerced rows]. now apply in_map.
    + apply In_unique.
      * apply Forall_forall. intros x Hx. apply filter_In in Hx. destruct Hx as [Hx _].
        unfold years in Hx. cbn [coerced rows] in Hx. rewrite map_map in Hx.
        apply in_map_iff in Hx. destruct Hx as (r' & <- & _).
        rewrite (coerce_row_year _ _ _ _ Hy). apply is_Int64_value_of.
      * apply filter_In. split; [|exact Ho].
        unfold years. cbn [coerced rows]. rewrite map_map.
        apply in_map_iff. now exists r.
  - destruct (run_exports parse ra rd w c Ht) as (df0' & res & l & Hl' & H).
    rewrite Hl in Hl'. inversion Hl'; subst df0'. cbv zeta in H. destruct H as (Hrun & _).
    rewrite Hrun. exists (cleaned parse ra rd df0).
    unfold final. cbn [fst snd csv_written write_csv]. split; [reflexivity|].
    rewrite rows_cleaned. apply in_map, filter_In. split; [now apply in_map|].
    unfold kept. now rewrite Hv, Ha.
Qed.

Lemma range_validation_is_advisory_witness :
  (types_validated Samples.no_parse (Samples.world_of Samples.table_1996, Samples.cleaner) = true
   /\ loaded (Samples.world_of Samples.table_1996, Samples.cleaner) = Some Samples.table_1996
   /\ In Samples.row_1996 (rows Samples.table_1996)
   /\ out_of_range (cell_at Samples.header "year"
                            (coerce_row Samples.no_parse Samples.header Samples.row_1996))
      = true
   /\ has_value Samples.header (coerce_row Samples.no_parse Samples.header Samples.row_1996)
      = true
   /\ true && is_aggregate Samples.header
                (coerce_row Samples.no_parse Samples.header Samples.row_1996)
      = false)
  /\ (forall s,
         final (validate_data_ranges s) = s
         /\ (returned (validate_data_ranges s) = Ok true
             \/ is_raise (returned (validate_data_ranges s)) = true)
         /\ Forall (fun e => levelname e <> ERROR) (logged (validate_data_ranges s)))
  /\ returned (validate_data_ranges
                 (final (validate_data_types Samples.no_parse
                           (final (validate_schema
                                     (final (load_data (Samples.world_of Samples.table_1996,
                                                        Samples.cleaner))))))))
     = Ok true
  /\ (exists years,
        In (mkLog WARNING
                  "Data quality issue: Years outside expected range (1997-2021): {}" years)
           (logged (run_cleaning_pipeline Samples.no_parse true false
                      (Samples.world_of Samples.table_1996, Samples.cleaner)))
        /\ In (cell_at Samples.header "year"
                       (coerce_row Samples.no_parse Samples.header Samples.row_1996))
              years)
  /\ existsb is_error
             (logged (run_cleaning_pipeline Samples.no_parse true false
                        (Samples.world_of Samples.table_1996, Samples.cleaner)))
     = false
  /\ exists df,
      csv_written (fst (final (run_cleaning_pipeline Samples.no_parse true false
                                 (Samples.world_of Samples.table_1996, Samples.cleaner))))
      = (output_path (Samples.world_of Samples.table_1996) Samples.cleaner, df)
          :: csv_written (Samples.world_of Samples.table_1996)
      /\ In (strip Samples.header (display_columns_of false Samples.table_1996)
                   (coerce_row Samples.no_parse Samples.header Samples.row_1996))
            (rows df).
Proof.
  assert (H1 : types_validated Samples.no_parse
                 (Samples.world_of Samples.table_1996, Samples.cleaner) = true)
    by (vm_compute; reflexivity).
  assert (H2 : loaded (Samples.world_of Samples.table_1996, Samples.cleaner)
               = Some Samples.table_1996)
    by (vm_compute; reflexivity).
  assert (H3 : In Samples.row_1996 (rows Samples.table_1996)) by (left; reflexivity).
  assert (H4 : out_of_range (cell_at Samples.header "year"
                               (coerce_row Samples.no_parse Samples.header Samples.row_1996))
               = true)
    by (vm_compute; reflexivity).
  assert (H5 : has_value Samples.header
                 (coerce_row Samples.no_parse Samples.header Samples.row_1996) = true)
    by (vm_compute; reflexivity).
  assert (H6 : true && is_aggregate Samples.header
                         (coerce_row Samples.no_parse Samples.header Samples.row_1996)
               = false)
    by (vm_compute; reflexivity).
  split; [now repeat split|].
  exact (range_validation_is_advisory Samples.no_parse true false
           (Samples.world_of Samples.table_1996) Samples.cleaner
           Samples.table_1996 Samples.row_1996 H1 H2 H3 H4 H5 H6).
Defined.

(** The claim as first stated fails on an aggregate row: under
    [remove_aggregates=True] the row of 1996 over all species, which has a
    value, is not in the table the run exports, although the run succeeds
    and the range check has warned of its year. *)
Lemma aggregate_row_of_1996_is_dropped :
  In Samples.row_1996_all_species (rows Samples.table_aggregate_1996)
  /\ out_of_range (cell_at Samples.header "year" Samples.row_1996_all_species) = true
  /\ isnull (cell_at Samples.header "exchange_value" Samples.row_1996_all_species) = false
  /\ (exists summary,
        returned (run_cleaning_pipeline Samples.no_parse true false
                    (Samples.world_of Samples.table_aggregate_1996, Samples.cleaner))
        = Ok (true, Some Samples.exported_file, Some summary))
  /\ csv_written (fst (final (run_cleaning_pipeline Samples.no_parse true false
                                (Samples.world_of Samples.table_aggregate_1996,
                                 Samples.cleaner))))
     = [(Samples.exported_file, {| columns := Samples.header; rows := [Samples.row_2000] |})]
  /\ ~ In Samples.row_1996_all_species [Samples.row_2000]
  /\ filter is_warning
            (logged (run_cleaning_pipeline Samples.no_parse true false
                       (Samples.world_of Samples.table_aggregate_1996, Samples.cleaner)))
     = [mkLog WARNING "Data quality issue: Years outside expected range (1997-2021): {}"
              [Int 1996]].
Proof.
  split; [left; reflexivity|].
  split; [vm_compute; reflexivity|].
  split; [vm_compute; reflexivity|].
  split; [eexists; vm_compute; reflexivity|].
  split; [vm_compute; reflexivity|].
  split; [|vm_compute; reflexivity].
  intros [H|[]]. discriminate.
Qed.

(** The scenario of the specification: the row of 1996 is exported as it
    was loaded, the run succeeds, and the range check logged one warning. *)
Lemma row_of_1996_is_retained :
  returned (run_cleaning_pipeline Samples.no_parse true false
              (Samples.world_of Samples.table_1996, Samples.cleaner))
  = Ok (true, Some Samples.exported_file, Some Samples.summary_1996)
  /\ csv_written (fst (final (run_cleaning_pipeline Samples.no_parse true false
                                (Samples.world_of Samples.table_1996, Samples.cleaner))))
     = [(Samples.exported_file, Samples.table_1996)]
  /\ filter (fun e => match levelname e with WARNING => true | _ => false end)
            (logged (run_cleaning_pipeline Samples.no_parse true false
                       (Samples.world_of Samples.table_1996, Samples.cleaner)))
     = [mkLog WARNING "Data quality issue: Years outside expected range (1997-2021): {}"
              [Int 1996]].
Proof. repeat split; vm_compute; reflexivity. Qed.

(** C10. A run that gets through the filters with no row left does not
    return: the empty table is exported and then
    [generate_summary_statistics] raises on [int] of the missing minimum
    year, so the run ends neither with [(True, file, summary)] nor with
    the failure triple. *)
Theorem summary_of_empty_table_raises
        (parse : string -> option Q) (ra rd : bool) (w : World.t) (c : CommercialDataCleaner)
        (df : DataFrame) :
  types_validated parse (w, c) = true ->
  data (snd (final (run_cleaning_pipeline parse ra rd (w, c)))) = Some df ->
  rows df = [] ->
  returned (run_cleaning_pipeline parse ra rd (w, c))
  = Raise (TypeError "int() argument must be a string, a bytes-like object or a real number, not 'NAType'")
  /\ csv_written (fst (final (run_cleaning_pipeline parse ra rd (w, c))))
     = (output_path w c, df) :: csv_written w.
Proof.
  intros Ht Hd Hr.
  destruct (run_exports parse ra rd w c Ht) as (df0 & res & l & Hl & H).
  cbv zeta in H. destruct H as (Hrun & _ & _ & Hres).
  rewrite Hrun in Hd |- *. unfold final, returned in *. cbn [fst snd data] in Hd |- *.
  inversion Hd as [E]. rewrite E in *. split; [|reflexivity].
  pose proof (gates_required_columns w c df0 (types_validated_passes_gates _ _ Ht) Hl) as Hc.
  destruct (required_columns_indices _ Hc) as (ky & _ & _ & _ & _ & _ & Hy & _).
  assert (Hy' : exists k, index_of "year" (columns df) = Some k).
  { rewrite <- E. unfold cleaned.
    eapply index_of_without_display; try discriminate.
    rewrite columns_without_aggregates. exact Hy. }
  destruct Hy' as [k Hk].
  rewrite Hres.
  match goal with
  | |- context [generate_summary_statistics (?w1, ?c1)] =>
      change (fst (fst (generate_summary_statistics (w1, c1))))
        with (returned (generate_summary_statistics (w1, c1)));
      rewrite (generate_summary_statistics_empty w1 c1 df k eq_refl Hk Hr)
  end.
  reflexivity.
Qed.

Lemma summary_of_empty_table_raises_witness :
  (types_validated Samples.no_parse (Samples.world_of Samples.table_all_null, Samples.cleaner)
   = true
   /\ data (snd (final (run_cleaning_pipeline Samples.no_parse true false
                          (Samples.world_of Samples.table_all_null, Samples.cleaner))))
      = Some {| columns := Samples.header; rows := [] |}
   /\ rows {| columns := Samples.header; rows := [] |} = [])
  /\ returned (run_cleaning_pipeline Samples.no_parse true false
                 (Samples.world_of Samples.table_all_null, Samples.cleaner))
     = Raise (TypeError "int() argument must be a string, a bytes-like object or a real number, not 'NAType'")
  /\ csv_written (fst (final (run_cleaning_pipeline Samples.no_parse true false
                                (Samples.world_of Samples.table_all_null, Samples.cleaner))))
     = (output_path (Samples.world_of Samples.table_all_null) Samples.cleaner,
        {| columns := Samples.header; rows := [] |})
         :: csv_written (Samples.world_of Samples.table_all_null).
Proof.
  assert (H1 : types_validated Samples.no_parse
                 (Samples.world_of Samples.table_all_null, Samples.cleaner) = true)
    by (vm_compute; reflexivity).
  assert (H2 : data (snd (final (run_cleaning_pipeline Samples.no_parse true false
                                   (Samples.world_of Samples.table_all_null, Samples.cleaner))))
               = Some {| columns := Samples.header; rows := [] |})
    by (vm_compute; reflexivity).
  split; [now repeat split|].
  exact (summary_of_empty_table_raises Samples.no_parse true false
           (Samples.world_of Samples.table_all_null) Samples.cleaner
           {| columns := Samples.header; rows := [] |} H1 H2 eq_refl).
Defined.

(** The other way round: a run returns a summary only when a row is left. *)
Lemma summary_returned_only_with_rows
      (parse : string -> option Q) (ra rd : bool) (w : World.t) (c : CommercialDataCleaner)
      (path : option string) (summary : option Summary.t) :
  returned (run_cleaning_pipeline parse ra rd (w, c)) = Ok (true, path, summary) ->
  exists df sm,
    data (snd (final (run_cleaning_pipeline parse ra rd (w, c)))) = Some df
    /\ rows df <> []
    /\ summary = Some sm
    /\ 0 < Summary.cleaned_row_count sm.
Proof.
  destruct (run_cleaning_pipeline parse ra rd (w, c)) as [[r s'] l] eqn:Hrun.
  unfold returned, final. cbn [fst snd]. intros ->.
  destruct (run_success _ _ _ _ _ _ _ _ _ Hrun) as (df0 & sm & _ & _ & _ & -> & H).
  cbv zeta in H. destruct H as (-> & _ & Hc & _ & Hr & _).
  exists (cleaned parse ra rd df0), sm. cbn [snd data]. repeat split; auto.
  rewrite Hc. unfold len. destruct (rows (cleaned parse ra rd df0)); [congruence|].
  simpl. lia.
Qed.

(** ** Further properties of the cleaner, stage by stage *)


Lemma three_columns (df : DataFrame) (a b c : string) :
  forallb (has_column df) [a; b; c] = true ->
  exists i j k,
    index_of a (columns df) = Some i
    /\ index_of b (columns df) = Some j
    /\ index_of c (columns df) = Some k.
Proof.
  cbn [forallb]. rewrite !andb_true_iff. intros (Ha & Hb & Hc & _).
  apply has_column_index in Ha, Hb, Hc.
  destruct Ha as [i Ha], Hb as [j Hb], Hc as [k Hc]. now exists i, j, k.
Qed.

(** *** [load_data] *)

Lemma glob_In (dir pattern : string) (w : World.t) (f : input_file) :
  In f (glob dir pattern w) ->
  In f (input_files w) /\ file_dir f = dir /\ fnmatch pattern (file_name f) = true.
Proof.
  unfold glob. rewrite filter_In, andb_true_iff, String.eqb_eq. tauto.
Qed.

(** X1. [load_data] never raises and never touches the files.  When it
    returns [True] the cleaner holds the table of a file of its input
    directory with the row count of that table as [raw_row_count]; the
    file matches [Config.COMMERCIAL_FILE_PATTERN], or no file does and it
    matches [*comm_ev*.csv] without having [noncomm] in its name.  When it
    returns [False] the cleaner is as before and an error was logged. *)
Theorem load_data_loads_a_commercial_file (w : World.t) (c : CommercialDataCleaner) :
  exists (b : bool) (c' : CommercialDataCleaner) (l : list log_record),
    load_data (w, c) = (Ok b, (w, c'), l)
    /\ if b
       then exists f df,
           In f (input_files w)
           /\ file_dir f = input_dir c
           /\ (fnmatch Config.COMMERCIAL_FILE_PATTERN (file_name f) = true
               \/ (glob (input_dir c) Config.COMMERCIAL_FILE_PATTERN w = []
                   /\ fnmatch "*comm_ev*.csv" (file_name f) = true
                   /\ contains "noncomm" (file_name f) = false))
           /\ file_table f = Some df
           /\ c' = mkCleaner (input_dir c) (output_dir c) (Some df) (len df)
                             (cleaned_row_count c)
       else c' = c /\ existsb is_error l = true.
Proof.
  unfold load_data. run_monad.
  match goal with
  | |- context [match ?x with [] => _ | _ :: _ => _ end] => destruct x as [|f fs] eqn:E
  end.
  - exists false, c. eexists. split; [reflexivity|]. split; reflexivity.
  - assert (Hf : In f (input_files w)
                 /\ file_dir f = input_dir c
                 /\ (fnmatch Config.COMMERCIAL_FILE_PATTERN (file_name f) = true
                     \/ (glob (input_dir c) Config.COMMERCIAL_FILE_PATTERN w = []
                         /\ fnmatch "*comm_ev*.csv" (file_name f) = true
                         /\ contains "noncomm" (file_name f) = false))).
    { unfold Config.COMMERCIAL_FILE_PATTERN.
      destruct (glob (input_dir c) "*tidied_comm_ev*.csv" w) as [|g gs] eqn:G.
      - assert (Hin : In f (f :: fs)) by now left.
        rewrite <- E in Hin. apply filter_In in Hin. destruct Hin as [Hin Hn].
        apply glob_In in Hin. apply negb_true_iff in Hn.
        destruct Hin as (H1 & H2 & H3). auto 10.
      - assert (Hin : In f (glob (input_dir c) "*tidied_comm_ev*.csv" w))
          by (rewrite G; inversion E; now left).
        apply glob_In in Hin. destruct Hin as (H1 & H2 & H3). auto. }
    unfold read_csv. destruct (file_table f) as [df|] eqn:T; run_monad.
    + exists true. do 2 eexists. split; [reflexivity|].
      exists f, df. destruct Hf as (H1 & H2 & H3). auto.
    + exists false, c. eexists. split; [reflexivity|]. split; reflexivity.
Qed.

(** X2. [load_data] reads only the first file that matches: when that
    file cannot be read it returns [False], leaves the cleaner as it is
    and logs the error, whatever other files match. *)
Theorem load_data_tries_only_the_first_match (w : World.t) (c : CommercialDataCleaner)
        (f : input_file) (fs : list input_file) :
  glob (input_dir c) Config.COMMERCIAL_FILE_PATTERN w = f :: fs ->
  file_table f = None ->
  returned (load_data (w, c)) = Ok false
  /\ final (load_data (w, c)) = (w, c)
  /\ logs "Error loading commercial data: {}" (logged (load_data (w, c))) = true.
Proof.
  intros H1 H2. rewrite (load_data_unreadable_file w c f fs H1 H2). repeat split.
Qed.

Lemma load_data_tries_only_the_first_match_witness :
  (glob (input_dir Samples.cleaner) Config.COMMERCIAL_FILE_PATTERN Samples.two_files
   = [Samples.unreadable; Samples.readable]
   /\ file_table Samples.unreadable = None
   /\ file_table Samples.readable = Some Samples.table_1996)
  /\ returned (load_data (Samples.two_files, Samples.cleaner)) = Ok false
  /\ final (load_data (Samples.two_files, Samples.cleaner))
     = (Samples.two_files, Samples.cleaner)
  /\ logs "Error loading commercial data: {}"
          (logged (load_data (Samples.two_files, Samples.cleaner))) = true.
Proof.
  assert (H1 : glob (input_dir Samples.cleaner) Config.COMMERCIAL_FILE_PATTERN
                    Samples.two_files
               = [Samples.unreadable; Samples.readable])
    by (vm_compute; reflexivity).
  split; [now repeat split|].
  exact (load_data_tries_only_the_first_match Samples.two_files Samples.cleaner
           Samples.unreadable [Samples.readable] H1 eq_refl).
Defined.

(** *** [validate_schema] *)

(** X3. [validate_schema] changes nothing.  On a loaded table it returns
    whether every column of [Config.REQUIRED_COMMERCIAL_COLUMNS] is
    present, whatever optional columns there are, and logs an error
    exactly when it returns [False]; on a cleaner that holds no table it
    raises [AttributeError]. *)
Theorem validate_schema_checks_the_required_columns (w : World.t) (c : CommercialDataCleaner) :
  final (validate_schema (w, c)) = (w, c)
  /\ returned (validate_schema (w, c))
     = match data c with
       | Some df => Ok (forallb (has_column df) Config.REQUIRED_COMMERCIAL_COLUMNS)
       | None => Raise (AttributeError "'NoneType' object has no attribute 'columns'")
       end
  /\ existsb is_error (logged (validate_schema (w, c)))
     = match data c with
       | Some df => negb (forallb (has_column df) Config.REQUIRED_COMMERCIAL_COLUMNS)
       | None => false
       end.
Proof.
  destruct c as [i o [df|] n m]; unfold validate_schema, final, returned, logged; run_monad;
    [|repeat split].
  rewrite forallb_filter_negb. change Config.REQUIRED_COMMERCIAL_COLUMNS with required_columns.
  destruct (filter (fun col => negb (has_column df col)) required_columns) as [|x xs].
  - destruct (filter (has_column df) optional_columns); repeat split.
  - repeat split.
Qed.

(** *** [validate_data_types] *)

Lemma is_raise_astype (c : cell) : is_raise (astype_Int64_cell c) = negb (fits_Int64 c).
Proof.
  destruct c as [|z|q|]; try reflexivity; unfold astype_Int64_cell, fits_Int64.
  - destruct (in_int64 z); reflexivity.
  - destruct (_ && _); reflexivity.
Qed.

Lemma is_raise_astype_Int64 (parse : string -> option Q) (cols : list string) (name : string)
      (rs : list (list cell)) :
  is_raise (astype_Int64 (map (to_numeric parse) (map (cell_at cols name) rs)))
  = negb (forallb (fun r => fits_Int64 (to_numeric parse (cell_at cols name r))) rs).
Proof.
  unfold astype_Int64.
  etransitivity; [apply (is_raise_map_result astype_Int64_cell)|].
  rewrite map_map, forallb_map. f_equal.
  apply forallb_ext. intros r. now rewrite is_raise_astype, negb_involutive.
Qed.

Lemma astype_value_of (c : cell) :
  fits_Int64 c = true -> astype_Int64_cell c = Ok (value_of (astype_Int64_cell c)).
Proof.
  intros H. pose proof (is_raise_astype c) as E. rewrite H in E.
  now destruct (astype_Int64_cell c).
Qed.

(** [validate_data_types] raises exactly when a cast to [Int64] fails. *)
Lemma is_raise_validate_data_types
      (parse : string -> option Q) (w : World.t) (c : CommercialDataCleaner) (df : DataFrame) :
  data c = Some df ->
  forallb (has_column df) ["year"; "area_id"; "exchange_value"] = true ->
  is_raise (returned (validate_data_types parse (w, c)))
  = negb (forallb (fun r => fits_Int64 (to_numeric parse (cell_at (columns df) "year" r))
                            && fits_Int64 (to_numeric parse (cell_at (columns df) "area_id" r)))
                  (rows df)).
Proof.
  intros Hd Hc. destruct (three_columns _ _ _ _ Hc) as (ky & ka & ke & Hy & Ha & He).
  destruct c as [i o d n m]. cbn [data] in Hd. subst d.
  rewrite forallb_andb.
  pose proof (is_raise_astype_Int64 parse (columns df) "year" (rows df)) as Ry.
  unfold validate_data_types, returned. run_monad.
  rewrite (getitem_cell_at _ _ _ Hy); run_monad.
  destruct (astype_Int64 _) as [year|e] eqn:Ey; run_monad.
  2:{ cbn [is_raise] in Ry. apply (f_equal negb) in Ry. rewrite negb_involutive in Ry.
      rewrite <- Ry. reflexivity. }
  cbn [is_raise] in Ry. apply (f_equal negb) in Ry. rewrite negb_involutive in Ry.
  rewrite <- Ry. cbn [negb andb].
  apply (map_result_Ok _ NA) in Ey. rewrite map_map in Ey. subst year.
  rewrite (setitem_map _ _ _ _ Hy).
  match goal with
  | |- context [mkCleaner i o (Some ?d) n m] => set (df1 := d)
  end.
  assert (H1 : columns df1 = columns df) by reflexivity.
  rewrite <- H1 in Ha, He.
  rewrite (getitem_cell_at _ _ _ Ha); run_monad.
  pose proof (is_raise_astype_Int64 parse (columns df1) "area_id" (rows df1)) as Ra.
  assert (Hrows : forallb (fun r => fits_Int64 (to_numeric parse (cell_at (columns df1) "area_id" r)))
                          (rows df1)
                  = forallb (fun r => fits_Int64 (to_numeric parse (cell_at (columns df) "area_id" r)))
                            (rows df)).
  { unfold df1. cbn [rows columns]. rewrite forallb_map. apply forallb_ext. intros r.
    now rewrite cell_at_set_at_ne by discriminate. }
  rewrite Hrows in Ra. clear Hrows.
  destruct (astype_Int64 _) as [area|e] eqn:Ea; run_monad.
  2:{ cbn [is_raise] in Ra. apply (f_equal negb) in Ra. rewrite negb_involutive in Ra.
      rewrite <- Ra. reflexivity. }
  cbn [is_raise] in Ra. apply (f_equal negb) in Ra. rewrite negb_involutive in Ra.
  rewrite <- Ra. cbn [negb].
  apply (map_result_Ok _ NA) in Ea. rewrite map_map in Ea. subst area.
  rewrite (setitem_map _ _ _ _ Ha).
  match goal with
  | |- context [mkCleaner i o (Some ?d) n m] => set (df2 := d)
  end.
  assert (H2 : columns df2 = columns df1) by reflexivity.
  rewrite <- H2 in He. rewrite <- H1, <- H2 in Hy.
  rewrite (getitem_cell_at _ _ _ He); run_monad.
  rewrite (setitem_map _ _ _ _ He).
  match goal with
  | |- context [mkCleaner i o (Some ?d) n m] => set (df3 := d)
  end.
  assert (H3 : columns df3 = columns df2) by reflexivity.
  rewrite <- H3 in He, Hy.
  rewrite (getitem_cell_at _ _ _ Hy), (getitem_cell_at _ _ _ He); run_monad.
  destruct (_ >? 0); destruct (_ >? 0); reflexivity.
Qed.

(** X4. On a loaded table with the columns [year], [area_id] and
    [exchange_value], [validate_data_types] raises exactly when some
    [year] or [area_id], read as a number, is not a whole number within
    int64: a fraction, or a number below [- 2 ^ 63] or from [2 ^ 63] on.
    Text that is no number and missing values never make it raise, and
    nothing in [exchange_value] does. *)
Theorem validate_data_types_raises_exactly_on_bad_casts
        (parse : string -> option Q) (w : World.t) (c : CommercialDataCleaner) (df : DataFrame) :
  data c = Some df ->
  forallb (has_column df) ["year"; "area_id"; "exchange_value"] = true ->
  is_raise (returned (validate_data_types parse (w, c)))
  = negb (forallb (fun r => fits_Int64 (to_numeric parse (cell_at (columns df) "year" r))
                            && fits_Int64 (to_numeric parse (cell_at (columns df) "area_id" r)))
                  (rows df)).
Proof. apply is_raise_validate_data_types. Qed.

Lemma validate_data_types_raises_exactly_on_bad_casts_witness :
  (data (Samples.holding Samples.table_half_year) = Some Samples.table_half_year
   /\ forallb (has_column Samples.table_half_year) ["year"; "area_id"; "exchange_value"] = true)
  /\ is_raise (returned (validate_data_types Samples.no_parse
                           (Samples.world_of Samples.table_half_year,
                            Samples.holding Samples.table_half_year)))
     = negb (forallb (fun r =>
                        fits_Int64 (to_numeric Samples.no_parse
                                      (cell_at (columns Samples.table_half_year) "year" r))
                        && fits_Int64 (to_numeric Samples.no_parse
                                         (cell_at (columns Samples.table_half_year)
                                                  "area_id" r)))
                     (rows Samples.table_half_year))
  /\ is_raise (returned (validate_data_types Samples.no_parse
                           (Samples.world_of Samples.table_half_year,
                            Samples.holding Samples.table_half_year)))
     = true
  /\ is_raise (returned (validate_data_types Samples.no_parse
                           (Samples.world_of Samples.table_huge_year,
                            Samples.holding Samples.table_huge_year)))
     = true
  /\ is_raise (returned (validate_data_types Samples.no_parse
                           (Samples.world_of Samples.table_text,
                            Samples.holding Samples.table_text)))
     = false.
Proof.
  split; [split; reflexivity|]. split.
  - exact (validate_data_types_raises_exactly_on_bad_casts Samples.no_parse
             (Samples.world_of Samples.table_half_year)
             (Samples.holding Samples.table_half_year) Samples.table_half_year
             eq_refl eq_refl).
  - split; [|split].
    + vm_compute. reflexivity.
    + rewrite (validate_data_types_raises_exactly_on_bad_casts Samples.no_parse
                 (Samples.world_of Samples.table_huge_year)
                 (Samples.holding Samples.table_huge_year) Samples.table_huge_year
                 eq_refl eq_refl).
      vm_compute. reflexivity.
    + rewrite (validate_data_types_raises_exactly_on_bad_casts Samples.no_parse
                 (Samples.world_of Samples.table_text)
                 (Samples.holding Samples.table_text) Samples.table_text
                 eq_refl eq_refl).
      vm_compute. reflexivity.
Defined.

(** X5. When [validate_data_types] returns, the cleaner holds a table
    with the same columns and, row for row, [year] and [area_id] cast to
    [Int64] from their numeric reading, [exchange_value] in its numeric
    reading (text that is no number has become null) and every other
    column as it was; nothing else of the cleaner and no file changed. *)
Theorem validate_data_types_coerces
        (parse : string -> option Q) (w : World.t) (c : CommercialDataCleaner) (df : DataFrame) :
  data c = Some df ->
  forallb (has_column df) ["year"; "area_id"; "exchange_value"] = true ->
  returned (validate_data_types parse (w, c)) = Ok tt ->
  exists df',
    final (validate_data_types parse (w, c))
    = (w, mkCleaner (input_dir c) (output_dir c) (Some df') (raw_row_count c)
                    (cleaned_row_count c))
    /\ columns df' = columns df
    /\ Forall2
         (fun r r' =>
            astype_Int64_cell (to_numeric parse (cell_at (columns df) "year" r))
            = Ok (cell_at (columns df) "year" r')
            /\ astype_Int64_cell (to_numeric parse (cell_at (columns df) "area_id" r))
               = Ok (cell_at (columns df) "area_id" r')
            /\ cell_at (columns df) "exchange_value" r'
               = to_numeric parse (cell_at (columns df) "exchange_value" r)
            /\ forall name,
                name <> "year" -> name <> "area_id" -> name <> "exchange_value" ->
                cell_at (columns df) name r' = cell_at (columns df) name r)
         (rows df) (rows df').
Proof.
  intros Hd Hc Hr.
  pose proof (is_raise_validate_data_types parse w c df Hd Hc) as Hw.
  rewrite Hr in Hw. cbn [is_raise] in Hw. symmetry in Hw. apply negb_false_iff in Hw.
  rewrite forallb_forall in Hw.
  destruct (three_columns _ _ _ _ Hc) as (ky & ka & ke & Hy & Ha & He).
  destruct c as [i o d n m]. cbn [data] in Hd. subst d.
  cbn [input_dir output_dir raw_row_count cleaned_row_count].
  destruct (validate_data_types_spec parse w i o df n m ky ka ke Hy Ha He)
    as [(l & E & _) | (e & c' & l & E & _)]; rewrite E in Hr |- *; [|discriminate].
  exists (coerced parse df). split; [reflexivity|]. split; [reflexivity|].
  cbn [coerced rows]. apply Forall2_map_right, Forall_forall. intros r Hin.
  specialize (Hw r Hin). apply andb_true_iff in Hw. destruct Hw as [Wy Wa].
  rewrite (coerce_row_year _ _ _ _ Hy), (coerce_row_value _ _ _ _ He).
  repeat split.
  - now apply astype_value_of.
  - unfold coerce_row. rewrite cell_at_set_at_ne by discriminate.
    rewrite (cell_at_set_at_eq _ _ _ _ _ Ha).
    rewrite cell_at_set_at_ne by discriminate. now apply astype_value_of.
  - intros name H1 H2 H3. now apply coerce_row_other.
Qed.

Lemma validate_data_types_coerces_witness :
  (data (Samples.holding Samples.table_text) = Some Samples.table_text
   /\ forallb (has_column Samples.table_text) ["year"; "area_id"; "exchange_value"] = true
   /\ returned (validate_data_types Samples.no_parse
                  (Samples.world_of Samples.table_text, Samples.holding Samples.table_text))
      = Ok tt)
  /\ exists df',
      final (validate_data_types Samples.no_parse
               (Samples.world_of Samples.table_text, Samples.holding Samples.table_text))
      = (Samples.world_of Samples.table_text,
         mkCleaner "data/raw" "data/cleaned" (Some df') 1 0)
      /\ columns df' = Samples.header
      /\ Forall2
           (fun r r' =>
              astype_Int64_cell (to_numeric Samples.no_parse (cell_at Samples.header "year" r))
              = Ok (cell_at Samples.header "year" r')
              /\ astype_Int64_cell
                   (to_numeric Samples.no_parse (cell_at Samples.header "area_id" r))
                 = Ok (cell_at Samples.header "area_id" r')
              /\ cell_at Samples.header "exchange_value" r'
                 = to_numeric Samples.no_parse (cell_at Samples.header "exchange_value" r)
              /\ forall name,
                  name <> "year" -> name <> "area_id" -> name <> "exchange_value" ->
                  cell_at Samples.header name r' = cell_at Samples.header name r)
           (rows Samples.table_text) (rows df').
Proof.
  assert (H : returned (validate_data_types Samples.no_parse
                          (Samples.world_of Samples.table_text,
                           Samples.holding Samples.table_text))
              = Ok tt)
    by (vm_compute; reflexivity).
  split; [now repeat split|].
  exact (validate_data_types_coerces Samples.no_parse (Samples.world_of Samples.table_text)
           (Samples.holding Samples.table_text) Samples.table_text eq_refl eq_refl H).
Defined.

(** *** [validate_data_ranges] *)

(** X6. On a table whose [year] and [exchange_value] hold no text (as
    [validate_data_types] leaves them), [validate_data_ranges] logs the
    warning about years exactly when some year lies before
    [Config.COMMERCIAL_MIN_YEAR] or after [Config.COMMERCIAL_MAX_YEAR]
    (the bounds themselves and missing years are accepted), the warning
    about negative values exactly when some value is below zero, and that
    the validation passed exactly when neither is the case. *)
Theorem validate_data_ranges_warns_outside_the_bounds
        (w : World.t) (c : CommercialDataCleaner) (df : DataFrame) :
  data c = Some df ->
  forallb (has_column df) ["year"; "exchange_value"] = true ->
  forallb (fun r => negb (is_str (cell_at (columns df) "year" r))
                    && negb (is_str (cell_at (columns df) "exchange_value" r)))
          (rows df) = true ->
  logs "Data quality issue: Years outside expected range (1997-2021): {}"
       (logged (validate_data_ranges (w, c)))
  = existsb (fun r => out_of_range (cell_at (columns df) "year" r)) (rows df)
  /\ logs "Data quality issue: {} negative exchange values"
          (logged (validate_data_ranges (w, c)))
     = existsb (fun r => negative (cell_at (columns df) "exchange_value" r)) (rows df)
  /\ logs "Data range validation passed" (logged (validate_data_ranges (w, c)))
     = negb (existsb (fun r => out_of_range (cell_at (columns df) "year" r)
                               || negative (cell_at (columns df) "exchange_value" r))
                     (rows df))
  /\ existsb is_warning (logged (validate_data_ranges (w, c)))
     = existsb (fun r => out_of_range (cell_at (columns df) "year" r)
                         || negative (cell_at (columns df) "exchange_value" r))
               (rows df).
Proof.
  intros Hd Hc Ht. cbn [forallb] in Hc. rewrite !andb_true_iff in Hc.
  destruct Hc as (Hy & He & _). apply has_column_index in Hy, He.
  destruct Hy as [ky Hy], He as [ke He].
  rewrite forallb_andb, andb_true_iff, !forallb_forall in Ht. destruct Ht as [Ty Te].
  assert (Ty' : Forall (fun r => is_str (cell_at (columns df) "year" r) = false) (rows df)).
  { apply Forall_forall. intros r Hr. apply negb_true_iff. auto. }
  assert (Te' : Forall (fun r => is_str (cell_at (columns df) "exchange_value" r) = false)
                       (rows df)).
  { apply Forall_forall. intros r Hr. apply negb_true_iff. auto. }
  clear Ty Te.
  rewrite existsb_orb.
  rewrite (existsb_ext _ _ _ (fun r => out_of_range_cell (cell_at (columns df) "year" r))).
  rewrite (existsb_ext _ _ _ (fun r => negative_cell_lt (cell_at (columns df) "exchange_value" r))).
  rewrite existsb_orb.
  destruct c as [i o d n m]. cbn [data] in Hd. subst d.
  unfold validate_data_ranges, logged. run_monad.
  rewrite (getitem_cell_at _ _ _ He); run_monad.
  rewrite (series_lt_values _ _ _ 0 Te'); run_monad.
  rewrite (getitem_cell_at _ _ _ Hy); run_monad.
  rewrite (series_lt_values _ _ _ 1997 Ty'); run_monad.
  rewrite (series_gt_values _ _ _ 2021 Ty'); run_monad.
  rewrite !any_map.
  destruct (existsb (fun r => match cell_lt 0 _ with Ok b => b | Raise _ => false end)
                    (rows df));
    destruct (existsb (fun r => match cell_lt 1997 _ with Ok b => b | Raise _ => false end)
                      (rows df));
    destruct (existsb (fun r => match cell_gt 2021 _ with Ok b => b | Raise _ => false end)
                      (rows df));
    run_monad; repeat split; reflexivity.
Qed.

Lemma validate_data_ranges_warns_outside_the_bounds_witness :
  (data (Samples.holding Samples.table_1996) = Some Samples.table_1996
   /\ forallb (has_column Samples.table_1996) ["year"; "exchange_value"] = true
   /\ forallb (fun r => negb (is_str (cell_at (columns Samples.table_1996) "year" r))
                        && negb (is_str (cell_at (columns Samples.table_1996)
                                                 "exchange_value" r)))
              (rows Samples.table_1996) = true)
  /\ logs "Data quality issue: Years outside expected range (1997-2021): {}"
          (logged (validate_data_ranges (Samples.world_of Samples.table_1996,
                                         Samples.holding Samples.table_1996)))
     = existsb (fun r => out_of_range (cell_at (columns Samples.table_1996) "year" r))
               (rows Samples.table_1996)
  /\ logs "Data quality issue: {} negative exchange values"
          (logged (validate_data_ranges (Samples.world_of Samples.table_1996,
                                         Samples.holding Samples.table_1996)))
     = existsb (fun r => negative (cell_at (columns Samples.table_1996) "exchange_value" r))
               (rows Samples.table_1996)
  /\ logs "Data range validation passed"
          (logged (validate_data_ranges (Samples.world_of Samples.table_1996,
                                         Samples.holding Samples.table_1996)))
     = negb (existsb (fun r => out_of_range (cell_at (columns Samples.table_1996) "year" r)
                               || negative (cell_at (columns Samples.table_1996)
                                                    "exchange_value" r))
                     (rows Samples.table_1996))
  /\ existsb is_warning
             (logged (validate_data_ranges (Samples.world_of Samples.table_1996,
                                            Samples.holding Samples.table_1996)))
     = existsb (fun r => out_of_range (cell_at (columns Samples.table_1996) "year" r)
                         || negative (cell_at (columns Samples.table_1996)
                                              "exchange_value" r))
               (rows Samples.table_1996).
Proof.
  split; [repeat split; vm_compute; reflexivity|].
  apply (validate_data_ranges_warns_outside_the_bounds
           (Samples.world_of Samples.table_1996) (Samples.holding Samples.table_1996)
           Samples.table_1996); vm_compute; reflexivity.
Defined.

(** *** [validate_ecosystem_types], [validate_species_groups], [validate_counties] *)

Lemma isin_cell_eqb (values : list string) (a b : cell) :
  cell_eqb a b = true -> isin values a = isin values b.
Proof.
  destruct a as [| | |s], b as [| | |t]; try reflexivity; try discriminate.
  cbn [cell_eqb]. intros E. apply String.eqb_eq in E. now subst.
Qed.

(** [unique] keeps a value of every kind a test tells apart. *)
Lemma existsb_unique_acc (p : cell -> bool) (seen : list cell) (s : Series) :
  (forall a b, cell_eqb a b = true -> p a = p b) ->
  existsb p (unique_acc seen s) || existsb p seen = existsb p s || existsb p seen.
Proof.
  intros Hp. revert seen. induction s as [|c s IH]; intros seen; simpl; [reflexivity|].
  destruct (existsb (cell_eqb c) seen) eqn:E.
  - rewrite IH. apply existsb_exists in E. destruct E as (c' & Hin & Hc).
    destruct (p c) eqn:Pc; [|reflexivity].
    assert (Hs : existsb p seen = true).
    { apply existsb_exists. exists c'. split; [exact Hin|]. now rewrite <- (Hp c c' Hc). }
    rewrite Hs. now rewrite !orb_true_r.
  - simpl. specialize (IH (c :: seen)). simpl in IH.
    destruct (p c); simpl in *.
    + reflexivity.
    + exact IH.
Qed.

Lemma existsb_unique (p : cell -> bool) (s : Series) :
  (forall a b, cell_eqb a b = true -> p a = p b) ->
  existsb p (unique s) = existsb p s.
Proof.
  intros Hp. pose proof (existsb_unique_acc p [] s Hp) as H. simpl in H.
  now rewrite !orb_false_r in H.
Qed.

Lemma validate_categories_warns (w : World.t) (c : CommercialDataCleaner) (df : DataFrame)
      (start col : string) (expected : list string) (bad good : string) :
  data c = Some df ->
  has_column df col = true ->
  final (validate_categories start col expected bad good (w, c)) = (w, c)
  /\ returned (validate_categories start col expected bad good (w, c)) = Ok tt
  /\ existsb is_warning (logged (validate_categories start col expected bad good (w, c)))
     = negb (forallb (fun r => isin expected (cell_at (columns df) col r)) (rows df))
  /\ existsb is_error (logged (validate_categories start col expected bad good (w, c)))
     = false.
Proof.
  intros Hd Hc. apply has_column_index in Hc. destruct Hc as [k Hk].
  destruct c as [i o d n m]. cbn [data] in Hd. subst d.
  rewrite <- existsb_negb_forallb.
  rewrite <- (existsb_map (cell_at (columns df) col) (fun v => negb (isin expected v))).
  rewrite <- (existsb_unique (fun v => negb (isin expected v)))
    by (intros a b E; now rewrite (isin_cell_eqb expected a b E)).
  unfold validate_categories, final, returned, logged. run_monad.
  rewrite (getitem_cell_at _ _ _ Hk); run_monad.
  pose proof (is_empty_filter (fun v => negb (isin expected v))
                (unique (map (cell_at (columns df) col) (rows df)))) as E.
  destruct (filter _ (unique _)) as [|u us] eqn:F; run_monad.
  - destruct (py_sorted_expected _ _ F) as [sorted ->]; run_monad.
    cbn [is_empty] in E. apply (f_equal negb) in E. rewrite negb_involutive in E.
    rewrite <- E. repeat split.
  - cbn [is_empty] in E. apply (f_equal negb) in E. rewrite negb_involutive in E.
    rewrite <- E. repeat split.
Qed.

(** X7. On a loaded table that has the three columns, each category
    check returns, leaves the cleaner and the files as they are, logs no
    error, and logs a warning exactly when some value of its column (a
    missing one included) is not among the expected ones, which are those
    of [Config.ECOSYSTEM_TYPES], [Config.COMMERCIAL_SPECIES_GROUPS] and
    [Config.VALID_COUNTIES]. *)
Theorem category_checks_warn_on_unexpected_values
        (w : World.t) (c : CommercialDataCleaner) (df : DataFrame) :
  data c = Some df ->
  forallb (has_column df) ["ecosystem_type"; "species_group"; "county"] = true ->
  (final (validate_ecosystem_types (w, c)) = (w, c)
   /\ returned (validate_ecosystem_types (w, c)) = Ok tt
   /\ existsb is_warning (logged (validate_ecosystem_types (w, c)))
      = negb (forallb (fun r => isin Config.ECOSYSTEM_TYPES
                                     (cell_at (columns df) "ecosystem_type" r))
                      (rows df))
   /\ existsb is_error (logged (validate_ecosystem_types (w, c))) = false)
  /\ (final (validate_species_groups (w, c)) = (w, c)
      /\ returned (validate_species_groups (w, c)) = Ok tt
      /\ existsb is_warning (logged (validate_species_groups (w, c)))
         = negb (forallb (fun r => isin Config.COMMERCIAL_SPECIES_GROUPS
                                        (cell_at (columns df) "species_group" r))
                         (rows df))
      /\ existsb is_error (logged (validate_species_groups (w, c))) = false)
  /\ (final (validate_counties (w, c)) = (w, c)
      /\ returned (validate_counties (w, c)) = Ok tt
      /\ existsb is_warning (logged (validate_counties (w, c)))
         = negb (forallb (fun r => isin Config.VALID_COUNTIES
                                        (cell_at (columns df) "county" r))
                         (rows df))
      /\ existsb is_error (logged (validate_counties (w, c))) = false).
Proof.
  intros Hd Hc. cbn [forallb] in Hc. rewrite !andb_true_iff in Hc.
  destruct Hc as (He & Hs & Hk & _).
  split; [|split].
  - exact (validate_categories_warns w c df _ _ _ _ _ Hd He).
  - exact (validate_categories_warns w c df _ _ _ _ _ Hd Hs).
  - exact (validate_categories_warns w c df _ _ _ _ _ Hd Hk).
Qed.

Lemma category_checks_warn_on_unexpected_values_witness :
  (data (Samples.holding Samples.table_odd) = Some Samples.table_odd
   /\ forallb (has_column Samples.table_odd) ["ecosystem_type"; "species_group"; "county"]
      = true)
  /\ (returned (validate_ecosystem_types (Samples.world_of Samples.table_odd,
                                          Samples.holding Samples.table_odd)) = Ok tt
      /\ existsb is_warning
                 (logged (validate_ecosystem_types (Samples.world_of Samples.table_odd,
                                                    Samples.holding Samples.table_odd)))
         = false)
  /\ (returned (validate_species_groups (Samples.world_of Samples.table_odd,
                                         Samples.holding Samples.table_odd)) = Ok tt
      /\ existsb is_warning
                 (logged (validate_species_groups (Samples.world_of Samples.table_odd,
                                                   Samples.holding Samples.table_odd)))
         = true)
  /\ (returned (validate_counties (Samples.world_of Samples.table_odd,
                                   Samples.holding Samples.table_odd)) = Ok tt
      /\ existsb is_warning
                 (logged (validate_counties (Samples.world_of Samples.table_odd,
                                             Samples.holding Samples.table_odd)))
         = true).
Proof.
  split; [split; reflexivity|].
  destruct (category_checks_warn_on_unexpected_values
              (Samples.world_of Samples.table_odd) (Samples.holding Samples.table_odd)
              Samples.table_odd eq_refl eq_refl)
    as ((_ & E1 & E2 & _) & (_ & S1 & S2 & _) & (_ & K1 & K2 & _)).
  split; [|split]; (split; [assumption|]).
  - rewrite E2. vm_compute. reflexivity.
  - rewrite S2. vm_compute. reflexivity.
  - rewrite K2. vm_compute. reflexivity.
Defined.

(** *** [remove_null_values] and [remove_aggregate_rows] *)

(** X8. On a loaded table with the column [exchange_value],
    [remove_null_values] keeps exactly the rows whose value is not null,
    in their order and with their columns, changes nothing else, and the
    count it logs as removed is the number of rows it dropped. *)
Theorem remove_null_values_keeps_the_rows_with_a_value
        (w : World.t) (c : CommercialDataCleaner) (df : DataFrame) :
  data c = Some df ->
  has_column df "exchange_value" = true ->
  exists df',
    returned (remove_null_values (w, c)) = Ok tt
    /\ final (remove_null_values (w, c))
       = (w, mkCleaner (input_dir c) (output_dir c) (Some df') (raw_row_count c)
                       (cleaned_row_count c))
    /\ columns df' = columns df
    /\ rows df'
       = filter (fun r => notna (cell_at (columns df) "exchange_value" r)) (rows df)
    /\ nulls_removed (logged (remove_null_values (w, c))) = len df - len df'.
Proof.
  intros Hd Hc. apply has_column_index in Hc. destruct Hc as [k Hk].
  destruct c as [i o d n m]. cbn [data] in Hd. subst d.
  destruct (remove_null_values_spec w i o df n m k Hk) as (l & E & _ & Hn & _).
  rewrite E. exists (without_nulls df). repeat split. exact Hn.
Qed.

Lemma remove_null_values_keeps_the_rows_with_a_value_witness :
  (data (Samples.holding Samples.table_mixed) = Some Samples.table_mixed
   /\ has_column Samples.table_mixed "exchange_value" = true)
  /\ exists df',
      returned (remove_null_values (Samples.world_of Samples.table_mixed,
                                    Samples.holding Samples.table_mixed)) = Ok tt
      /\ final (remove_null_values (Samples.world_of Samples.table_mixed,
                                    Samples.holding Samples.table_mixed))
         = (Samples.world_of Samples.table_mixed,
            mkCleaner "data/raw" "data/cleaned" (Some df') 4 0)
      /\ columns df' = columns Samples.table_mixed
      /\ rows df'
         = filter (fun r => notna (cell_at (columns Samples.table_mixed) "exchange_value" r))
                  (rows Samples.table_mixed)
      /\ nulls_removed (logged (remove_null_values (Samples.world_of Samples.table_mixed,
                                                    Samples.holding Samples.table_mixed)))
         = len Samples.table_mixed - len df'.
Proof.
  split; [split; reflexivity|].
  exact (remove_null_values_keeps_the_rows_with_a_value
           (Samples.world_of Samples.table_mixed) (Samples.holding Samples.table_mixed)
           Samples.table_mixed eq_refl eq_refl).
Defined.

(** X9. On a loaded table with the columns [species_group] and
    [ecosystem_type], [remove_aggregate_rows(True)] keeps exactly the rows
    that carry neither a value of [Config.AGGREGATE_SPECIES_VALUES] nor
    one of [Config.AGGREGATE_ECOSYSTEM_VALUES], in their order and with
    their columns, changes nothing else, and the count it logs as removed
    is the number of rows it dropped. *)
Theorem remove_aggregate_rows_drops_the_rows_with_a_sentinel
        (w : World.t) (c : CommercialDataCleaner) (df : DataFrame) :
  data c = Some df ->
  forallb (has_column df) ["species_group"; "ecosystem_type"] = true ->
  exists df',
    returned (remove_aggregate_rows true (w, c)) = Ok tt
    /\ final (remove_aggregate_rows true (w, c))
       = (w, mkCleaner (input_dir c) (output_dir c) (Some df') (raw_row_count c)
                       (cleaned_row_count c))
    /\ columns df' = columns df
    /\ rows df'
       = filter (fun r =>
                   negb (isin Config.AGGREGATE_SPECIES_VALUES
                              (cell_at (columns df) "species_group" r)
                         || isin Config.AGGREGATE_ECOSYSTEM_VALUES
                                 (cell_at (columns df) "ecosystem_type" r)))
                (rows df)
    /\ aggregates_removed (logged (remove_aggregate_rows true (w, c))) = len df - len df'.
Proof.
  intros Hd Hc. cbn [forallb] in Hc. rewrite !andb_true_iff in Hc.
  destruct Hc as (Hs & He & _). apply has_column_index in Hs, He.
  destruct Hs as [ks Hs], He as [ke He].
  destruct c as [i o d n m]. cbn [data] in Hd. subst d.
  destruct (remove_aggregate_rows_spec w i o df n m ks ke Hs He) as (l & E & _ & _ & Ha).
  rewrite E. exists (without_aggregates true df). repeat split. exact Ha.
Qed.

Lemma remove_aggregate_rows_drops_the_rows_with_a_sentinel_witness :
  (data (Samples.holding Samples.table_mixed) = Some Samples.table_mixed
   /\ forallb (has_column Samples.table_mixed) ["species_group"; "ecosystem_type"] = true)
  /\ exists df',
      returned (remove_aggregate_rows true (Samples.world_of Samples.table_mixed,
                                            Samples.holding Samples.table_mixed)) = Ok tt
      /\ final (remove_aggregate_rows true (Samples.world_of Samples.table_mixed,
                                            Samples.holding Samples.table_mixed))
         = (Samples.world_of Samples.table_mixed,
            mkCleaner "data/raw" "data/cleaned" (Some df') 4 0)
      /\ columns df' = columns Samples.table_mixed
      /\ rows df'
         = filter (fun r =>
                     negb (isin Config.AGGREGATE_SPECIES_VALUES
                                (cell_at (columns Samples.table_mixed) "species_group" r)
                           || isin Config.AGGREGATE_ECOSYSTEM_VALUES
                                   (cell_at (columns Samples.table_mixed) "ecosystem_type" r)))
                  (rows Samples.table_mixed)
      /\ aggregates_removed
           (logged (remove_aggregate_rows true (Samples.world_of Samples.table_mixed,
                                                Samples.holding Samples.table_mixed)))
         = len Samples.table_mixed - len df'.
Proof.
  split; [split; reflexivity|].
  exact (remove_aggregate_rows_drops_the_rows_with_a_sentinel
           (Samples.world_of Samples.table_mixed) (Samples.holding Samples.table_mixed)
           Samples.table_mixed eq_refl eq_refl).
Defined.

(** *** The stages on a cleaner that holds no table *)

(** X10. As long as no table is loaded ([self.data] is [None]), every
    stage that looks at the table raises, and leaves the cleaner and the
    files as they are. *)
Theorem stages_need_a_loaded_table
        (parse : string -> option Q) (w : World.t) (c : CommercialDataCleaner) :
  data c = None ->
  (is_raise (returned (validate_schema (w, c))) = true
   /\ final (validate_schema (w, c)) = (w, c))
  /\ (is_raise (returned (validate_data_types parse (w, c))) = true
      /\ final (validate_data_types parse (w, c)) = (w, c))
  /\ (is_raise (returned (validate_data_ranges (w, c))) = true
      /\ final (validate_data_ranges (w, c)) = (w, c))
  /\ (is_raise (returned (validate_ecosystem_types (w, c))) = true
      /\ final (validate_ecosystem_types (w, c)) = (w, c))
  /\ (is_raise (returned (validate_species_groups (w, c))) = true
      /\ final (validate_species_groups (w, c)) = (w, c))
  /\ (is_raise (returned (validate_counties (w, c))) = true
      /\ final (validate_counties (w, c)) = (w, c))
  /\ (is_raise (returned (remove_null_values (w, c))) = true
      /\ final (remove_null_values (w, c)) = (w, c))
  /\ (is_raise (returned (remove_aggregate_rows true (w, c))) = true
      /\ final (remove_aggregate_rows true (w, c)) = (w, c))
  /\ (is_raise (returned (remove_display_columns true (w, c))) = true
      /\ final (remove_display_columns true (w, c)) = (w, c))
  /\ (is_raise (returned (export_cleaned_data (w, c))) = true
      /\ final (export_cleaned_data (w, c)) = (w, c))
  /\ (is_raise (returned (generate_summary_statistics (w, c))) = true
      /\ final (generate_summary_statistics (w, c)) = (w, c)).
Proof.
  intros Hd. destruct c as [i o d n m]. cbn [data] in Hd. subst d.
  repeat split.
Qed.

Lemma stages_need_a_loaded_table_witness :
  data Samples.cleaner = None
  /\ (is_raise (returned (validate_schema (Samples.clock [], Samples.cleaner))) = true
      /\ final (validate_schema (Samples.clock [], Samples.cleaner))
         = (Samples.clock [], Samples.cleaner))
  /\ (is_raise (returned (export_cleaned_data (Samples.clock [], Samples.cleaner))) = true
      /\ final (export_cleaned_data (Samples.clock [], Samples.cleaner))
         = (Samples.clock [], Samples.cleaner))
  /\ (is_raise (returned (generate_summary_statistics (Samples.clock [], Samples.cleaner)))
      = true
      /\ final (generate_summary_statistics (Samples.clock [], Samples.cleaner))
         = (Samples.clock [], Samples.cleaner)).
Proof.
  split; [reflexivity|].
  destruct (stages_need_a_loaded_table Samples.no_parse (Samples.clock []) Samples.cleaner
              eq_refl)
    as (H1 & _ & _ & _ & _ & _ & _ & _ & _ & H10 & H11).
  now repeat split.
Defined.

(** *** [remove_display_columns] and [export_cleaned_data] *)

Lemma existsb_filter_present (df : DataFrame) (names : list string) (c : string) :
  In c (columns df) ->
  existsb (String.eqb c) (filter (has_column df) names) = existsb (String.eqb c) names.
Proof.
  intros Hin. induction names as [|x names IH]; simpl; [reflexivity|].
  destruct (has_column df x) eqn:Hx; simpl; [now rewrite IH|].
  rewrite IH. destruct (String.eqb_spec c x) as [->|_]; [|reflexivity].
  exfalso. unfold has_column in Hx.
  assert (E : existsb (String.eqb x) (columns df) = true).
  { apply existsb_exists. exists x. split; [exact Hin|apply String.eqb_refl]. }
  congruence.
Qed.

Lemma columns_without_display (rd : bool) (df : DataFrame) :
  columns (without_display rd df)
  = if rd
    then filter (fun name => negb (existsb (String.eqb name)
                                           ["county_olelo"; "exchange_value_formatted"]))
                (columns df)
    else columns df.
Proof.
  unfold without_display, display_columns_of. destruct rd; [|reflexivity].
  transitivity (filter (fun name =>
                          negb (existsb (String.eqb name)
                                  (filter (has_column df)
                                          ["county_olelo"; "exchange_value_formatted"])))
                       (columns df)).
  - destruct (filter (has_column df) _) as [|x xs]; [|reflexivity].
    cbn [existsb negb]. now rewrite filter_all.
  - apply filter_ext_in. intros name Hin. now rewrite existsb_filter_present.
Qed.

(** X11. On a loaded table [remove_display_columns] returns whether or
    not a display column is there.  When enabled it leaves the columns
    other than [county_olelo] and [exchange_value_formatted], in their
    order, keeps every row and, in each row, the cells of the columns
    left; when disabled the table is as before.  Nothing else changes. *)
Theorem remove_display_columns_drops_only_display_columns
        (w : World.t) (c : CommercialDataCleaner) (df : DataFrame) (remove_display : bool) :
  data c = Some df ->
  exists df',
    returned (remove_display_columns remove_display (w, c)) = Ok tt
    /\ final (remove_display_columns remove_display (w, c))
       = (w, mkCleaner (input_dir c) (output_dir c) (Some df') (raw_row_count c)
                       (cleaned_row_count c))
    /\ columns df'
       = (if remove_display
          then filter (fun name =>
                         negb (existsb (String.eqb name)
                                       ["county_olelo"; "exchange_value_formatted"]))
                      (columns df)
          else columns df)
    /\ Forall2 (fun r r' =>
                  forall name,
                    name <> "county_olelo" -> name <> "exchange_value_formatted" ->
                    cell_at (columns df') name r' = cell_at (columns df) name r)
               (rows df) (rows df')
    /\ (remove_display = false -> df' = df).
Proof.
  intros Hd. destruct c as [i o d n m]. cbn [data] in Hd. subst d.
  destruct (remove_display_columns_spec w i o df n m remove_display) as (l & E & _).
  rewrite E. exists (without_display remove_display df).
  split; [reflexivity|]. split; [reflexivity|]. split; [apply columns_without_display|].
  split.
  - rewrite rows_without_display. apply Forall2_map_right, Forall_forall.
    intros r _ name H1 H2. now apply cell_at_without_display.
  - now intros ->.
Qed.

Lemma remove_display_columns_drops_only_display_columns_witness :
  data (Samples.holding Samples.table_display) = Some Samples.table_display
  /\ exists df',
      returned (remove_display_columns true (Samples.world_of Samples.table_display,
                                             Samples.holding Samples.table_display)) = Ok tt
      /\ final (remove_display_columns true (Samples.world_of Samples.table_display,
                                             Samples.holding Samples.table_display))
         = (Samples.world_of Samples.table_display,
            mkCleaner "data/raw" "data/cleaned" (Some df') 1 0)
      /\ columns df' = Samples.header
      /\ Forall2 (fun r r' =>
                    forall name,
                      name <> "county_olelo" -> name <> "exchange_value_formatted" ->
                      cell_at (columns df') name r'
                      = cell_at (columns Samples.table_display) name r)
                 (rows Samples.table_display) (rows df')
      /\ (true = false -> df' = Samples.table_display).
Proof.
  split; [reflexivity|].
  exact (remove_display_columns_drops_only_display_columns
           (Samples.world_of Samples.table_display) (Samples.holding Samples.table_display)
           Samples.table_display true eq_refl).
Defined.

(** X12. On a loaded table [export_cleaned_data] writes the table, as
    it is, to [cleaned_commercial_<date>.csv] in the output directory and
    returns that path; the file at that path then holds the table.  It sets
    [cleaned_row_count] to the number of rows written and touches nothing
    else: not the table, not the input files, not any summary file. *)
Theorem export_cleaned_data_writes_the_table
        (w : World.t) (c : CommercialDataCleaner) (df : DataFrame) :
  data c = Some df ->
  returned (export_cleaned_data (w, c)) = Ok (output_path w c)
  /\ csv_written (fst (final (export_cleaned_data (w, c))))
     = (output_path w c, df) :: csv_written w
  /\ read_back (output_path w c) (csv_written (fst (final (export_cleaned_data (w, c)))))
     = Some df
  /\ json_written (fst (final (export_cleaned_data (w, c)))) = json_written w
  /\ input_files (fst (final (export_cleaned_data (w, c)))) = input_files w
  /\ snd (final (export_cleaned_data (w, c)))
     = mkCleaner (input_dir c) (output_dir c) (Some df) (raw_row_count c) (len df).
Proof.
  intros Hd. destruct c as [i o d n m]. cbn [data] in Hd. subst d.
  destruct (export_cleaned_data_spec w i o df n m) as (l & E & _). cbv zeta in E.
  rewrite E. unfold final, returned. cbn [fst snd csv_written write_csv].
  repeat split. apply read_back_written.
Qed.

Lemma export_cleaned_data_writes_the_table_witness :
  data (Samples.holding Samples.table_mixed) = Some Samples.table_mixed
  /\ returned (export_cleaned_data (Samples.clock [], Samples.holding Samples.table_mixed))
     = Ok Samples.exported_file
  /\ csv_written (fst (final (export_cleaned_data
                                (Samples.clock [], Samples.holding Samples.table_mixed))))
     = [(Samples.exported_file, Samples.table_mixed)]
  /\ read_back Samples.exported_file
               (csv_written (fst (final (export_cleaned_data
                                           (Samples.clock [],
                                            Samples.holding Samples.table_mixed)))))
     = Some Samples.table_mixed
  /\ json_written (fst (final (export_cleaned_data
                                 (Samples.clock [], Samples.holding Samples.table_mixed))))
     = []
  /\ input_files (fst (final (export_cleaned_data
                                (Samples.clock [], Samples.holding Samples.table_mixed))))
     = []
  /\ snd (final (export_cleaned_data (Samples.clock [], Samples.holding Samples.table_mixed)))
     = mkCleaner "data/raw" "data/cleaned" (Some Samples.table_mixed) 4 4.
Proof.
  split; [reflexivity|].
  exact (export_cleaned_data_writes_the_table (Samples.clock [])
           (Samples.holding Samples.table_mixed) Samples.table_mixed eq_refl).
Defined.

(** *** [generate_summary_statistics] and the whole run *)

Lemma fold_left_min_le (zs : list Z) (z : Z) :
  fold_left Z.min zs z <= z /\ Forall (fun x => fold_left Z.min zs z <= x) zs.
Proof.
  revert z. induction zs as [|y zs IH]; intros z; simpl; [split; [lia|constructor]|].
  destruct (IH (Z.min z y)) as [H1 H2]. split; [lia|].
  constructor; [lia|exact H2].
Qed.

Lemma fold_left_max_ge (zs : list Z) (z : Z) :
  z <= fold_left Z.max zs z /\ Forall (fun x => x <= fold_left Z.max zs z) zs.
Proof.
  revert z. induction zs as [|y zs IH]; intros z; simpl; [split; [lia|constructor]|].
  destruct (IH (Z.max z y)) as [H1 H2]. split; [lia|].
  constructor; [lia|exact H2].
Qed.

Lemma fold_left_min_In (zs : list Z) (z : Z) : In (fold_left Z.min zs z) (z :: zs).
Proof.
  revert z. induction zs as [|y zs IH]; intros z; simpl; [now left|].
  destruct (IH (Z.min z y)) as [H|H]; [|now right; right].
  rewrite <- H. destruct (Z.min_spec z y) as [[_ E]|[_ E]]; rewrite E; auto.
Qed.

Lemma fold_left_max_In (zs : list Z) (z : Z) : In (fold_left Z.max zs z) (z :: zs).
Proof.
  revert z. induction zs as [|y zs IH]; intros z; simpl; [now left|].
  destruct (IH (Z.max z y)) as [H|H]; [|now right; right].
  rewrite <- H. destruct (Z.max_spec z y) as [[_ E]|[_ E]]; rewrite E; auto.
Qed.

Lemma In_Int64_values (s : Series) (z : Z) : In z (Int64_values s) <-> In (Int z) s.
Proof.
  induction s as [|c s IH]; simpl; [tauto|].
  destruct c as [|y|q|t]; simpl; rewrite IH; split; intros H; try tauto;
    try (destruct H as [H|H]; [discriminate|tauto]).
  - destruct H as [H|H]; [left; now subst|tauto].
  - destruct H as [H|H]; [left; now inversion H|tauto].
Qed.

(** The range of years in a summary: the least and the greatest integer
    of the year column. *)
Lemma generate_summary_statistics_range (w : World.t) (i o : string) (df : DataFrame)
      (n m : Z) (sm : Summary.t) (k : nat) :
  index_of "year" (columns df) = Some k ->
  returned (generate_summary_statistics (w, mkCleaner i o (Some df) n m)) = Ok sm ->
  exists z zs,
    Int64_values (map (cell_at (columns df) "year") (rows df)) = z :: zs
    /\ Summary.min_year (Summary.date_range sm) = fold_left Z.min zs z
    /\ Summary.max_year (Summary.date_range sm) = fold_left Z.max zs z.
Proof.
  intros Hk. unfold generate_summary_statistics, returned. run_monad.
  rewrite (getitem_cell_at _ _ _ Hk). run_monad.
  unfold series_min, series_max.
  destruct (Int64_values _) as [|z zs]; run_monad; cbn [py_int]; [discriminate|].
  repeat (destruct_result; run_monad); try discriminate.
  intros H. inversion H. exists z, zs. repeat split.
Qed.

(** A successful run, with the state its summary was computed in. *)
Lemma run_summary (parse : string -> option Q) (ra rd : bool) (w : World.t)
      (c : CommercialDataCleaner) (path : option string) (sm : option Summary.t) :
  returned (run_cleaning_pipeline parse ra rd (w, c)) = Ok (true, path, sm) ->
  exists df0 summary,
    loaded (w, c) = Some df0
    /\ passes_gates (w, c) = true
    /\ path = Some (output_path w c)
    /\ sm = Some summary
    /\ final (run_cleaning_pipeline parse ra rd (w, c))
       = (write_csv (output_path w c) (cleaned parse ra rd df0) w,
          mkCleaner (input_dir c) (output_dir c) (Some (cleaned parse ra rd df0))
                    (len df0) (len (cleaned parse ra rd df0)))
    /\ returned (generate_summary_statistics
                   (write_csv (output_path w c) (cleaned parse ra rd df0) w,
                    mkCleaner (input_dir c) (output_dir c) (Some (cleaned parse ra rd df0))
                              (len df0) (len (cleaned parse ra rd df0))))
       = Ok summary.
Proof.
  intros Hrun. destruct (passes_gates (w, c)) eqn:Hg.
  - destruct (run_past_gates parse ra rd w c Hg) as (df0 & Hl & [H | H]).
    + destruct H as (_ & e & c' & l' & H & _). rewrite H in Hrun. discriminate.
    + cbv zeta in H. destruct H as (_ & r & l' & H & _ & _ & Hr).
      rewrite H in Hrun |- *. unfold returned at 1 in Hrun. cbn [fst snd] in Hrun.
      rewrite Hrun in Hr.
      destruct (returned (generate_summary_statistics _)) as [summary|e] eqn:Hs;
        [|discriminate].
      inversion Hr; subst. exists df0, summary. repeat split; auto.
  - destruct (run_gate_fails parse ra rd w c Hg) as (c' & l' & H & _).
    rewrite H in Hrun. discriminate.
Qed.

(** A run of the cleaner that returns failure has written nothing. *)
Lemma run_failure (parse : string -> option Q) (ra rd : bool) (w : World.t)
      (c : CommercialDataCleaner) (f : option string) (s : option Summary.t) :
  returned (run_cleaning_pipeline parse ra rd (w, c)) = Ok (false, f, s) ->
  f = None /\ s = None /\ fst (final (run_cleaning_pipeline parse ra rd (w, c))) = w.
Proof.
  intros Hrun. destruct (passes_gates (w, c)) eqn:Hg.
  - destruct (run_past_gates parse ra rd w c Hg) as (df0 & _ & [H | H]).
    + destruct H as (_ & e & c' & l & H & _). rewrite H in Hrun. discriminate.
    + cbv zeta in H. destruct H as (_ & r & l & H & _ & Hr & _). rewrite H in Hrun.
      unfold returned in Hrun. cbn [fst snd] in Hrun. subst r.
      destruct Hr as (sm & Hv & _). discriminate.
  - destruct (run_gate_fails parse ra rd w c Hg) as (c' & l & H & _).
    rewrite H in Hrun |- *. unfold returned in Hrun. cbn [fst snd] in Hrun.
    inversion Hrun. now repeat split.
Qed.

(** In the cleaned table the year column is of dtype [Int64]. *)
Lemma cleaned_year_Int64 (parse : string -> option Q) (ra rd : bool) (df : DataFrame)
      (k : nat) :
  index_of "year" (columns df) = Some k ->
  Forall (fun r => is_Int64 (cell_at (columns (cleaned parse ra rd df)) "year" r) = true)
         (rows (cleaned parse ra rd df)).
Proof.
  intros Hk. rewrite rows_cleaned. apply Forall_map, Forall_forall. intros r Hr.
  rewrite cell_at_cleaned by discriminate.
  apply filter_In in Hr. destruct Hr as [Hr _]. apply in_map_iff in Hr.
  destruct Hr as (r0 & <- & _). rewrite (coerce_row_year _ _ _ _ Hk).
  apply is_Int64_value_of.
Qed.

Lemma index_of_cleaned (parse : string -> option Q) (ra rd : bool) (df : DataFrame)
      (name : string) (k : nat) :
  name <> "county_olelo" -> name <> "exchange_value_formatted" ->
  index_of name (columns df) = Some k ->
  exists j, index_of name (columns (cleaned parse ra rd df)) = Some j.
Proof.
  intros H1 H2 Hk. unfold cleaned. eapply index_of_without_display; auto.
  rewrite columns_without_aggregates. exact Hk.
Qed.

Lemma columns_cleaned (parse : string -> option Q) (ra rd : bool) (df : DataFrame) :
  columns (cleaned parse ra rd df)
  = if rd
    then filter (fun name => negb (existsb (String.eqb name)
                                           ["county_olelo"; "exchange_value_formatted"]))
                (columns df)
    else columns df.
Proof.
  unfold cleaned. rewrite columns_without_display, columns_without_aggregates. reflexivity.
Qed.

(** X13. In a successful run the summary's [date_range] is the exact
    range of the years exported: every row of the exported table has a
    missing year or one between [min_year] and [max_year], and both
    bounds are the year of some exported row. *)
Theorem summary_date_range_covers_the_exported_years
        (parse : string -> option Q) (ra rd : bool) (w : World.t) (c : CommercialDataCleaner)
        (path : string) (summary : Summary.t) :
  returned (run_cleaning_pipeline parse ra rd (w, c)) = Ok (true, Some path, Some summary) ->
  exists df,
    read_back path (csv_written (fst (final (run_cleaning_pipeline parse ra rd (w, c)))))
    = Some df
    /\ Forall (fun r =>
                 match cell_at (columns df) "year" r with
                 | Int z =>
                     Summary.min_year (Summary.date_range summary) <= z
                     <= Summary.max_year (Summary.date_range summary)
                 | NA => True
                 | Num _ | Str _ => False
                 end)
              (rows df)
    /\ (exists r,
           In r (rows df)
           /\ cell_at (columns df) "year" r
              = Int (Summary.min_year (Summary.date_range summary)))
    /\ (exists r,
           In r (rows df)
           /\ cell_at (columns df) "year" r
              = Int (Summary.max_year (Summary.date_range summary))).
Proof.
  intros Hrun.
  destruct (run_summary _ _ _ _ _ _ _ Hrun) as (df0 & sm & Hl & Hg & Hp & Hsm & Hf & Hs).
  inversion Hp; subst path. inversion Hsm; subst sm. clear Hp Hsm.
  rewrite Hf. cbn [fst snd csv_written write_csv]. rewrite read_back_written.
  set (df := cleaned parse ra rd df0) in *. exists df. split; [reflexivity|].
  pose proof (gates_required_columns w c df0 Hg Hl) as Hc.
  destruct (required_columns_indices _ Hc) as (ky & _ & _ & _ & _ & _ & Hy & _).
  destruct (index_of_cleaned parse ra rd df0 "year" ky) as [k Hk];
    [discriminate|discriminate|exact Hy|].
  fold df in Hk.
  destruct (generate_summary_statistics_range _ _ _ _ _ _ _ _ Hk Hs)
    as (z & zs & Hv & -> & ->).
  pose proof (cleaned_year_Int64 parse ra rd df0 ky Hy) as Ht. fold df in Ht.
  destruct (fold_left_min_le zs z) as [Hlo1 Hlo2].
  destruct (fold_left_max_ge zs z) as [Hhi1 Hhi2].
  split; [|split].
  - rewrite Forall_forall in Ht |- *. intros r Hr. specialize (Ht r Hr).
    destruct (cell_at (columns df) "year" r) as [|y| |] eqn:E; try discriminate; [exact I|].
    assert (Hin : In y (z :: zs)).
    { rewrite <- Hv. apply In_Int64_values. rewrite <- E. now apply in_map. }
    destruct Hin as [<-|Hin]; [lia|].
    rewrite Forall_forall in Hlo2, Hhi2. specialize (Hlo2 y Hin). specialize (Hhi2 y Hin). lia.
  - pose proof (fold_left_min_In zs z) as Hin. rewrite <- Hv in Hin.
    apply In_Int64_values, in_map_iff in Hin. destruct Hin as (r & E & Hr). eauto.
  - pose proof (fold_left_max_In zs z) as Hin. rewrite <- Hv in Hin.
    apply In_Int64_values, in_map_iff in Hin. destruct Hin as (r & E & Hr). eauto.
Qed.

Lemma summary_date_range_covers_the_exported_years_witness :
  returned (run_cleaning_pipeline Samples.no_parse false false
              (Samples.world_of Samples.table_mixed, Samples.cleaner))
  = Ok (true, Some Samples.exported_file, Some Samples.summary_kept)
  /\ exists df,
      read_back Samples.exported_file
        (csv_written (fst (final (run_cleaning_pipeline Samples.no_parse false false
                                    (Samples.world_of Samples.table_mixed, Samples.cleaner)))))
      = Some df
      /\ Forall (fun r =>
                   match cell_at (columns df) "year" r with
                   | Int z =>
                       Summary.min_year (Summary.date_range Samples.summary_kept) <= z
                       <= Summary.max_year (Summary.date_range Samples.summary_kept)
                   | NA => True
                   | Num _ | Str _ => False
                   end)
                (rows df)
      /\ (exists r,
             In r (rows df)
             /\ cell_at (columns df) "year" r
                = Int (Summary.min_year (Summary.date_range Samples.summary_kept)))
      /\ (exists r,
             In r (rows df)
             /\ cell_at (columns df) "year" r
                = Int (Summary.max_year (Summary.date_range Samples.summary_kept))).
Proof.
  assert (H : returned (run_cleaning_pipeline Samples.no_parse false false
                          (Samples.world_of Samples.table_mixed, Samples.cleaner))
              = Ok (true, Some Samples.exported_file, Some Samples.summary_kept))
    by (vm_compute; reflexivity).
  split; [exact H|].
  exact (summary_date_range_covers_the_exported_years Samples.no_parse false false
           (Samples.world_of Samples.table_mixed) Samples.cleaner
           Samples.exported_file Samples.summary_kept H).
Defined.

(** X14. The table a successful run exports is the table it loaded,
    filtered: its columns are those loaded (without [county_olelo] and
    [exchange_value_formatted] when display columns are removed), and its
    rows are the loaded rows, coerced by [validate_data_types], that have
    a value and (when aggregates are removed) carry no sentinel, in their
    order, each without the dropped columns.  No row is added, changed
    otherwise or reordered. *)
Theorem exported_table_is_the_input_filtered
        (parse : string -> option Q) (ra rd : bool) (w : World.t) (c : CommercialDataCleaner)
        (path : string) (summary : Summary.t) :
  returned (run_cleaning_pipeline parse ra rd (w, c)) = Ok (true, Some path, Some summary) ->
  exists df0 df,
    loaded (w, c) = Some df0
    /\ read_back path (csv_written (fst (final (run_cleaning_pipeline parse ra rd (w, c)))))
       = Some df
    /\ columns df
       = (if rd
          then filter (fun name =>
                         negb (existsb (String.eqb name)
                                       ["county_olelo"; "exchange_value_formatted"]))
                      (columns df0)
          else columns df0)
    /\ rows df
       = map (strip (columns df0) (display_columns_of rd df0))
             (filter (kept ra (columns df0))
                     (map (coerce_row parse (columns df0)) (rows df0))).
Proof.
  intros Hrun.
  destruct (run_summary _ _ _ _ _ _ _ Hrun) as (df0 & sm & Hl & _ & Hp & _ & Hf & _).
  inversion Hp; subst path. rewrite Hf. cbn [fst snd csv_written write_csv].
  rewrite read_back_written. exists df0, (cleaned parse ra rd df0).
  split; [exact Hl|]. split; [reflexivity|].
  split; [apply columns_cleaned|apply rows_cleaned].
Qed.

Lemma exported_table_is_the_input_filtered_witness :
  returned (run_cleaning_pipeline Samples.no_parse true true
              (Samples.world_of Samples.table_display, Samples.cleaner))
  = Ok (true, Some Samples.exported_file, Some Samples.summary_1996)
  /\ exists df0 df,
      loaded (Samples.world_of Samples.table_display, Samples.cleaner) = Some df0
      /\ read_back Samples.exported_file
           (csv_written (fst (final (run_cleaning_pipeline Samples.no_parse true true
                                       (Samples.world_of Samples.table_display,
                                        Samples.cleaner)))))
         = Some df
      /\ columns df
         = filter (fun name =>
                     negb (existsb (String.eqb name)
                                   ["county_olelo"; "exchange_value_formatted"]))
                  (columns df0)
      /\ rows df
         = map (strip (columns df0) (display_columns_of true df0))
               (filter (kept true (columns df0))
                       (map (coerce_row Samples.no_parse (columns df0)) (rows df0))).
Proof.
  assert (H : returned (run_cleaning_pipeline Samples.no_parse true true
                          (Samples.world_of Samples.table_display, Samples.cleaner))
              = Ok (true, Some Samples.exported_file, Some Samples.summary_1996))
    by (vm_compute; reflexivity).
  split; [exact H|].
  exact (exported_table_is_the_input_filtered Samples.no_parse true true
           (Samples.world_of Samples.table_display) Samples.cleaner
           Samples.exported_file Samples.summary_1996 H).
Defined.

(** X15. After a successful run the counts agree everywhere: the
    summary's [raw_row_count] and the cleaner's are the number of rows of
    the loaded table, the summary's [cleaned_row_count] and the cleaner's
    are the number of rows of the one file written, which lies at the
    returned path; at least one row and at most the loaded rows are
    exported. *)
Theorem summary_counts_match_the_files
        (parse : string -> option Q) (ra rd : bool) (w : World.t) (c : CommercialDataCleaner)
        (path : string) (summary : Summary.t) :
  returned (run_cleaning_pipeline parse ra rd (w, c)) = Ok (true, Some path, Some summary) ->
  exists df0 df,
    loaded (w, c) = Some df0
    /\ path = output_path w c
    /\ csv_written (fst (final (run_cleaning_pipeline parse ra rd (w, c))))
       = (path, df) :: csv_written w
    /\ Summary.raw_row_count summary = len df0
    /\ raw_row_count (snd (final (run_cleaning_pipeline parse ra rd (w, c)))) = len df0
    /\ Summary.cleaned_row_count summary = len df
    /\ cleaned_row_count (snd (final (run_cleaning_pipeline parse ra rd (w, c)))) = len df
    /\ 0 < len df <= len df0.
Proof.
  intros Hrun.
  destruct (run_cleaning_pipeline parse ra rd (w, c)) as [[r s'] l] eqn:E.
  unfold returned in Hrun. cbn [fst snd] in Hrun. subst r.
  destruct (run_success _ _ _ _ _ _ _ _ _ E) as (df0 & sm & Hl & _ & Hp & Hsm & H).
  inversion Hp; subst path. inversion Hsm; subst sm. cbv zeta in H.
  destruct H as (-> & Hraw & Hcl & Hrem & Hrows & _).
  exists df0, (cleaned parse ra rd df0). unfold final.
  cbn [fst snd csv_written write_csv raw_row_count cleaned_row_count].
  repeat split; auto.
  - unfold len. destruct (rows (cleaned parse ra rd df0)); [congruence|simpl; lia].
  - rewrite len_cleaned.
    assert (H1 : len (without_aggregates ra (without_nulls (coerced parse df0)))
                 <= len (without_nulls (coerced parse df0))).
    { destruct ra; [|cbn [without_aggregates]; lia].
      cbn [without_aggregates]. apply len_filter_le. }
    assert (H2 : len (without_nulls (coerced parse df0)) <= len (coerced parse df0))
      by apply len_filter_le.
    rewrite len_coerced in H2. lia.
Qed.

Lemma summary_counts_match_the_files_witness :
  returned (run_cleaning_pipeline Samples.no_parse true false
              (Samples.world_of Samples.table_mixed, Samples.cleaner))
  = Ok (true, Some Samples.exported_file, Some Samples.summary_mixed)
  /\ exists df0 df,
      loaded (Samples.world_of Samples.table_mixed, Samples.cleaner) = Some df0
      /\ Samples.exported_file
         = output_path (Samples.world_of Samples.table_mixed) Samples.cleaner
      /\ csv_written (fst (final (run_cleaning_pipeline Samples.no_parse true false
                                    (Samples.world_of Samples.table_mixed, Samples.cleaner))))
         = (Samples.exported_file, df) :: csv_written (Samples.world_of Samples.table_mixed)
      /\ Summary.raw_row_count Samples.summary_mixed = len df0
      /\ raw_row_count (snd (final (run_cleaning_pipeline Samples.no_parse true false
                                      (Samples.world_of Samples.table_mixed,
                                       Samples.cleaner))))
         = len df0
      /\ Summary.cleaned_row_count Samples.summary_mixed = len df
      /\ cleaned_row_count (snd (final (run_cleaning_pipeline Samples.no_parse true false
                                          (Samples.world_of Samples.table_mixed,
                                           Samples.cleaner))))
         = len df
      /\ 0 < len df <= len df0.
Proof.
  assert (H : returned (run_cleaning_pipeline Samples.no_parse true false
                          (Samples.world_of Samples.table_mixed, Samples.cleaner))
              = Ok (true, Some Samples.exported_file, Some Samples.summary_mixed))
    by (vm_compute; reflexivity).
  split; [exact H|].
  exact (summary_counts_match_the_files Samples.no_parse true false
           (Samples.world_of Samples.table_mixed) Samples.cleaner
           Samples.exported_file Samples.summary_mixed H).
Defined.

(** X16. In a successful run with [remove_aggregates=False], the
    summary's [rows_removed] is the number of loaded rows whose
    [exchange_value] is null once read as a number, and
    [cleaned_row_count] is the number of the others: ten rows of which
    two have no value give eight rows and [rows_removed] two. *)
Theorem rows_removed_counts_the_null_values
        (parse : string -> option Q) (rd : bool) (w : World.t) (c : CommercialDataCleaner)
        (path : string) (summary : Summary.t) :
  returned (run_cleaning_pipeline parse false rd (w, c))
  = Ok (true, Some path, Some summary) ->
  exists df0,
    loaded (w, c) = Some df0
    /\ Summary.rows_removed summary
       = Z.of_nat (length (filter (fun r => isnull (to_numeric parse
                                                      (cell_at (columns df0) "exchange_value" r)))
                                  (rows df0)))
    /\ Summary.cleaned_row_count summary
       = Z.of_nat (length (filter (fun r => notna (to_numeric parse
                                                     (cell_at (columns df0) "exchange_value" r)))
                                  (rows df0))).
Proof.
  intros Hrun.
  destruct (run_cleaning_pipeline parse false rd (w, c)) as [[r s'] l] eqn:E.
  unfold returned in Hrun. cbn [fst snd] in Hrun. subst r.
  destruct (run_success _ _ _ _ _ _ _ _ _ E) as (df0 & sm & Hl & Hg & _ & Hsm & H).
  inversion Hsm; subst sm. cbv zeta in H.
  destruct H as (_ & _ & Hcl & Hrem & _ & _).
  pose proof (gates_required_columns w c df0 Hg Hl) as Hc.
  destruct (required_columns_indices _ Hc) as (_ & _ & _ & _ & _ & ke & _ & _ & _ & _ & _ & He).
  exists df0. split; [exact Hl|].
  assert (Hlen : len (cleaned parse false rd df0)
                 = Z.of_nat (length (filter (fun r => notna (to_numeric parse
                                                (cell_at (columns df0) "exchange_value" r)))
                                            (rows df0)))).
  { rewrite len_cleaned. unfold len. cbn [without_aggregates without_nulls coerced rows columns].
    rewrite filter_map_length. f_equal. f_equal. apply filter_ext. intros r.
    unfold has_value. now rewrite (coerce_row_value _ _ _ _ He). }
  rewrite Hrem, Hcl, Hlen. split; [|reflexivity].
  pose proof (filter_length (fun r => notna (to_numeric parse
                                        (cell_at (columns df0) "exchange_value" r)))
                            (rows df0)) as F.
  unfold len.
  rewrite (filter_ext (fun r => isnull (to_numeric parse
                                          (cell_at (columns df0) "exchange_value" r)))
                      (fun r => negb (notna (to_numeric parse
                                          (cell_at (columns df0) "exchange_value" r)))))
    by (intros r; unfold notna; now rewrite negb_involutive).
  lia.
Qed.

Lemma rows_removed_counts_the_null_values_witness :
  returned (run_cleaning_pipeline Samples.no_parse false false
              (Samples.world_of Samples.table_mixed, Samples.cleaner))
  = Ok (true, Some Samples.exported_file, Some Samples.summary_kept)
  /\ exists df0,
      loaded (Samples.world_of Samples.table_mixed, Samples.cleaner) = Some df0
      /\ Summary.rows_removed Samples.summary_kept
         = Z.of_nat (length (filter (fun r =>
                                       isnull (to_numeric Samples.no_parse
                                                 (cell_at (columns df0) "exchange_value" r)))
                                    (rows df0)))
      /\ Summary.cleaned_row_count Samples.summary_kept
         = Z.of_nat (length (filter (fun r =>
                                       notna (to_numeric Samples.no_parse
                                                (cell_at (columns df0) "exchange_value" r)))
                                    (rows df0))).
Proof.
  assert (H : returned (run_cleaning_pipeline Samples.no_parse false false
                          (Samples.world_of Samples.table_mixed, Samples.cleaner))
              = Ok (true, Some Samples.exported_file, Some Samples.summary_kept))
    by (vm_compute; reflexivity).
  split; [exact H|].
  exact (rows_removed_counts_the_null_values Samples.no_parse false
           (Samples.world_of Samples.table_mixed) Samples.cleaner
           Samples.exported_file Samples.summary_kept H).
Defined.

(** X17. Whatever the input, the flags and the outcome, a run of the
    cleaner leaves the input files and the summary files as they are and
    writes at most one file, the dated CSV in its output directory. *)
Theorem run_cleaning_pipeline_writes_at_most_one_file
        (parse : string -> option Q) (ra rd : bool) (w : World.t) (c : CommercialDataCleaner) :
  input_files (fst (final (run_cleaning_pipeline parse ra rd (w, c)))) = input_files w
  /\ json_written (fst (final (run_cleaning_pipeline parse ra rd (w, c)))) = json_written w
  /\ (csv_written (fst (final (run_cleaning_pipeline parse ra rd (w, c)))) = csv_written w
      \/ exists df,
          csv_written (fst (final (run_cleaning_pipeline parse ra rd (w, c))))
          = (output_path w c, df) :: csv_written w).
Proof.
  destruct (passes_gates (w, c)) eqn:Hg.
  - destruct (run_past_gates parse ra rd w c Hg) as (df0 & _ & [H | H]).
    + destruct H as (_ & e & c' & l & H & _). rewrite H. unfold final. cbn [fst snd].
      repeat split; auto.
    + cbv zeta in H. destruct H as (_ & r & l & H & _). rewrite H. unfold final.
      cbn [fst snd csv_written write_csv]. split; [reflexivity|]. split; [reflexivity|].
      right. now eexists.
  - destruct (run_gate_fails parse ra rd w c Hg) as (c' & l & H & _). rewrite H.
    unfold final. cbn [fst snd]. repeat split; auto.
Qed.

(** *** The records per year *)

Lemma insert_by_perm {A} (lt : A -> A -> bool) (x : A) (l : list A) :
  Permutation (insert_by lt x l) (x :: l).
Proof.
  induction l as [|y l IH]; simpl; [reflexivity|].
  destruct (lt x y); [reflexivity|].
  rewrite IH. apply perm_swap.
Qed.

Lemma sort_by_perm {A} (lt : A -> A -> bool) (l : list A) : Permutation (sort_by lt l) l.
Proof.
  unfold sort_by.
  assert (H : forall acc, Permutation (fold_left (fun acc x => insert_by lt x acc) l acc)
                                      (l ++ acc)).
  { induction l as [|x l IH]; intros acc; simpl; [reflexivity|].
    rewrite IH, insert_by_perm. symmetry. apply Permutation_middle. }
  rewrite H. now rewrite app_nil_r.
Qed.

Lemma dedup_In (seen zs : list Z) (z : Z) :
  In z (dedup seen zs) <-> In z zs /\ ~ In z seen.
Proof.
  revert seen. induction zs as [|y zs IH]; intros seen; simpl; [tauto|].
  destruct (existsb (Z.eqb y) seen) eqn:E.
  - rewrite IH. apply existsb_exists in E. destruct E as (y' & Hin & Hy).
    apply Z.eqb_eq in Hy. subst y'. split; [tauto|].
    intros [[->|H] Hn]; tauto.
  - simpl. rewrite IH. simpl.
    assert (Hy : ~ In y seen).
    { intros Hin. assert (existsb (Z.eqb y) seen = true); [|congruence].
      apply existsb_exists. exists y. split; [exact Hin|apply Z.eqb_refl]. }
    destruct (Z.eq_dec y z) as [->|Hne]; [tauto|]. tauto.
Qed.

Lemma dedup_NoDup (seen zs : list Z) : NoDup (dedup seen zs).
Proof.
  revert seen. induction zs as [|y zs IH]; intros seen; simpl; [constructor|].
  destruct (existsb (Z.eqb y) seen); [apply IH|].
  constructor; [|apply IH]. rewrite dedup_In. simpl. tauto.
Qed.

Lemma total_perm (l l' : list Z) : Permutation l l' -> total l = total l'.
Proof. unfold total. induction 1; simpl; lia. Qed.

Lemma total_groups_row (cols : list string) (key : string) (ks : list Z) (r : list cell) :
  NoDup ks ->
  total (map (fun k => if is_key cols key k r then 1 else 0) ks)
  = match cell_at cols key r with
    | Int z => if existsb (Z.eqb z) ks then 1 else 0
    | _ => 0
    end.
Proof.
  unfold is_key, total. induction 1 as [|k ks Hk _ IH]; simpl.
  - now destruct (cell_at cols key r).
  - rewrite IH. destruct (cell_at cols key r) as [|z| |]; try reflexivity.
    destruct (Z.eqb_spec z k) as [->|Hne]; simpl; [|reflexivity].
    destruct (existsb (Z.eqb k) ks) eqn:E; [|reflexivity].
    apply existsb_exists in E. destruct E as (k' & Hin & E). apply Z.eqb_eq in E.
    subst k'. contradiction.
Qed.

(** The sizes of the groups add up to the number of rows that have a key. *)
Lemma total_groups (cols : list string) (key : string) (ks : list Z) (rs : list (list cell)) :
  NoDup ks ->
  total (map (fun k => Z.of_nat (length (filter (is_key cols key k) rs))) ks)
  = Z.of_nat (length (filter (fun r => match cell_at cols key r with
                                       | Int z => existsb (Z.eqb z) ks
                                       | _ => false
                                       end) rs)).
Proof.
  intros Hks. induction rs as [|r rs IH]; simpl.
  - unfold total. induction ks; simpl; [reflexivity|]. inversion Hks; subst. auto.
  - transitivity
      (total (map (fun k => if is_key cols key k r then 1 else 0) ks)
       + total (map (fun k => Z.of_nat (length (filter (is_key cols key k) rs))) ks)).
    + unfold total. clear. induction ks as [|k ks IHk]; simpl; [reflexivity|].
      rewrite IHk. destruct (is_key cols key k r); simpl length; lia.
    + rewrite IH, (total_groups_row _ _ _ _ Hks).
      destruct (cell_at cols key r) as [|z| |]; try reflexivity.
      destruct (existsb (Z.eqb z) ks); simpl length; lia.
Qed.

Lemma generate_summary_statistics_records (w : World.t) (i o : string) (df : DataFrame)
      (n m : Z) (sm : Summary.t) (k : nat) :
  index_of "year" (columns df) = Some k ->
  returned (generate_summary_statistics (w, mkCleaner i o (Some df) n m)) = Ok sm ->
  Summary.records_by_year sm
  = map (fun y => (y, Z.of_nat (length (filter (is_key (columns df) "year" y) (rows df)))))
        (sorted_ints (dedup [] (Int64_values (map (cell_at (columns df) "year") (rows df))))).
Proof.
  intros Hk. unfold generate_summary_statistics, returned, groupby. run_monad.
  rewrite (getitem_cell_at _ _ _ Hk). run_monad.
  repeat (destruct_result; run_monad); try discriminate.
  intros H. inversion H. cbn [Summary.records_by_year]. rewrite map_map. reflexivity.
Qed.

(** X18. In a successful run [records_by_year] has one entry for each
    year that occurs in the exported table and no other, and its counts
    add up to the number of exported rows that have a year: to
    [cleaned_row_count] when no year is missing. *)
Theorem records_by_year_add_up
        (parse : string -> option Q) (ra rd : bool) (w : World.t) (c : CommercialDataCleaner)
        (path : string) (summary : Summary.t) :
  returned (run_cleaning_pipeline parse ra rd (w, c)) = Ok (true, Some path, Some summary) ->
  exists df,
    read_back path (csv_written (fst (final (run_cleaning_pipeline parse ra rd (w, c)))))
    = Some df
    /\ total (map snd (Summary.records_by_year summary))
       = Z.of_nat (length (filter (fun r => notna (cell_at (columns df) "year" r)) (rows df)))
    /\ NoDup (map fst (Summary.records_by_year summary))
    /\ (forall z,
           In z (map fst (Summary.records_by_year summary))
           <-> exists r, In r (rows df) /\ cell_at (columns df) "year" r = Int z).
Proof.
  intros Hrun.
  destruct (run_summary _ _ _ _ _ _ _ Hrun) as (df0 & sm & Hl & Hg & Hp & Hsm & Hf & Hs).
  inversion Hp; subst path. inversion Hsm; subst sm. clear Hp Hsm.
  rewrite Hf. cbn [fst snd csv_written write_csv]. rewrite read_back_written.
  set (df := cleaned parse ra rd df0) in *. exists df. split; [reflexivity|].
  pose proof (gates_required_columns w c df0 Hg Hl) as Hc.
  destruct (required_columns_indices _ Hc) as (ky & _ & _ & _ & _ & _ & Hy & _).
  destruct (index_of_cleaned parse ra rd df0 "year" ky) as [k Hk];
    [discriminate|discriminate|exact Hy|].
  fold df in Hk.
  rewrite (generate_summary_statistics_records _ _ _ _ _ _ _ _ Hk Hs).
  pose proof (cleaned_year_Int64 parse ra rd df0 ky Hy) as Ht. fold df in Ht.
  set (years := map (cell_at (columns df) "year") (rows df)).
  set (keys := dedup [] (Int64_values years)).
  assert (Hperm : Permutation (sorted_ints keys) keys) by apply sort_by_perm.
  assert (Hnd : NoDup keys) by apply dedup_NoDup.
  assert (Hin : forall z, In z keys <-> exists r, In r (rows df)
                                                  /\ cell_at (columns df) "year" r = Int z).
  { intros z. unfold keys. rewrite dedup_In, In_Int64_values. unfold years.
    rewrite in_map_iff. simpl. split.
    - intros [(r & E & Hr) _]. eauto.
    - intros (r & Hr & E). split; [eauto|tauto]. }
  rewrite !map_map. cbn [fst snd]. rewrite map_id.
  split; [|split].
  - rewrite (total_perm _ _ (Permutation_map _ Hperm)).
    rewrite (total_groups _ _ _ _ Hnd). f_equal. f_equal.
    apply filter_ext_in. intros r Hr.
    rewrite Forall_forall in Ht. specialize (Ht r Hr).
    destruct (cell_at (columns df) "year" r) as [|z| |] eqn:E; try discriminate;
      [reflexivity|].
    cbn [notna isnull negb]. apply existsb_exists. exists z. split; [|apply Z.eqb_refl].
    apply Hin. eauto.
  - eapply Permutation_NoDup; [symmetry; exact Hperm|exact Hnd].
  - intros z. rewrite <- Hin. split; apply Permutation_in; [exact Hperm|now symmetry].
Qed.

Lemma records_by_year_add_up_witness :
  returned (run_cleaning_pipeline Samples.no_parse false false
              (Samples.world_of Samples.table_mixed, Samples.cleaner))
  = Ok (true, Some Samples.exported_file, Some Samples.summary_kept)
  /\ exists df,
      read_back Samples.exported_file
        (csv_written (fst (final (run_cleaning_pipeline Samples.no_parse false false
                                    (Samples.world_of Samples.table_mixed, Samples.cleaner)))))
      = Some df
      /\ total (map snd (Summary.records_by_year Samples.summary_kept))
         = Z.of_nat (length (filter (fun r => notna (cell_at (columns df) "year" r))
                                    (rows df)))
      /\ NoDup (map fst (Summary.records_by_year Samples.summary_kept))
      /\ (forall z,
             In z (map fst (Summary.records_by_year Samples.summary_kept))
             <-> exists r, In r (rows df) /\ cell_at (columns df) "year" r = Int z).
Proof.
  assert (H : returned (run_cleaning_pipeline Samples.no_parse false false
                          (Samples.world_of Samples.table_mixed, Samples.cleaner))
              = Ok (true, Some Samples.exported_file, Some Samples.summary_kept))
    by (vm_compute; reflexivity).
  split; [exact H|].
  exact (records_by_year_add_up Samples.no_parse false false
           (Samples.world_of Samples.table_mixed) Samples.cleaner
           Samples.exported_file Samples.summary_kept H).
Defined.

(** ** The orchestrator *)

Import Pipeline.

Section CombinedSummary.

Context {NC : Type}.
Variables (w : World.t) (i o : string) (cc : CommercialDataCleaner) (nc : NC).

(** An entry that records a failure has no key ['summary']: the
    combined summary cannot be built. *)
Lemma generate_combined_summary_after_failure (rs : Results) (e : string) :
  commercial rs = Some (Failed e) \/ non_commercial rs = Some (Failed e) ->
  returned (generate_combined_summary (w, mkPipeline i o cc nc rs))
  = Raise (KeyError "summary").
Proof.
  destruct rs as [[[fc sc|ec]|] [[fn sn|en]|]]; cbn [commercial non_commercial];
    intros [H|H]; try discriminate; reflexivity.
Qed.

(** When both cleaners succeeded the combined summary has both
    summaries and the [overall] block, with the counts added. *)
Lemma generate_combined_summary_both_succeeded
      (fc fn : string) (c : Summary.t) (n : NonCommercialSummary.t) :
  returned (generate_combined_summary
              (w, mkPipeline i o cc nc
                    {| commercial := Some (Succeeded fc (Some c));
                       non_commercial := Some (Succeeded fn (Some n)) |}))
  = Ok {| CombinedSummary.pipeline_timestamp := now w;
          CombinedSummary.commercial := Some c;
          CombinedSummary.non_commercial := Some n;
          CombinedSummary.overall :=
            Some {| CombinedSummary.total_records :=
                      Summary.cleaned_row_count c + NonCommercialSummary.cleaned_row_count n;
                    CombinedSummary.total_exchange_value :=
                      Qred (Summary.total_exchange_value c
                            + NonCommercialSummary.total_exchange_value n);
                    CombinedSummary.combined_date_range :=
                      {| Summary.min_year :=
                           Z.min (Summary.min_year (Summary.date_range c))
                                 (Summary.min_year (NonCommercialSummary.date_range n));
                         Summary.max_year :=
                           Z.max (Summary.max_year (Summary.date_range c))
                                 (Summary.max_year (NonCommercialSummary.date_range n)) |}
                 |} |}.
Proof. reflexivity. Qed.

(** Only an entry of a cleaner that has not run ([None]) is rendered as
    null, and then there is no [overall] block. *)
Lemma generate_combined_summary_before_commercial_ran
      (fn : string) (n : option NonCommercialSummary.t) :
  returned (generate_combined_summary
              (w, mkPipeline i o cc nc
                    {| commercial := None;
                       non_commercial := Some (Succeeded fn n) |}))
  = Ok {| CombinedSummary.pipeline_timestamp := now w;
          CombinedSummary.commercial := None;
          CombinedSummary.non_commercial := n;
          CombinedSummary.overall := None |}.
Proof. reflexivity. Qed.

(** A combined summary whose commercial part counts the records of some
    year cannot be exported: [json.dump] raises on the key, and what is
    left at the path is no JSON. *)
Lemma export_summary_json_refuses_year_keys
      (rs : Results) (summary : CombinedSummary.t) (c : Summary.t) :
  CombinedSummary.commercial summary = Some c ->
  Summary.records_by_year c <> [] ->
  returned (export_summary_json summary (w, mkPipeline i o cc nc rs))
  = Raise (TypeError "keys must be str, int, float, bool or None, not int64")
  /\ json_written (fst (final (export_summary_json summary (w, mkPipeline i o cc nc rs))))
     = (joinpath o ("cleaning_summary_" ++ today w ++ ".json"), None) :: json_written w.
Proof.
  intros Hc Hr. unfold export_summary_json, json_serialisable, returned, final.
  rewrite Hc. destruct (Summary.records_by_year c); [congruence|].
  split; reflexivity.
Qed.

End CombinedSummary.

(** *** No summary file is ever written by [run_full_pipeline] *)

Section KeepsJson.

Context {Self : Type}.

Lemma keeps_ret {A} (a : A) : keeps_json (ret a : M (St Self) A).
Proof. intros s. reflexivity. Qed.

Lemma keeps_lift {A} (r : result A) : keeps_json (lift r : M (St Self) A).
Proof. intros s. reflexivity. Qed.

Lemma keeps_logging (l : level) (text : string) (vals : list cell) :
  keeps_json (logging l text vals : M (St Self) unit).
Proof. intros s. reflexivity. Qed.

Lemma keeps_get_self : keeps_json (get_self : M (St Self) Self).
Proof. intros s. reflexivity. Qed.

Lemma keeps_get_world : keeps_json (get_world : M (St Self) World.t).
Proof. intros s. reflexivity. Qed.

Lemma keeps_set_self (f : Self -> Self) : keeps_json (set_self f).
Proof. intros s. reflexivity. Qed.

Lemma keeps_write_csv (path : string) (df : DataFrame) :
  keeps_json (set_world (write_csv path df) : M (St Self) unit).
Proof. intros s. reflexivity. Qed.

Lemma keeps_bind {A B} (m : M (St Self) A) (k : A -> M (St Self) B) :
  keeps_json m -> (forall a, keeps_json (k a)) -> keeps_json (bind m k).
Proof.
  intros Hm Hk s. unfold bind, final. specialize (Hm s). unfold final in Hm.
  destruct (m s) as [[[a|e] s1] l1]; cbn [fst snd] in *; [|exact Hm].
  specialize (Hk a s1). unfold final in Hk.
  destruct (k a s1) as [[r s2] l2]. cbn [fst snd] in *. congruence.
Qed.

Lemma keeps_try_except {A} (m : M (St Self) A) (h : exn -> M (St Self) A) :
  keeps_json m -> (forall e, keeps_json (h e)) -> keeps_json (try_except m h).
Proof.
  intros Hm Hh s. unfold try_except, final. specialize (Hm s). unfold final in Hm.
  destruct (m s) as [[[a|e] s1] l1]; cbn [fst snd] in *; [exact Hm|].
  specialize (Hh e s1). unfold final in Hh.
  destruct (h e s1) as [[r s2] l2]. cbn [fst snd] in *. congruence.
Qed.

Lemma keeps_for_each {A} (xs : list A) (body : A -> M (St Self) unit) :
  (forall x, keeps_json (body x)) -> keeps_json (for_each xs body).
Proof.
  intros H. induction xs as [|x xs IH]; simpl.
  - apply keeps_ret.
  - apply keeps_bind; auto.
Qed.

End KeepsJson.

Lemma keeps_self_data (e : exn) : keeps_json (self_data e).
Proof. intros [w c]. unfold self_data, final. cbn [fst snd]. now destruct (data c). Qed.

Ltac keeps_step :=
  first
    [ apply keeps_bind; [|intros ?]
    | apply keeps_try_except; [|intros ?]
    | apply keeps_for_each; intros ?
    | apply keeps_ret
    | apply keeps_lift
    | apply keeps_logging
    | apply keeps_get_self
    | apply keeps_get_world
    | apply keeps_set_self
    | apply keeps_write_csv
    | apply keeps_self_data
    | match goal with
      | |- keeps_json (if ?b then _ else _) => destruct b
      | |- keeps_json (match ?x with _ => _ end) => destruct x
      end ].

Ltac keeps :=
  unfold logging_info, logging_warning, logging_error, column, set_data, set_raw_row_count,
    set_cleaned_row_count, read_csv, raise;
  cbv zeta; repeat keeps_step.

Lemma keeps_run_cleaning_pipeline (parse : string -> option Q) (ra rd : bool) :
  keeps_json (run_cleaning_pipeline parse ra rd).
Proof.
  unfold run_cleaning_pipeline, load_data, validate_schema, validate_data_types,
    validate_data_ranges, validate_ecosystem_types, validate_species_groups,
    validate_counties, validate_categories, remove_null_values, remove_aggregate_rows,
    remove_display_columns, export_cleaned_data, generate_summary_statistics.
  keeps.
Qed.

Section OrchestratorKeepsJson.

Context {NC : Type}.

Lemma keeps_on_commercial_cleaner {A} (m : M CleanCommercial.state A) :
  keeps_json m -> keeps_json (on_commercial_cleaner NC m).
Proof.
  intros H [w p]. unfold on_commercial_cleaner, final. cbn [fst snd].
  specialize (H (w, commercial_cleaner p)). unfold final in H.
  now destruct (m (w, commercial_cleaner p)) as [[r s'] l].
Qed.

Lemma keeps_on_noncommercial_cleaner {A} (m : M (St NC) A) :
  keeps_json m -> keeps_json (on_noncommercial_cleaner NC m).
Proof.
  intros H [w p]. unfold on_noncommercial_cleaner, final. cbn [fst snd].
  specialize (H (w, noncommercial_cleaner p)). unfold final in H.
  now destruct (m (w, noncommercial_cleaner p)) as [[r s'] l].
Qed.

Variable parse : string -> option Q.
Variable noncommercial_run :
  bool -> bool -> M (St NC) (bool * option string * option NonCommercialSummary.t).
Hypothesis noncommercial_keeps : forall ra rd, keeps_json (noncommercial_run ra rd).

(** Whatever the input and the outcome of the two cleanings, a run of
    the full pipeline writes no summary file. *)
Lemma keeps_run_full_pipeline (ra rd : bool) :
  keeps_json (run_full_pipeline parse noncommercial_run ra rd).
Proof.
  unfold run_full_pipeline, setup_logging, run_commercial_cleaning,
    run_noncommercial_cleaning, generate_pipeline_report, set_results.
  unfold logging_info. cbv zeta.
  repeat first
    [ apply keeps_on_commercial_cleaner, keeps_run_cleaning_pipeline
    | apply keeps_on_noncommercial_cleaner, noncommercial_keeps
    | keeps_step
    | match goal with
      | |- keeps_json (let '(_, _) := ?x in _) => destruct x
      end ].
Qed.

End OrchestratorKeepsJson.

(** ** The claims about the orchestrator *)

(** C1, which the code does not meet.  On an input directory from which
    both cleanings succeed, [main] (that is [run_full_pipeline]) returns
    [True] and has written the cleaned table but no summary file: it
    records the two outcomes and never calls [generate_combined_summary]
    or [export_summary_json]. *)
Theorem run_full_pipeline_writes_no_summary :
  main Samples.no_parse Samples.noncommercial_new Samples.noncommercial_succeeds
       (Samples.world_of Samples.table_mixed)
  = run_full_pipeline Samples.no_parse Samples.noncommercial_succeeds false false
      (Samples.world_of Samples.table_mixed, Samples.pipeline)
  /\ returned (run_full_pipeline Samples.no_parse Samples.noncommercial_succeeds false false
                 (Samples.world_of Samples.table_mixed, Samples.pipeline))
     = Ok true
  /\ json_written (fst (final (run_full_pipeline Samples.no_parse
                                 Samples.noncommercial_succeeds false false
                                 (Samples.world_of Samples.table_mixed, Samples.pipeline))))
     = []
  /\ map fst (csv_written (fst (final (run_full_pipeline Samples.no_parse
                                         Samples.noncommercial_succeeds false false
                                         (Samples.world_of Samples.table_mixed,
                                          Samples.pipeline)))))
     = [Samples.exported_file]
  /\ existsb (fun r => String.eqb (message r) "Exporting summary statistics to JSON..."
                       || String.eqb (message r) "Generating combined summary statistics...")
             (logged (run_full_pipeline Samples.no_parse
                        Samples.noncommercial_succeeds false false
                        (Samples.world_of Samples.table_mixed, Samples.pipeline)))
     = false.
Proof. repeat split; vm_compute; reflexivity. Qed.

(** C2, which the code does not meet.  After a run in which the
    commercial cleaning succeeded and the non-commercial one failed,
    [generate_combined_summary] does not return a summary without the
    [overall] block: it raises [KeyError], the recorded failure having no
    ['summary']. *)
Theorem combined_summary_raises_after_noncommercial_failure :
  returned (run_full_pipeline Samples.no_parse Samples.noncommercial_fails false false
              (Samples.world_of Samples.table_mixed, Samples.pipeline))
  = Ok false
  /\ non_commercial
       (results (snd (final (run_full_pipeline Samples.no_parse
                               Samples.noncommercial_fails false false
                               (Samples.world_of Samples.table_mixed, Samples.pipeline)))))
     = Some Samples.noncommercial_failed
  /\ returned (bind (run_full_pipeline Samples.no_parse Samples.noncommercial_fails false false)
                    (fun _ => generate_combined_summary)
                    (Samples.world_of Samples.table_mixed, Samples.pipeline))
     = Raise (KeyError "summary").
Proof. repeat split; vm_compute; reflexivity. Qed.

(** C3, which the code does not meet.  After a run in which the
    commercial cleaning failed (no input file) and the non-commercial one
    succeeded, [generate_combined_summary] does not return a summary with
    a null [commercial] field: it raises [KeyError]. *)
Theorem combined_summary_raises_after_commercial_failure :
  returned (run_full_pipeline Samples.no_parse Samples.noncommercial_succeeds false false
              (Samples.clock [], Samples.pipeline))
  = Ok false
  /\ results (snd (final (run_full_pipeline Samples.no_parse
                            Samples.noncommercial_succeeds false false
                            (Samples.clock [], Samples.pipeline))))
     = {| commercial := Some Samples.commercial_failed;
          non_commercial := Some Samples.noncommercial_succeeded |}
  /\ returned (bind (run_full_pipeline Samples.no_parse Samples.noncommercial_succeeds
                       false false)
                    (fun _ => generate_combined_summary)
                    (Samples.clock [], Samples.pipeline))
     = Raise (KeyError "summary").
Proof. repeat split; vm_compute; reflexivity. Qed.

(** ** Further properties of the orchestrator *)

Ltac run_orchestrator :=
  cbv beta iota zeta delta [bind ret lift raise modify set_self set_world get_self get_world
    logging_info logging_warning logging_error logging fst snd app
    set_results setup_logging on_commercial_cleaner on_noncommercial_cleaner];
  cbn [results commercial non_commercial Pipeline.input_dir Pipeline.output_dir
       commercial_cleaner noncommercial_cleaner].

Lemma if_logging_info {Self : Type} (b : bool) (yes no : string) (s : St Self) :
  (if b then logging_info yes [] else logging_info no []) s
  = (Ok tt, s, [mkLog INFO (if b then yes else no) []]).
Proof. now destruct b. Qed.

Section OrchestratorSteps.

Context {NC : Type}.
Variable parse : string -> option Q.
Variable noncommercial_run :
  bool -> bool -> M (St NC) (bool * option string * option NonCommercialSummary.t).

(** What [run_commercial_cleaning] makes of the run of the cleaner. *)
Lemma run_commercial_cleaning_spec (ra rd : bool) (w : World.t)
      (p : FisheriesCleaningPipeline NC)
      (r : result (bool * option string * option Summary.t))
      (w1 : World.t) (c1 : CommercialDataCleaner) (l1 : list log_record) :
  run_cleaning_pipeline parse ra rd (w, commercial_cleaner p) = (r, (w1, c1), l1) ->
  exists l,
    run_commercial_cleaning parse ra rd (w, p)
    = (match r with Ok (b, _, _) => Ok b | Raise e => Raise e end,
       (w1, mkPipeline (Pipeline.input_dir p) (Pipeline.output_dir p) c1
                       (noncommercial_cleaner p)
                       (match r with
                        | Ok (true, f, s) =>
                            mkResults (Some (Succeeded (str_path f) s))
                                      (non_commercial (results p))
                        | Ok (false, _, _) =>
                            mkResults (Some (Failed "Commercial data cleaning failed"))
                                      (non_commercial (results p))
                        | Raise _ => results p
                        end)), l).
Proof.
  intros H. unfold run_commercial_cleaning. run_orchestrator. rewrite H.
  destruct r as [[[[|] f] s]|e]; eexists; reflexivity.
Qed.

(** What [run_noncommercial_cleaning] makes of the run of the cleaner. *)
Lemma run_noncommercial_cleaning_spec (ra rd : bool) (w : World.t)
      (p : FisheriesCleaningPipeline NC)
      (r : result (bool * option string * option NonCommercialSummary.t))
      (w1 : World.t) (n1 : NC) (l1 : list log_record) :
  noncommercial_run ra rd (w, noncommercial_cleaner p) = (r, (w1, n1), l1) ->
  exists l,
    run_noncommercial_cleaning noncommercial_run ra rd (w, p)
    = (match r with Ok (b, _, _) => Ok b | Raise e => Raise e end,
       (w1, mkPipeline (Pipeline.input_dir p) (Pipeline.output_dir p) (commercial_cleaner p)
                       n1
                       (match r with
                        | Ok (true, f, s) =>
                            mkResults (commercial (results p))
                                      (Some (Succeeded (str_path f) s))
                        | Ok (false, _, _) =>
                            mkResults (commercial (results p))
                                      (Some (Failed "Non-commercial data cleaning failed"))
                        | Raise _ => results p
                        end)), l).
Proof.
  intros H. unfold run_noncommercial_cleaning. run_orchestrator. rewrite H.
  destruct r as [[[[|] f] s]|e]; eexists; reflexivity.
Qed.

(** The report changes nothing. *)
Lemma generate_pipeline_report_frame (s : Pipeline.state NC) :
  final (generate_pipeline_report s) = s.
Proof.
  destruct s as [w [i o cc nc [c n]]].
  destruct c as [[fc [sc|]|ec]|], n as [[fn [sn|]|en]|]; reflexivity.
Qed.

(** The three ways a run of the full pipeline can go. *)
Lemma run_full_pipeline_commercial_raises (ra rd : bool) (w : World.t)
      (p : FisheriesCleaningPipeline NC) (e : exn)
      (w1 : World.t) (c1 : CommercialDataCleaner) (l1 : list log_record) :
  run_cleaning_pipeline parse ra rd (w, commercial_cleaner p) = (Raise e, (w1, c1), l1) ->
  exists l,
    run_full_pipeline parse noncommercial_run ra rd (w, p)
    = (Raise e,
       (w1, mkPipeline (Pipeline.input_dir p) (Pipeline.output_dir p) c1
                       (noncommercial_cleaner p) (results p)), l).
Proof.
  intros H. destruct (run_commercial_cleaning_spec ra rd w p _ _ _ _ H) as [l Hc].
  eexists. unfold run_full_pipeline.
  do 11 (eapply bind_Ok; [reflexivity|]).
  eapply bind_Raise. exact Hc.
Qed.

Lemma run_full_pipeline_noncommercial_raises (ra rd : bool) (w : World.t)
      (p : FisheriesCleaningPipeline NC)
      (b1 : bool) (f1 : option string) (s1 : option Summary.t) (e : exn)
      (w1 w2 : World.t) (c1 : CommercialDataCleaner) (n2 : NC) (l1 l2 : list log_record) :
  run_cleaning_pipeline parse ra rd (w, commercial_cleaner p)
  = (Ok (b1, f1, s1), (w1, c1), l1) ->
  noncommercial_run ra rd (w1, noncommercial_cleaner p) = (Raise e, (w2, n2), l2) ->
  exists l,
    run_full_pipeline parse noncommercial_run ra rd (w, p)
    = (Raise e,
       (w2, mkPipeline (Pipeline.input_dir p) (Pipeline.output_dir p) c1 n2
                       (mkResults
                          (Some (if b1 then Succeeded (str_path f1) s1
                                 else Failed "Commercial data cleaning failed"))
                          (non_commercial (results p)))), l).
Proof.
  intros H1 H2. destruct (run_commercial_cleaning_spec ra rd w p _ _ _ _ H1) as [l Hc].
  match type of Hc with
  | _ = (_, (_, ?p1), _) =>
      destruct (run_noncommercial_cleaning_spec ra rd w1 p1 _ _ _ _ H2) as [l' Hn]
  end.
  eexists. unfold run_full_pipeline.
  do 11 (eapply bind_Ok; [reflexivity|]).
  eapply bind_Ok; [exact Hc|].
  eapply bind_Raise. rewrite Hn. destruct b1; reflexivity.
Qed.

Lemma run_full_pipeline_both_return (ra rd : bool) (w : World.t)
      (p : FisheriesCleaningPipeline NC)
      (b1 b2 : bool) (f1 f2 : option string) (s1 : option Summary.t)
      (s2 : option NonCommercialSummary.t)
      (w1 w2 : World.t) (c1 : CommercialDataCleaner) (n2 : NC) (l1 l2 : list log_record) :
  run_cleaning_pipeline parse ra rd (w, commercial_cleaner p)
  = (Ok (b1, f1, s1), (w1, c1), l1) ->
  noncommercial_run ra rd (w1, noncommercial_cleaner p) = (Ok (b2, f2, s2), (w2, n2), l2) ->
  exists r l,
    run_full_pipeline parse noncommercial_run ra rd (w, p)
    = (r,
       (w2, mkPipeline (Pipeline.input_dir p) (Pipeline.output_dir p) c1 n2
                       (mkResults
                          (Some (if b1 then Succeeded (str_path f1) s1
                                 else Failed "Commercial data cleaning failed"))
                          (Some (if b2 then Succeeded (str_path f2) s2
                                 else Failed "Non-commercial data cleaning failed")))), l)
    /\ (r = Ok (b1 && b2) \/ is_raise r = true).
Proof.
  intros H1 H2. destruct (run_commercial_cleaning_spec ra rd w p _ _ _ _ H1) as [l Hc].
  match type of Hc with
  | _ = (_, (_, ?p1), _) =>
      destruct (run_noncommercial_cleaning_spec ra rd w1 p1 _ _ _ _ H2) as [l' Hn]
  end.
  cbn [Pipeline.input_dir Pipeline.output_dir commercial_cleaner noncommercial_cleaner
       results commercial non_commercial] in Hn.
  set (p2 := mkPipeline (Pipeline.input_dir p) (Pipeline.output_dir p) c1 n2
               (mkResults
                  (Some (if b1 then Succeeded (str_path f1) s1
                         else Failed "Commercial data cleaning failed"))
                  (Some (if b2 then Succeeded (str_path f2) s2
                         else Failed "Non-commercial data cleaning failed")))).
  assert (Hn' : run_noncommercial_cleaning noncommercial_run ra rd
                  (w1, mkPipeline (Pipeline.input_dir p) (Pipeline.output_dir p) c1
                                  (noncommercial_cleaner p)
                                  (if b1
                                   then mkResults (Some (Succeeded (str_path f1) s1))
                                                  (non_commercial (results p))
                                   else mkResults (Some (Failed "Commercial data cleaning failed"))
                                                  (non_commercial (results p))))
                = (Ok b2, (w2, p2), l')).
  { rewrite Hn. unfold p2. destruct b1, b2; reflexivity. }
  pose proof (generate_pipeline_report_frame (w2, p2)) as Hf.
  destruct (generate_pipeline_report (w2, p2)) as [[rr s3] l3] eqn:Hr.
  unfold final in Hf. cbn [fst snd] in Hf. subst s3.
  destruct rr as [[]|e].
  - do 2 eexists. split.
    + unfold run_full_pipeline.
      do 11 (eapply bind_Ok; [reflexivity|]).
      eapply bind_Ok; [exact Hc|].
      eapply bind_Ok; [exact Hn'|].
      eapply bind_Ok; [exact Hr|].
      eapply bind_Ok; [apply if_logging_info|].
      reflexivity.
    + now left.
  - do 2 eexists. split.
    + unfold run_full_pipeline.
      do 11 (eapply bind_Ok; [reflexivity|]).
      eapply bind_Ok; [exact Hc|].
      eapply bind_Ok; [exact Hn'|].
      eapply bind_Raise. exact Hr.
    + now right.
Qed.

End OrchestratorSteps.

Section OrchestratorProperties.

Context {NC : Type}.
Variable parse : string -> option Q.
Variable noncommercial_run :
  bool -> bool -> M (St NC) (bool * option string * option NonCommercialSummary.t).

(** X19. When [run_commercial_cleaning] returns [True], the entry
    ['commercial'] of the results holds the path of the CSV the cleaner
    has just written and a summary whose [cleaned_row_count] is the
    number of rows of that file; when it returns [False], the entry is
    the failure record and no file was written.  Either way the entry
    ['non_commercial'] and the non-commercial cleaner are untouched. *)
Theorem run_commercial_cleaning_records_the_outcome
        (ra rd : bool) (w : World.t) (p : FisheriesCleaningPipeline NC) (b : bool) :
  returned (run_commercial_cleaning parse ra rd (w, p)) = Ok b ->
  non_commercial (results (snd (final (run_commercial_cleaning parse ra rd (w, p)))))
  = non_commercial (results p)
  /\ noncommercial_cleaner (snd (final (run_commercial_cleaning parse ra rd (w, p))))
     = noncommercial_cleaner p
  /\ if b
     then exists df summary,
         commercial (results (snd (final (run_commercial_cleaning parse ra rd (w, p)))))
         = Some (Succeeded (output_path w (commercial_cleaner p)) (Some summary))
         /\ csv_written (fst (final (run_commercial_cleaning parse ra rd (w, p))))
            = (output_path w (commercial_cleaner p), df) :: csv_written w
         /\ Summary.cleaned_row_count summary = len df
     else commercial (results (snd (final (run_commercial_cleaning parse ra rd (w, p)))))
          = Some (Failed "Commercial data cleaning failed")
          /\ fst (final (run_commercial_cleaning parse ra rd (w, p))) = w.
Proof.
  destruct (run_cleaning_pipeline parse ra rd (w, commercial_cleaner p))
    as [[r [w1 c1]] l1] eqn:H.
  destruct (run_commercial_cleaning_spec parse ra rd w p _ _ _ _ H) as [l ->].
  unfold returned, final. cbn [fst snd]. intros Hb.
  destruct r as [[[b1 f1] s1]|e]; [|discriminate]. inversion Hb; subst b1. clear Hb.
  destruct b; cbn [results non_commercial commercial noncommercial_cleaner].
  - split; [reflexivity|]. split; [reflexivity|].
    destruct (run_success _ _ _ _ _ _ _ _ _ H) as (df0 & sm & _ & _ & -> & -> & Hs).
    cbv zeta in Hs. destruct Hs as (Hs & _ & Hc & _). inversion Hs; subst.
    exists (cleaned parse ra rd df0), sm. now repeat split.
  - split; [reflexivity|]. split; [reflexivity|]. split; [reflexivity|].
    assert (Hr : returned (run_cleaning_pipeline parse ra rd (w, commercial_cleaner p))
                 = Ok (false, f1, s1)) by now rewrite H.
    destruct (run_failure _ _ _ _ _ _ _ Hr) as (_ & _ & Hw). now rewrite H in Hw.
Qed.

(** X20. When [run_full_pipeline] returns, both cleaners have run, the
    non-commercial one in the world the commercial one left and whether
    or not the commercial cleaning succeeded; the result is the
    conjunction of the two success flags, and each entry of the results
    records what its cleaner returned. *)
Theorem run_full_pipeline_runs_both_cleaners
        (ra rd : bool) (w : World.t) (p : FisheriesCleaningPipeline NC) (b : bool) :
  returned (run_full_pipeline parse noncommercial_run ra rd (w, p)) = Ok b ->
  exists b1 f1 s1 b2 f2 s2,
    returned (run_cleaning_pipeline parse ra rd (w, commercial_cleaner p)) = Ok (b1, f1, s1)
    /\ returned (noncommercial_run ra rd
                   (fst (final (run_cleaning_pipeline parse ra rd (w, commercial_cleaner p))),
                    noncommercial_cleaner p))
       = Ok (b2, f2, s2)
    /\ b = b1 && b2
    /\ results (snd (final (run_full_pipeline parse noncommercial_run ra rd (w, p))))
       = mkResults
           (Some (if b1 then Succeeded (str_path f1) s1
                  else Failed "Commercial data cleaning failed"))
           (Some (if b2 then Succeeded (str_path f2) s2
                  else Failed "Non-commercial data cleaning failed")).
Proof.
  destruct (run_cleaning_pipeline parse ra rd (w, commercial_cleaner p))
    as [[r1 [w1 c1]] l1] eqn:H1.
  unfold final at 1. cbn [fst snd].
  destruct r1 as [[[b1 f1] s1]|e].
  2:{ destruct (run_full_pipeline_commercial_raises parse noncommercial_run
                  ra rd w p _ _ _ _ H1) as [l ->]. discriminate. }
  destruct (noncommercial_run ra rd (w1, noncommercial_cleaner p))
    as [[r2 [w2 n2]] l2] eqn:H2.
  destruct r2 as [[[b2 f2] s2]|e].
  2:{ destruct (run_full_pipeline_noncommercial_raises parse noncommercial_run
                  ra rd w p _ _ _ _ _ _ _ _ _ _ H1 H2) as [l ->]. discriminate. }
  destruct (run_full_pipeline_both_return parse noncommercial_run
              ra rd w p _ _ _ _ _ _ _ _ _ _ _ _ H1 H2) as (r & l & -> & Hr).
  unfold returned, final. cbn [fst snd results]. intros ->.
  destruct Hr as [Hr|Hr]; [|discriminate]. inversion Hr.
  exists b1, f1, s1, b2, f2, s2. now repeat split.
Qed.

(** X21. An exception raised inside the commercial cleaner is not
    caught: [run_full_pipeline] raises it.  The world is as the cleaner
    left it, nothing is recorded in the results, and the non-commercial
    cleaner is never run: the outcome is the same whatever that cleaner
    would do. *)
Theorem run_full_pipeline_stops_when_the_commercial_cleaner_raises
        (ra rd : bool) (w : World.t) (p : FisheriesCleaningPipeline NC) (e : exn) :
  returned (run_cleaning_pipeline parse ra rd (w, commercial_cleaner p)) = Raise e ->
  returned (run_full_pipeline parse noncommercial_run ra rd (w, p)) = Raise e
  /\ fst (final (run_full_pipeline parse noncommercial_run ra rd (w, p)))
     = fst (final (run_cleaning_pipeline parse ra rd (w, commercial_cleaner p)))
  /\ results (snd (final (run_full_pipeline parse noncommercial_run ra rd (w, p))))
     = results p
  /\ noncommercial_cleaner (snd (final (run_full_pipeline parse noncommercial_run ra rd (w, p))))
     = noncommercial_cleaner p
  /\ forall other,
      returned (run_full_pipeline parse other ra rd (w, p)) = Raise e
      /\ final (run_full_pipeline parse other ra rd (w, p))
         = final (run_full_pipeline parse noncommercial_run ra rd (w, p)).
Proof.
  destruct (run_cleaning_pipeline parse ra rd (w, commercial_cleaner p))
    as [[r1 [w1 c1]] l1] eqn:H1.
  unfold returned at 1. cbn [fst snd]. intros ->.
  destruct (run_full_pipeline_commercial_raises parse noncommercial_run
              ra rd w p _ _ _ _ H1) as [l ->].
  unfold returned, final. cbn [fst snd results noncommercial_cleaner].
  repeat split;
    destruct (run_full_pipeline_commercial_raises parse other ra rd w p _ _ _ _ H1)
      as [l' ->]; reflexivity.
Qed.

(** X22. Whatever the input, the flags and the outcome of the two
    cleanings, [run_full_pipeline] writes no summary file, as long as the
    non-commercial cleaner writes none: it never calls
    [generate_combined_summary] or [export_summary_json]. *)
Theorem run_full_pipeline_never_writes_the_summary
        (ra rd : bool) (s : Pipeline.state NC) :
  (forall a d s', json_written (fst (final (noncommercial_run a d s')))
                  = json_written (fst s')) ->
  json_written (fst (final (run_full_pipeline parse noncommercial_run ra rd s)))
  = json_written (fst s).
Proof.
  intros H. apply (keeps_run_full_pipeline parse noncommercial_run H).
Qed.

(** X23. When both entries of the results hold a summary,
    [generate_combined_summary] returns both summaries and the [overall]
    block: [total_records] is the sum of the two [cleaned_row_count],
    [total_exchange_value] the sum of the two totals, and the combined
    range runs from the lesser [min_year] to the greater [max_year].  It
    changes nothing. *)
Theorem combined_summary_adds_up
        (w : World.t) (p : FisheriesCleaningPipeline NC) (fc fn : string)
        (c : Summary.t) (n : NonCommercialSummary.t) :
  results p = mkResults (Some (Succeeded fc (Some c))) (Some (Succeeded fn (Some n))) ->
  exists cs o,
    returned (generate_combined_summary (w, p)) = Ok cs
    /\ final (generate_combined_summary (w, p)) = (w, p)
    /\ CombinedSummary.commercial cs = Some c
    /\ CombinedSummary.non_commercial cs = Some n
    /\ CombinedSummary.overall cs = Some o
    /\ CombinedSummary.total_records o
       = Summary.cleaned_row_count c + NonCommercialSummary.cleaned_row_count n
    /\ (CombinedSummary.total_exchange_value o
        == Summary.total_exchange_value c + NonCommercialSummary.total_exchange_value n)%Q
    /\ Summary.min_year (CombinedSummary.combined_date_range o)
       = Z.min (Summary.min_year (Summary.date_range c))
               (Summary.min_year (NonCommercialSummary.date_range n))
    /\ Summary.max_year (CombinedSummary.combined_date_range o)
       = Z.max (Summary.max_year (Summary.date_range c))
               (Summary.max_year (NonCommercialSummary.date_range n)).
Proof.
  intros H. destruct p as [i o cc nc rs]. cbn [results] in H. subst rs.
  do 2 eexists. split; [reflexivity|]. split; [reflexivity|].
  cbn [CombinedSummary.commercial CombinedSummary.non_commercial CombinedSummary.overall].
  repeat split. cbn [CombinedSummary.total_exchange_value]. apply Qred_correct.
Qed.

(** X24. Called on what [run_full_pipeline] leaves behind,
    [generate_combined_summary] returns exactly when the run returned
    [True]: it then gives both summaries and the [overall] block with the
    counts added; after a run that returned [False] it raises
    [KeyError('summary')].  (The non-commercial cleaner is taken to
    return a summary whenever it reports success.) *)
Theorem combined_summary_needs_both_cleaners_to_succeed
        (ra rd : bool) (w : World.t) (p : FisheriesCleaningPipeline NC) (b : bool) :
  (forall s f sm, returned (noncommercial_run ra rd s) = Ok (true, f, sm) -> sm <> None) ->
  returned (run_full_pipeline parse noncommercial_run ra rd (w, p)) = Ok b ->
  if b
  then exists cs c n o,
      returned (generate_combined_summary
                  (final (run_full_pipeline parse noncommercial_run ra rd (w, p))))
      = Ok cs
      /\ CombinedSummary.commercial cs = Some c
      /\ CombinedSummary.non_commercial cs = Some n
      /\ CombinedSummary.overall cs = Some o
      /\ CombinedSummary.total_records o
         = Summary.cleaned_row_count c + NonCommercialSummary.cleaned_row_count n
  else returned (generate_combined_summary
                   (final (run_full_pipeline parse noncommercial_run ra rd (w, p))))
       = Raise (KeyError "summary").
Proof.
  intros Hn.
  destruct (run_cleaning_pipeline parse ra rd (w, commercial_cleaner p))
    as [[r1 [w1 c1]] l1] eqn:H1.
  destruct r1 as [[[b1 f1] s1]|e].
  2:{ destruct (run_full_pipeline_commercial_raises parse noncommercial_run
                  ra rd w p _ _ _ _ H1) as [l ->]. discriminate. }
  destruct (noncommercial_run ra rd (w1, noncommercial_cleaner p))
    as [[r2 [w2 n2]] l2] eqn:H2.
  destruct r2 as [[[b2 f2] s2]|e].
  2:{ destruct (run_full_pipeline_noncommercial_raises parse noncommercial_run
                  ra rd w p _ _ _ _ _ _ _ _ _ _ H1 H2) as [l ->]. discriminate. }
  destruct (run_full_pipeline_both_return parse noncommercial_run
              ra rd w p _ _ _ _ _ _ _ _ _ _ _ _ H1 H2) as (r & l & -> & Hr).
  unfold returned at 1, final. cbn [fst snd]. intros ->.
  destruct Hr as [Hr|Hr]; [|discriminate]. inversion Hr; subst b. clear Hr.
  destruct b1.
  - destruct (run_success _ _ _ _ _ _ _ _ _ H1) as (df0 & sm & _ & _ & _ & -> & _).
    destruct b2; [|reflexivity].
    assert (Hs : s2 <> None).
    { apply (Hn (w1, noncommercial_cleaner p) f2). now rewrite H2. }
    destruct s2 as [sn|]; [|congruence].
    cbn [andb]. do 4 eexists. split; [reflexivity|]. repeat split.
  - reflexivity.
Qed.

(** X25. [generate_pipeline_report] only logs: it changes neither the
    orchestrator nor the files.  It reports the commercial cleaning as
    failed exactly when its entry is no success (a failure record, or
    [None] because the cleaner never ran), and likewise the
    non-commercial one; it raises only on a success entry whose summary
    is [None]. *)
Theorem generate_pipeline_report_only_logs (s : Pipeline.state NC) :
  final (generate_pipeline_report s) = s
  /\ is_raise (returned (generate_pipeline_report s))
     = lacks_summary (commercial (results (snd s)))
       || lacks_summary (non_commercial (results (snd s)))
  /\ logs "COMMERCIAL FISHERIES: FAILED" (logged (generate_pipeline_report s))
     = negb (succeeded (commercial (results (snd s))))
  /\ (lacks_summary (commercial (results (snd s))) = false ->
      logs "NON-COMMERCIAL FISHERIES: FAILED" (logged (generate_pipeline_report s))
      = negb (succeeded (non_commercial (results (snd s))))).
Proof.
  destruct s as [w [i o cc nc [c n]]].
  destruct c as [[fc [sc|]|ec]|], n as [[fn [sn|]|en]|];
    repeat split; try reflexivity; discriminate.
Qed.

(** X26. [main] runs the pipeline with [remove_aggregates=False]: when
    it returns [True], the table the commercial cleaner holds and has
    exported has the columns of the loaded table and every loaded row,
    coerced, whose [exchange_value] is not null, the rows of "All Species"
    and "All Ecosystems" included. *)
Theorem main_keeps_aggregate_rows
        (noncommercial_init : string -> string -> NC) (w : World.t) :
  returned (main parse noncommercial_init noncommercial_run w) = Ok true ->
  exists df0 df,
    loaded (w, CleanCommercial.init "data/raw" "data/cleaned") = Some df0
    /\ data (commercial_cleaner (snd (final (main parse noncommercial_init noncommercial_run w))))
       = Some df
    /\ columns df = columns df0
    /\ rows df
       = filter (fun r => notna (cell_at (columns df0) "exchange_value" r))
                (map (coerce_row parse (columns df0)) (rows df0)).
Proof.
  unfold main.
  set (p := Pipeline.init noncommercial_init "data/raw" "data/cleaned").
  change (CleanCommercial.init "data/raw" "data/cleaned") with (commercial_cleaner p).
  destruct (run_cleaning_pipeline parse false false (w, commercial_cleaner p))
    as [[r1 [w1 c1]] l1] eqn:H1.
  destruct r1 as [[[b1 f1] s1]|e].
  2:{ destruct (run_full_pipeline_commercial_raises parse noncommercial_run
                  false false w p _ _ _ _ H1) as [l ->]. discriminate. }
  destruct (noncommercial_run false false (w1, noncommercial_cleaner p))
    as [[r2 [w2 n2]] l2] eqn:H2.
  destruct r2 as [[[b2 f2] s2]|e].
  2:{ destruct (run_full_pipeline_noncommercial_raises parse noncommercial_run
                  false false w p _ _ _ _ _ _ _ _ _ _ H1 H2) as [l ->]. discriminate. }
  destruct (run_full_pipeline_both_return parse noncommercial_run
              false false w p _ _ _ _ _ _ _ _ _ _ _ _ H1 H2) as (r & l & -> & Hr).
  unfold returned, final. cbn [fst snd commercial_cleaner]. intros ->.
  destruct Hr as [Hr|Hr]; [|discriminate]. inversion Hr as [Hb].
  symmetry in Hb. apply andb_true_iff in Hb. destruct Hb as [-> _].
  destruct (run_success _ _ _ _ _ _ _ _ _ H1) as (df0 & sm & Hl & _ & _ & _ & Hs).
  cbv zeta in Hs. destruct Hs as (Hs & _). inversion Hs; subst.
  exists df0, (cleaned parse false false df0). split; [exact Hl|]. split; [reflexivity|].
  split; [apply columns_cleaned|].
  rewrite rows_cleaned. cbn [display_columns_of strip]. rewrite map_id.
  apply filter_ext. intros r. unfold kept, has_value. cbn [andb negb]. apply andb_true_r.
Qed.

End OrchestratorProperties.

Lemma run_commercial_cleaning_records_the_outcome_witness :
  returned (run_commercial_cleaning Samples.no_parse true false
              (Samples.world_of Samples.table_mixed, Samples.pipeline))
  = Ok true
  /\ non_commercial
       (results (snd (final (run_commercial_cleaning Samples.no_parse true false
                               (Samples.world_of Samples.table_mixed, Samples.pipeline)))))
     = non_commercial (results Samples.pipeline)
  /\ noncommercial_cleaner
       (snd (final (run_commercial_cleaning Samples.no_parse true false
                      (Samples.world_of Samples.table_mixed, Samples.pipeline))))
     = noncommercial_cleaner Samples.pipeline
  /\ exists df summary,
      commercial
        (results (snd (final (run_commercial_cleaning Samples.no_parse true false
                                (Samples.world_of Samples.table_mixed, Samples.pipeline)))))
      = Some (Succeeded (output_path (Samples.world_of Samples.table_mixed)
                                     (commercial_cleaner Samples.pipeline))
                        (Some summary))
      /\ csv_written
           (fst (final (run_commercial_cleaning Samples.no_parse true false
                          (Samples.world_of Samples.table_mixed, Samples.pipeline))))
         = (output_path (Samples.world_of Samples.table_mixed)
                        (commercial_cleaner Samples.pipeline), df)
             :: csv_written (Samples.world_of Samples.table_mixed)
      /\ Summary.cleaned_row_count summary = len df.
Proof.
  assert (H : returned (run_commercial_cleaning Samples.no_parse true false
                          (Samples.world_of Samples.table_mixed, Samples.pipeline))
              = Ok true)
    by (vm_compute; reflexivity).
  split; [exact H|].
  exact (run_commercial_cleaning_records_the_outcome Samples.no_parse true false
           (Samples.world_of Samples.table_mixed) Samples.pipeline true H).
Defined.

Lemma run_full_pipeline_runs_both_cleaners_witness :
  returned (run_full_pipeline Samples.no_parse Samples.noncommercial_succeeds true false
              (Samples.clock [], Samples.pipeline))
  = Ok false
  /\ exists b1 f1 s1 b2 f2 s2,
      returned (run_cleaning_pipeline Samples.no_parse true false
                  (Samples.clock [], commercial_cleaner Samples.pipeline))
      = Ok (b1, f1, s1)
      /\ returned (Samples.noncommercial_succeeds true false
                     (fst (final (run_cleaning_pipeline Samples.no_parse true false
                                    (Samples.clock [], commercial_cleaner Samples.pipeline))),
                      noncommercial_cleaner Samples.pipeline))
         = Ok (b2, f2, s2)
      /\ false = b1 && b2
      /\ results (snd (final (run_full_pipeline Samples.no_parse
                                Samples.noncommercial_succeeds true false
                                (Samples.clock [], Samples.pipeline))))
         = mkResults
             (Some (if b1 then Succeeded (str_path f1) s1
                    else Failed "Commercial data cleaning failed"))
             (Some (if b2 then Succeeded (str_path f2) s2
                    else Failed "Non-commercial data cleaning failed")).
Proof.
  assert (H : returned (run_full_pipeline Samples.no_parse Samples.noncommercial_succeeds
                          true false (Samples.clock [], Samples.pipeline))
              = Ok false)
    by (vm_compute; reflexivity).
  split; [exact H|].
  exact (run_full_pipeline_runs_both_cleaners Samples.no_parse Samples.noncommercial_succeeds
           true false (Samples.clock []) Samples.pipeline false H).
Defined.

Lemma run_full_pipeline_stops_when_the_commercial_cleaner_raises_witness :
  returned (run_cleaning_pipeline Samples.no_parse true false
              (Samples.world_of Samples.table_all_null, commercial_cleaner Samples.pipeline))
  = Raise (TypeError "int() argument must be a string, a bytes-like object or a real number, not 'NAType'")
  /\ returned (run_full_pipeline Samples.no_parse Samples.noncommercial_succeeds true false
                 (Samples.world_of Samples.table_all_null, Samples.pipeline))
     = Raise (TypeError "int() argument must be a string, a bytes-like object or a real number, not 'NAType'")
  /\ fst (final (run_full_pipeline Samples.no_parse Samples.noncommercial_succeeds true false
                   (Samples.world_of Samples.table_all_null, Samples.pipeline)))
     = fst (final (run_cleaning_pipeline Samples.no_parse true false
                     (Samples.world_of Samples.table_all_null,
                      commercial_cleaner Samples.pipeline)))
  /\ results (snd (final (run_full_pipeline Samples.no_parse Samples.noncommercial_succeeds
                            true false
                            (Samples.world_of Samples.table_all_null, Samples.pipeline))))
     = results Samples.pipeline
  /\ noncommercial_cleaner
       (snd (final (run_full_pipeline Samples.no_parse Samples.noncommercial_succeeds
                      true false
                      (Samples.world_of Samples.table_all_null, Samples.pipeline))))
     = noncommercial_cleaner Samples.pipeline
  /\ forall other,
      returned (run_full_pipeline Samples.no_parse other true false
                  (Samples.world_of Samples.table_all_null, Samples.pipeline))
      = Raise (TypeError "int() argument must be a string, a bytes-like object or a real number, not 'NAType'")
      /\ final (run_full_pipeline Samples.no_parse other true false
                  (Samples.world_of Samples.table_all_null, Samples.pipeline))
         = final (run_full_pipeline Samples.no_parse Samples.noncommercial_succeeds
                    true false
                    (Samples.world_of Samples.table_all_null, Samples.pipeline)).
Proof.
  assert (H : returned (run_cleaning_pipeline Samples.no_parse true false
                          (Samples.world_of Samples.table_all_null,
                           commercial_cleaner Samples.pipeline))
              = Raise (TypeError "int() argument must be a string, a bytes-like object or a real number, not 'NAType'"))
    by (vm_compute; reflexivity).
  split; [exact H|].
  exact (run_full_pipeline_stops_when_the_commercial_cleaner_raises Samples.no_parse
           Samples.noncommercial_succeeds true false
           (Samples.world_of Samples.table_all_null) Samples.pipeline _ H).
Defined.

Lemma run_full_pipeline_never_writes_the_summary_witness :
  (forall a d s',
      json_written (fst (final (Samples.noncommercial_succeeds a d s')))
      = json_written (fst s'))
  /\ json_written
       (fst (final (run_full_pipeline Samples.no_parse Samples.noncommercial_succeeds
                      true false (Samples.world_of Samples.table_mixed, Samples.pipeline))))
     = json_written (fst (Samples.world_of Samples.table_mixed, Samples.pipeline)).
Proof.
  assert (H : forall a d s',
             json_written (fst (final (Samples.noncommercial_succeeds a d s')))
             = json_written (fst s'))
    by (intros a d s'; reflexivity).
  split; [exact H|].
  exact (run_full_pipeline_never_writes_the_summary Samples.no_parse
           Samples.noncommercial_succeeds true false
           (Samples.world_of Samples.table_mixed, Samples.pipeline) H).
Defined.

Lemma combined_summary_adds_up_witness :
  results Samples.pipeline_done
  = mkResults (Some (Succeeded Samples.exported_file (Some Samples.summary_mixed)))
              (Some (Succeeded "data/cleaned/cleaned_noncommercial_20240101.csv"
                               (Some Samples.noncommercial_summary)))
  /\ exists cs o,
      returned (generate_combined_summary (Samples.clock [], Samples.pipeline_done)) = Ok cs
      /\ final (generate_combined_summary (Samples.clock [], Samples.pipeline_done))
         = (Samples.clock [], Samples.pipeline_done)
      /\ CombinedSummary.commercial cs = Some Samples.summary_mixed
      /\ CombinedSummary.non_commercial cs = Some Samples.noncommercial_summary
      /\ CombinedSummary.overall cs = Some o
      /\ CombinedSummary.total_records o
         = Summary.cleaned_row_count Samples.summary_mixed
           + NonCommercialSummary.cleaned_row_count Samples.noncommercial_summary
      /\ (CombinedSummary.total_exchange_value o
          == Summary.total_exchange_value Samples.summary_mixed
             + NonCommercialSummary.total_exchange_value Samples.noncommercial_summary)%Q
      /\ Summary.min_year (CombinedSummary.combined_date_range o)
         = Z.min (Summary.min_year (Summary.date_range Samples.summary_mixed))
                 (Summary.min_year (NonCommercialSummary.date_range
                                      Samples.noncommercial_summary))
      /\ Summary.max_year (CombinedSummary.combined_date_range o)
         = Z.max (Summary.max_year (Summary.date_range Samples.summary_mixed))
                 (Summary.max_year (NonCommercialSummary.date_range
                                      Samples.noncommercial_summary)).
Proof.
  split; [reflexivity|].
  exact (combined_summary_adds_up (Samples.clock []) Samples.pipeline_done
           Samples.exported_file "data/cleaned/cleaned_noncommercial_20240101.csv"
           Samples.summary_mixed Samples.noncommercial_summary eq_refl).
Defined.

Lemma combined_summary_needs_both_cleaners_to_succeed_witness :
  ((forall s f sm,
       returned (Samples.noncommercial_succeeds true false s) = Ok (true, f, sm) ->
       sm <> None)
   /\ returned (run_full_pipeline Samples.no_parse Samples.noncommercial_succeeds true false
                  (Samples.world_of Samples.table_mixed, Samples.pipeline))
      = Ok true)
  /\ exists cs c n o,
      returned (generate_combined_summary
                  (final (run_full_pipeline Samples.no_parse Samples.noncommercial_succeeds
                            true false
                            (Samples.world_of Samples.table_mixed, Samples.pipeline))))
      = Ok cs
      /\ CombinedSummary.commercial cs = Some c
      /\ CombinedSummary.non_commercial cs = Some n
      /\ CombinedSummary.overall cs = Some o
      /\ CombinedSummary.total_records o
         = Summary.cleaned_row_count c + NonCommercialSummary.cleaned_row_count n.
Proof.
  assert (H1 : forall s f sm,
             returned (Samples.noncommercial_succeeds true false s) = Ok (true, f, sm) ->
             sm <> None)
    by (intros s f sm E; inversion E; discriminate).
  assert (H2 : returned (run_full_pipeline Samples.no_parse Samples.noncommercial_succeeds
                           true false
                           (Samples.world_of Samples.table_mixed, Samples.pipeline))
               = Ok true)
    by (vm_compute; reflexivity).
  split; [now split|].
  exact (combined_summary_needs_both_cleaners_to_succeed Samples.no_parse
           Samples.noncommercial_succeeds true false
           (Samples.world_of Samples.table_mixed) Samples.pipeline true H1 H2).
Defined.

Lemma main_keeps_aggregate_rows_witness :
  returned (main Samples.no_parse Samples.noncommercial_new Samples.noncommercial_succeeds
                 (Samples.world_of Samples.table_mixed))
  = Ok true
  /\ exists df0 df,
      loaded (Samples.world_of Samples.table_mixed,
              CleanCommercial.init "data/raw" "data/cleaned")
      = Some df0
      /\ data (commercial_cleaner
                 (snd (final (main Samples.no_parse Samples.noncommercial_new
                                   Samples.noncommercial_succeeds
                                   (Samples.world_of Samples.table_mixed)))))
         = Some df
      /\ columns df = columns df0
      /\ rows df
         = filter (fun r => notna (cell_at (columns df0) "exchange_value" r))
                  (map (coerce_row Samples.no_parse (columns df0)) (rows df0)).
Proof.
  assert (H : returned (main Samples.no_parse Samples.noncommercial_new
                             Samples.noncommercial_succeeds
                             (Samples.world_of Samples.table_mixed))
              = Ok true)
    by (vm_compute; reflexivity).
  split; [exact H|].
  exact (main_keeps_aggregate_rows Samples.no_parse Samples.noncommercial_succeeds
           Samples.noncommercial_new (Samples.world_of Samples.table_mixed) H).
Defined.
